(** * Office Online integration module: a shallow embedding

    This development models [webapp-integrations-office-online.js], the
    module that embeds the Office Online editor in an iframe, exchanges
    [postMessage] events with it and reports load times.

    - JavaScript strings are sequences of UTF-16 code units ([list N]).
    - Numbers are the rationals that finite doubles denote, with [NaN] for
      the result of arithmetic on [undefined]; a subtraction rounds its
      exact result to the nearest double, as the machine does.
    - Side effects (module-level variables, the page, the telemetry sink,
      the frame's message queue) are threaded through a state-and-exception
      monad [M].
    - Built-ins whose result the module only passes along ([JSON.parse],
      [JSON.stringify], the localisation function [$t], the number printer,
      the check [postMessage] makes of its target origin) are fields of the
      [Host] record; [decodeURIComponent] and the regular expression of
      [getParameterByName] are modelled in full. *)

From Stdlib Require Import NArith ZArith QArith Qround Qpower List Lia Lqa.
From Stdlib.Strings Require Import Byte.
From stdpp Require Import base option list countable gmap pretty sorting.

Local Open Scope N_scope.

(** ** JavaScript strings *)

(** A string is its sequence of UTF-16 code units. *)
Abbreviation jsstring := (list N).

(** String literals denote such sequences, one unit per character. *)
Definition literal := list N.

Inductive units := UNil | UCons (n : N) (r : units).

Fixpoint units_of_bytes (l : list byte) : units :=
  match l with
  | [] => UNil
  | b :: r => UCons (N.of_nat (Byte.to_nat b)) (units_of_bytes r)
  end.

Fixpoint bytes_of_units (s : units) : option (list byte) :=
  match s with
  | UNil => Some []
  | UCons c r =>
      match Byte.of_N c, bytes_of_units r with
      | Some b, Some r' => Some (b :: r')
      | _, _ => None
      end
  end.

Declare Scope js_scope.
Delimit Scope js_scope with js.
#[warnings="-via-type-remapping,-via-type-mismatch"]
String Notation literal units_of_bytes bytes_of_units
  (via units mapping [[nil] => UNil, [cons] => UCons]) : js_scope.
Local Open Scope js_scope.

(** The quotation mark, for building JSON texts. *)
Definition dquote : jsstring := [34].
Definition quoted (s : jsstring) : jsstring := dquote ++ s ++ dquote.

(** Strict equality of two strings. *)
Definition str_eqb (s t : jsstring) : bool := bool_decide (s = t).

(** ** Exceptions and results *)

(** The exceptions of the language that the module can meet, and
    [DOMSyntaxError], the [DOMException] named [SyntaxError] that
    [postMessage] throws at a target origin it cannot parse. *)
Inductive error := TypeError | SyntaxError | URIError | DOMSyntaxError.

Inductive result (A : Type) :=
| Ok (a : A)
| Throw (e : error).
Arguments Ok {A} a.
Arguments Throw {A} e.

Definition result_bind {A B} (r : result A) (k : A -> result B) : result B :=
  match r with
  | Ok a => k a
  | Throw e => Throw e
  end.

(** ** [decodeURIComponent]

    The [Decode] operation of ECMA-262 with an empty reserved set: a [%]
    must be followed by two hexadecimal digits; an octet with the top bit
    set starts a UTF-8 sequence of two to four escaped octets, which must be
    the shortest encoding of a code point that is not a surrogate; code
    points above the basic plane come out as a surrogate pair. *)

Definition hexDigit (c : N) : option N :=
  if (48 <=? c) && (c <=? 57) then Some (c - 48)
  else if (65 <=? c) && (c <=? 70) then Some (c - 55)
  else if (97 <=? c) && (c <=? 102) then Some (c - 87)
  else None.

(** Reads [%XY] at the head of [s]: the octet and the rest. *)
Definition escapedOctet (s : jsstring) : option (N * jsstring) :=
  match s with
  | 37 :: h :: l :: rest =>
      match hexDigit h, hexDigit l with
      | Some a, Some b => Some (16 * a + b, rest)
      | _, _ => None
      end
  | _ => None
  end.

(** Reads [k] continuation octets [%XY] with top bits [10], accumulating
    their payload bits into [acc]. *)
Fixpoint continuation (k : nat) (acc : N) (s : jsstring) : option (N * jsstring) :=
  match k with
  | O => Some (acc, s)
  | S k' =>
      match escapedOctet s with
      | Some (b, rest) =>
          if N.land b 192 =? 128
          then continuation k' (N.lor (N.shiftl acc 6) (N.land b 63)) rest
          else None
      | None => None
      end
  end.

(** Number of octets announced by a leading octet with the top bit set,
    with the payload bits of that octet. *)
Definition leadingOctet (b : N) : option (nat * N) :=
  if b <? 192 then None
  else if b <? 224 then Some (2%nat, N.land b 31)
  else if b <? 240 then Some (3%nat, N.land b 15)
  else if b <? 248 then Some (4%nat, N.land b 7)
  else None.

(** A code point is acceptable for a sequence of [n] octets when [n] is
    its shortest encoding and it is a Unicode scalar value. *)
Definition validCodePoint (n : nat) (v : N) : bool :=
  match n with
  | 2%nat => 128 <=? v
  | 3%nat => (2048 <=? v) && negb ((55296 <=? v) && (v <=? 57343))
  | 4%nat => (65536 <=? v) && (v <=? 1114111)
  | _ => false
  end.

Definition utf16 (v : N) : jsstring :=
  if v <? 65536 then [v]
  else [N.land (N.shiftr (v - 65536) 10) 1023 + 55296;
        N.land (v - 65536) 1023 + 56320].

(** One iteration of the loop of [Decode] on a non-empty input: the code
    units appended to the result and the input left; [None] is a
    [URIError]. *)
Definition decodeStep (c : N) (rest : jsstring) : option (jsstring * jsstring) :=
  if negb (c =? 37) then Some ([c], rest)
  else
    match escapedOctet (c :: rest) with
    | None => None
    | Some (b, rest1) =>
        if b <? 128 then Some ([b], rest1)
        else
          match leadingOctet b with
          | None => None
          | Some (n, payload) =>
              match continuation (pred n) payload rest1 with
              | None => None
              | Some (v, rest2) =>
                  if validCodePoint n v then Some (utf16 v, rest2) else None
              end
          end
    end.

Fixpoint DecodeLoop (fuel : nat) (s : jsstring) : result jsstring :=
  match s with
  | [] => Ok []
  | c :: rest =>
      match fuel with
      | O => Throw URIError
      | S fuel' =>
          match decodeStep c rest with
          | None => Throw URIError
          | Some (out, rest') =>
              result_bind (DecodeLoop fuel' rest') (fun r => Ok (out ++ r))
          end
      end
  end.

(** Every iteration consumes at least one code unit, so the length of the
    input is enough fuel (lemma [DecodeLoop_fuel]). *)
Definition decodeURIComponent (s : jsstring) : result jsstring :=
  DecodeLoop (length s) s.

(** ** [getParameterByName] *)

(** The pattern is assembled as text from the name, after a backslash has
    been put before each bracket of the name, and then compiled. A name is
    therefore matched literally as long as it has no other character that
    is special in a regular expression; [plainName] is that condition, and
    the only name the module passes satisfies it ([key_plain]). The
    matcher below takes the name literally. *)
Definition regexSpecial (c : N) : bool :=
  existsb (N.eqb c) "\^$.|?*+(){}/".

Definition plainName (name : jsstring) : bool :=
  forallb (fun c => negb (regexSpecial c)) name.

(** [s] with the prefix [p] removed, when it starts with [p]. *)
Fixpoint stripPrefix (p s : jsstring) : option jsstring :=
  match p, s with
  | [], _ => Some s
  | a :: p', b :: s' => if a =? b then stripPrefix p' s' else None
  | _ :: _, [] => None
  end.

Definition isDelimiter (c : N) : bool := (c =? 38) || (c =? 35).   (* & # *)
Definition isSeparator (c : N) : bool := (c =? 63) || (c =? 38).   (* ? & *)

(** The greedy "[^&#]*": the longest prefix without [&] and [#]. *)
Fixpoint valueRun (s : jsstring) : jsstring :=
  match s with
  | [] => []
  | c :: r => if isDelimiter c then [] else c :: valueRun r
  end.

(** The group of alternatives at the head of [s]: an equals sign and the
    captured run, or an ampersand, or a hash, or the end of the input. The
    result is the second capture: [Some v] when the first alternative
    matched, [None] (JavaScript [undefined]) for the others. *)
Definition matchGroup (s : jsstring) : option (option jsstring) :=
  match s with
  | [] => Some None
  | c :: r =>
      if c =? 61 then Some (Some (valueRun r))
      else if isDelimiter c then Some None
      else None
  end.

(** The whole pattern, "[?&]" then the name then the group, at the head
    of [s]. *)
Definition matchHere (name s : jsstring) : option (option jsstring) :=
  match s with
  | c :: r =>
      if isSeparator c then
        match stripPrefix name r with
        | Some tail => matchGroup tail
        | None => None
        end
      else None
  | [] => None
  end.

(** [regex.exec(url)]: the leftmost match. *)
Fixpoint regexExec (name url : jsstring) : option (option jsstring) :=
  match matchHere name url with
  | Some g => Some g
  | None =>
      match url with
      | [] => None
      | _ :: r => regexExec name r
      end
  end.

(** [s.replace(/\+/g, ' ')] *)
Definition replacePlus (s : jsstring) : jsstring :=
  map (fun c => if c =? 43 then 32 else c) s.

(** The result is [None] for JavaScript [null]. *)
Definition getParameterByName (name url : jsstring) : result (option jsstring) :=
  match regexExec name url with
  | None => Ok None
  | Some None => Ok (Some "")
  | Some (Some []) => Ok (Some "")
  | Some (Some v) =>
      result_bind (decodeURIComponent (replacePlus v)) (fun d => Ok (Some d))
  end.

(** *** What the search means

    The parameter [name] occurs in [url] after the prefix [pre] when a
    separator and the name follow [pre] and the name ends there: at the end
    of the address or before a delimiter (the occurrence has no value), or
    before an equals sign (its value is the run up to the next delimiter). *)

Definition atBoundary (s : jsstring) : Prop :=
  match s with
  | [] => True
  | c :: _ => isDelimiter c = true
  end.

Inductive occursAt (name url pre : jsstring) : option jsstring -> Prop :=
| occurs_valued (sep : N) (v rest : jsstring) :
    isSeparator sep = true ->
    url = pre ++ sep :: name ++ 61 :: v ++ rest ->
    Forall (fun c => isDelimiter c = false) v ->
    atBoundary rest ->
    occursAt name url pre (Some v)
| occurs_bare (sep : N) (rest : jsstring) :
    isSeparator sep = true ->
    url = pre ++ sep :: name ++ rest ->
    atBoundary rest ->
    occursAt name url pre None.

(** The leftmost occurrence. *)
Definition firstOccurrence (name url pre : jsstring) (g : option jsstring) : Prop :=
  occursAt name url pre g /\
  forall pre' g', occursAt name url pre' g' -> (length pre <= length pre')%nat.

Definition absent (name url : jsstring) : Prop :=
  forall pre g, ~ occursAt name url pre g.

(** ** JavaScript values *)

(** Numbers: a finite double is the rational it denotes; [NaN] is what
    arithmetic on [undefined] gives. *)
Inductive number := Num (q : Q) | NaN.

(** *** Rounding to the nearest double

    The doubles are the multiples [m * 2 ^ e] with [m] below [2 ^ 53] and
    [e] at least [-1074]. The result of an arithmetic operation is its
    exact result rounded to the nearest of them, to the one with an even
    [m] when two are equally near. (Readings of [performance.now()] are
    milliseconds since the page was opened; their differences stay far
    below the largest double, so that rounding never gives an
    infinity.) *)
Definition pow2 (e : Z) : Q := (2 ^ e)%Q.

(** The exponent [e] with [2 ^ e <= x < 2 ^ (e + 1)], for [x] positive. *)
Definition floorLog2 (x : Q) : Z :=
  let d := (Z.log2 (Qnum x) - Z.log2 (Zpos (Qden x)))%Z in
  if Qle_bool (pow2 d) x then d else (d - 1)%Z.

(** The nearest integer, the even one of two equally near. *)
Definition roundHalfEven (t : Q) : Z :=
  let f := Qfloor t in
  match Qcompare (t - inject_Z f) (1 # 2) with
  | Lt => f
  | Gt => (f + 1)%Z
  | Eq => if Z.even f then f else (f + 1)%Z
  end.

(** The double nearest to a positive [x]: the spacing of the doubles
    around [x] is [2 ^ e] with [e] as below, [-1074] being the spacing of
    the subnormal ones. *)
Definition roundMagnitude (x : Q) : Q :=
  let e := Z.max (-1074) (floorLog2 x - 52) in
  (inject_Z (roundHalfEven (x * pow2 (- e))) * pow2 e)%Q.

Definition roundDouble (x : Q) : Q :=
  match Qnum x with
  | Z0 => 0%Q
  | Zpos _ => Qred (roundMagnitude x)
  | Zneg _ => Qred (- roundMagnitude (- x))
  end.
Arguments roundDouble : simpl never.

(** [a - b] *)
Definition number_sub (a b : number) : number :=
  match a, b with
  | Num x, Num y => Num (roundDouble (x - y))
  | _, _ => NaN
  end.

(** [a >= b]; a comparison with [NaN] is false. *)
Definition number_ge (a : number) (b : Q) : bool :=
  match a with
  | Num x => Qle_bool b x
  | NaN => false
  end.

(** The values that travel through the module: what [JSON.parse] can
    return, plus [undefined] for a missing property. *)
#[warnings="-register-all"]
Inductive value :=
| VUndefined
| VNull
| VBool (b : bool)
| VNumber (n : number)
| VString (s : jsstring)
| VArray (items : list value)
| VObject (props : gmap jsstring value).

(** [ToBoolean] *)
Definition truthy (v : value) : bool :=
  match v with
  | VUndefined | VNull => false
  | VBool b => b
  | VNumber (Num q) => negb (Qeq_bool q 0)
  | VNumber NaN => false
  | VString s => match s with [] => false | _ => true end
  | VArray _ | VObject _ => true
  end.

(** [v === s] for a string constant [s]. *)
Definition strictEqualsString (v : value) (s : jsstring) : bool :=
  match v with
  | VString t => str_eqb t s
  | _ => false
  end.

(** [v.key] for a key that no built-in prototype defines (the module reads
    [MessageId], [Values] and [NewName]): a [TypeError] on [undefined] and
    [null], the own property of an object, [undefined] otherwise. *)
Definition getProperty (v : value) (key : jsstring) : result value :=
  match v with
  | VUndefined | VNull => Throw TypeError
  | VObject props => Ok (default VUndefined (props !! key))
  | _ => Ok VUndefined
  end.

(** [data && data.MessageId === id] *)
Definition hasMessageId (data : value) (id : jsstring) : bool :=
  truthy data &&
  match getProperty data "MessageId" with
  | Ok v => strictEqualsString v id
  | Throw _ => false
  end.

Section ToString.
(** [Number::toString], a built-in the module never calls on a number of
    its own making. *)
Variable Number_toString : Q -> jsstring.

(** [ToString], as applied by [+] with a string operand. An array is
    joined with commas. An object made by [JSON.parse] is turned into a
    primitive by the [toString] and [valueOf] it inherits, unless it has a
    property [toString] of its own: that one is not a function, so that no
    method gives a primitive and the conversion throws a [TypeError]. *)
Fixpoint ToString (v : value) : result jsstring :=
  match v with
  | VUndefined => Ok "undefined"
  | VNull => Ok "null"
  | VBool true => Ok "true"
  | VBool false => Ok "false"
  | VNumber (Num q) => Ok (Number_toString q)
  | VNumber NaN => Ok "NaN"
  | VString s => Ok s
  | VArray items =>
      (fix join (l : list value) : result jsstring :=
         match l with
         | [] => Ok []
         | x :: r =>
             result_bind (match x with
                          | VUndefined | VNull => Ok []
                          | _ => ToString x
                          end)
               (fun here =>
                  match r with
                  | [] => Ok here
                  | _ => result_bind (join r) (fun rest => Ok (here ++ "," ++ rest))
                  end)
         end) items
  | VObject props =>
      match props !! "toString" with
      | Some _ => Throw TypeError
      | None => Ok "[object Object]"
      end
  end.
End ToString.

(** ** Constants of the module *)

Definition APP_LOADING_STATUS_MESSAGE_ID : jsstring := "App_LoadingStatus".
Definition POST_MESSAGE_READY_MESSAGE_ID : jsstring := "Host_PostmessageReady".
Definition FILE_RENAME_MESSAGE_ID : jsstring := "File_Rename".
Definition IFRAME_LOAD_TIME_EVENT : jsstring := "IFRAME_LOAD_TIME".
Definition EDITOR_LOAD_TIME_EVENT : jsstring := "EDITOR_LOAD_TIME".

Definition FRAME_HOLDER_CLASS : jsstring := "office-online-frame-holder".
Definition EDITOR_IFRAME_NAME : jsstring := "office-editor".
Definition EDITOR_IFRAME_CLASS : jsstring := "office-editor-frame".
Definition OFFICE_ONLINE_CATEGORY_NAME : jsstring := "office_online".
Definition DISABLE_SAME_ORIGIN_KEY : jsstring := "disableAllowSameOrigin".

(** ** Elements *)

(** An element is its tag, as given to [document.createElement], and its
    content attributes. The properties [name] and [className] of an iframe
    reflect the attributes [name] and [class]. *)
Record Element := {
  tagName : jsstring;
  attributes : gmap jsstring jsstring
}.

Definition createElement (tag : jsstring) : Element :=
  {| tagName := tag; attributes := ∅ |}.

Definition setAttribute (k v : jsstring) (el : Element) : Element :=
  {| tagName := tagName el; attributes := <[k := v]> (attributes el) |}.

Definition getAttribute (k : jsstring) (el : Element) : option jsstring :=
  attributes el !! k.

Definition set_name (v : jsstring) : Element -> Element := setAttribute "name" v.
Definition set_className (v : jsstring) : Element -> Element := setAttribute "class" v.

(** The classes of an element are the tokens of its [class] attribute,
    separated by white space (space, tab, line feed, form feed, carriage
    return). *)
Definition isWhiteSpace (c : N) : bool :=
  (c =? 32) || (c =? 9) || (c =? 10) || (c =? 12) || (c =? 13).

Fixpoint classTokens (current s : jsstring) : list jsstring :=
  match s with
  | [] => match current with [] => [] | _ => [current] end
  | c :: r =>
      if isWhiteSpace c then
        match current with
        | [] => classTokens [] r
        | _ => current :: classTokens [] r
        end
      else classTokens (current ++ [c]) r
  end.

Definition classList (el : Element) : list jsstring :=
  match getAttribute "class" el with
  | Some v => classTokens [] v
  | None => []
  end.

(** Whether the selector [.cls] matches the element. *)
Definition hasClass (cls : jsstring) (el : Element) : bool :=
  bool_decide (cls ∈ classList el).

(** ** The host page *)

(** What the module finds around it: the globals it reads
    ([window.location.href], [invocationUrl]), the configuration behind
    [context.getConfig], the functions it calls without looking at how they
    work ([JSON.parse], [JSON.stringify], the localisation function [$t],
    the printing of numbers), and the readings that [performance.now()] and
    [Date] will give, in the order they are taken. A result [Throw] of
    [JSON_parse] is the exception it raises on a malformed text.

    Two facts about the page decide whether a message can be posted:
    which elements other than iframes have a content window
    ([holdsWindow]; frame and object elements may, a [div] does not), and
    whether [postMessage] accepts the value configured as target origin
    ([targetOriginAccepted]; it throws on a string that is neither [*],
    [/] nor an address it can parse). *)
Record Host := {
  location_href : jsstring;
  invocationUrl : jsstring;
  config : gmap jsstring value;
  JSON_parse : jsstring -> result value;
  JSON_stringify : value -> jsstring;
  translate : jsstring -> jsstring -> list value -> jsstring;
  Number_toString : Q -> jsstring;
  performance_clock : nat -> Q;
  Date_clock : nat -> Z;
  holdsWindow : Element -> bool;
  targetOriginAccepted : value -> bool
}.

(** [el.contentWindow] is a window, not [undefined]: an iframe of the page
    has one. *)
Definition hasContentWindow (h : Host) (el : Element) : bool :=
  str_eqb (tagName el) "iframe" || holdsWindow h el.

(** The [k]-th value [performance.now()] returns: a finite double (the
    type of its result has neither infinity nor [NaN]), the one nearest to
    what the clock shows. *)
Definition reading (h : Host) (k : nat) : Q := roundDouble (performance_clock h k).
Arguments reading : simpl never.

(** [context.getConfig(name)]: the configured value, [undefined] when
    there is none. *)
Definition getConfig (h : Host) (name : jsstring) : value :=
  default VUndefined (config h !! name).

(** ** State *)

(** The module-level variables; [false] and [None] stand for
    [undefined]. *)
Record Vars := {
  domService : bool;
  logger : bool;
  performance : bool;
  startTs : option number;
  win : bool
}.

(** The object built by [logLoadTime]. *)
Record Params := {
  event_name : jsstring;
  load_time : number;
  service_id : value;
  office_online_app_type : value
}.

(** A call of [logger.sendLog]: its arguments (the third one is a
    reference into the heap) and what the referenced object held when
    the call was made. *)
Record LogCall := {
  log_category : jsstring;
  log_type : jsstring;
  log_ref : nat;
  log_seen : option Params
}.

(** A call of [postMessage] on the content window of a frame. *)
Record Posted := {
  posted_frame : nat;
  posted_message : jsstring;
  posted_origin : value
}.

Inductive handler :=
| ReceiveEventFromOfficeOnline
| Foreign (id : nat).

#[global] Instance handler_eq_dec : EqDecision handler.
Proof. solve_decision. Defined.

(** A registration held by the dom service for the window. *)
Record Listener := {
  listener_type : jsstring;
  listener_handler : handler
}.

#[global] Instance Listener_eq_dec : EqDecision Listener.
Proof. solve_decision. Defined.

Record State := {
  vars : Vars;
  heap : list Params;
  (** the elements inside the element of class
      [office-online-frame-holder], in the order of the document
      ([appendChild] puts an element last); [None] when the page has no
      such element *)
  frameHolder : option (list Element);
  (** submissions of the form of class [office-form]; [None] when the
      page has no such form *)
  officeForm : option nat;
  listeners : list Listener;
  parentTitle : jsstring;
  performanceReadings : nat;
  DateReadings : nat;
  telemetry : list LogCall;
  posted : list Posted
}.

Definition set_vars (f : Vars -> Vars) (s : State) : State :=
  {| vars := f (vars s); heap := heap s; frameHolder := frameHolder s;
     officeForm := officeForm s; listeners := listeners s;
     parentTitle := parentTitle s;
     performanceReadings := performanceReadings s;
     DateReadings := DateReadings s; telemetry := telemetry s;
     posted := posted s |}.

Definition set_heap (f : list Params -> list Params) (s : State) : State :=
  {| vars := vars s; heap := f (heap s); frameHolder := frameHolder s;
     officeForm := officeForm s; listeners := listeners s;
     parentTitle := parentTitle s;
     performanceReadings := performanceReadings s;
     DateReadings := DateReadings s; telemetry := telemetry s;
     posted := posted s |}.

Definition set_frameHolder (f : option (list Element) -> option (list Element))
    (s : State) : State :=
  {| vars := vars s; heap := heap s; frameHolder := f (frameHolder s);
     officeForm := officeForm s; listeners := listeners s;
     parentTitle := parentTitle s;
     performanceReadings := performanceReadings s;
     DateReadings := DateReadings s; telemetry := telemetry s;
     posted := posted s |}.

Definition set_officeForm (f : option nat -> option nat) (s : State) : State :=
  {| vars := vars s; heap := heap s; frameHolder := frameHolder s;
     officeForm := f (officeForm s); listeners := listeners s;
     parentTitle := parentTitle s;
     performanceReadings := performanceReadings s;
     DateReadings := DateReadings s; telemetry := telemetry s;
     posted := posted s |}.

Definition set_listeners (f : list Listener -> list Listener) (s : State) : State :=
  {| vars := vars s; heap := heap s; frameHolder := frameHolder s;
     officeForm := officeForm s; listeners := f (listeners s);
     parentTitle := parentTitle s;
     performanceReadings := performanceReadings s;
     DateReadings := DateReadings s; telemetry := telemetry s;
     posted := posted s |}.

Definition set_parentTitle (t : jsstring) (s : State) : State :=
  {| vars := vars s; heap := heap s; frameHolder := frameHolder s;
     officeForm := officeForm s; listeners := listeners s;
     parentTitle := t;
     performanceReadings := performanceReadings s;
     DateReadings := DateReadings s; telemetry := telemetry s;
     posted := posted s |}.

Definition set_performanceReadings (f : nat -> nat) (s : State) : State :=
  {| vars := vars s; heap := heap s; frameHolder := frameHolder s;
     officeForm := officeForm s; listeners := listeners s;
     parentTitle := parentTitle s;
     performanceReadings := f (performanceReadings s);
     DateReadings := DateReadings s; telemetry := telemetry s;
     posted := posted s |}.

Definition set_DateReadings (f : nat -> nat) (s : State) : State :=
  {| vars := vars s; heap := heap s; frameHolder := frameHolder s;
     officeForm := officeForm s; listeners := listeners s;
     parentTitle := parentTitle s;
     performanceReadings := performanceReadings s;
     DateReadings := f (DateReadings s); telemetry := telemetry s;
     posted := posted s |}.

Definition set_telemetry (f : list LogCall -> list LogCall) (s : State) : State :=
  {| vars := vars s; heap := heap s; frameHolder := frameHolder s;
     officeForm := officeForm s; listeners := listeners s;
     parentTitle := parentTitle s;
     performanceReadings := performanceReadings s;
     DateReadings := DateReadings s; telemetry := f (telemetry s);
     posted := posted s |}.

Definition set_posted (f : list Posted -> list Posted) (s : State) : State :=
  {| vars := vars s; heap := heap s; frameHolder := frameHolder s;
     officeForm := officeForm s; listeners := listeners s;
     parentTitle := parentTitle s;
     performanceReadings := performanceReadings s;
     DateReadings := DateReadings s; telemetry := telemetry s;
     posted := f (posted s) |}.

(** ** The monad of the module's functions *)

Definition M (A : Type) : Type := State -> result A * State.

Definition ret {A} (a : A) : M A := fun s => (Ok a, s).

Definition throw {A} (e : error) : M A := fun s => (Throw e, s).

Definition bind {A B} (m : M A) (k : A -> M B) : M B :=
  fun s =>
    match m s with
    | (Ok a, s') => k a s'
    | (Throw e, s') => (Throw e, s')
    end.

Definition lift {A} (r : result A) : M A := fun s => (r, s).

Definition gets {A} (f : State -> A) : M A := fun s => (Ok (f s), s).

Definition modify (f : State -> State) : M unit := fun s => (Ok tt, f s).

(** A method call on a module variable: a [TypeError] when it is still
    [undefined]. *)
Definition bound (var : Vars -> bool) : M unit :=
  fun s => if var (vars s) then (Ok tt, s) else (Throw TypeError, s).

Declare Scope M_scope.
Delimit Scope M_scope with M.
Notation "'let*' x ':=' m 'in' k" := (bind m (fun x => k))
  (at level 10, x name, m at level 100, k at level 200) : M_scope.
Notation "m ';;' k" := (bind m (fun _ => k))
  (at level 100, k at level 200, right associativity) : M_scope.
Local Open Scope M_scope.

(** ** The module *)

Definition PERMISSIVE_SANDBOX : jsstring :=
  "allow-scripts allow-same-origin allow-forms allow-popups allow-top-navigation allow-popups-to-escape-sandbox allow-downloads".
Definition RESTRICTIVE_SANDBOX : jsstring :=
  "allow-scripts allow-forms allow-popups allow-top-navigation allow-popups-to-escape-sandbox allow-downloads".

(** What [domService.query] can find. *)
Inductive node :=
| HolderNode
| FormNode
| FrameNode (i : nat).

(** Position of the first element of class [cls]. *)
Fixpoint findByClass (cls : jsstring) (els : list Element) : option nat :=
  match els with
  | [] => None
  | el :: r =>
      if hasClass cls el then Some O
      else S <$> findByClass cls r
  end.

(** The argument of the message handler: [event.originalEvent.data] is
    [None] when the event has no payload, a string otherwise. *)
Record MessageEvent := { originalEvent_data : option jsstring }.

Section Module.
Variable host : Host.

(** [performance.now()]: the next reading of the clock. *)
Definition performance_now : M number :=
  bound performance;;
  let* k := gets performanceReadings in
  modify (set_performanceReadings S);;
  ret (Num (reading host k)).

(** [domService.query(selector)], for the three selectors of the module:
    the container, the form, and the first element of class
    [office-editor-frame], a class the page uses inside the container
    only; the result is [None] for [null]. *)
Definition query (selector : jsstring) : M (option node) :=
  bound domService;;
  let* s := gets id in
  if str_eqb selector ("." ++ FRAME_HOLDER_CLASS) then
    ret (match frameHolder s with Some _ => Some HolderNode | None => None end)
  else if str_eqb selector ".office-form" then
    ret (match officeForm s with Some _ => Some FormNode | None => None end)
  else if str_eqb selector ("." ++ EDITOR_IFRAME_CLASS) then
    ret (match frameHolder s with
         | Some children => FrameNode <$> findByClass EDITOR_IFRAME_CLASS children
         | None => None
         end)
  else ret None.

(** [logger.sendLog(category, type, params)] hands the sink the three
    arguments, [params] being a reference; the call is recorded with what
    the object holds at that moment. *)
Definition sendLog (category type : jsstring) (ref : nat) : M unit :=
  bound logger;;
  let* h := gets heap in
  modify (set_telemetry (fun t =>
    t ++ [{| log_category := category; log_type := type;
             log_ref := ref; log_seen := h !! ref |}])).

Definition logLoadTime (eventName : jsstring) : M unit :=
  let* now := performance_now in
  let* start := gets (fun s => startTs (vars s)) in
  let loadTime := number_sub now (default NaN start) in
  let eventType : jsstring := "perf" in
  let serviceId := getConfig host "serviceId" in
  let officeOnlineAppType := getConfig host "officeOnlineAppType" in
  let* params := gets (fun s => length (heap s)) in
  modify (set_heap (fun h =>
    h ++ [{| event_name := eventName; load_time := loadTime;
             service_id := serviceId;
             office_online_app_type := officeOnlineAppType |}]));;
  sendLog OFFICE_ONLINE_CATEGORY_NAME eventType params;;
  if number_ge loadTime 10000 then
    modify (set_heap (alter (fun p =>
      {| event_name := event_name p ++ "_slow"; load_time := load_time p;
         service_id := service_id p;
         office_online_app_type := office_online_app_type p |}) params));;
    sendLog OFFICE_ONLINE_CATEGORY_NAME eventType params
  else ret tt.

Definition getOfficeEditorFrameElement : result Element :=
  let officeEditorFrame := createElement "iframe" in
  let officeEditorFrame := set_name EDITOR_IFRAME_NAME officeEditorFrame in
  let officeEditorFrame := set_className EDITOR_IFRAME_CLASS officeEditorFrame in
  let officeEditorFrame := setAttribute "allowfullscreen" "true" officeEditorFrame in
  let officeEditorFrame := setAttribute "allow" "microphone" officeEditorFrame in
  let officeEditorFrame := setAttribute "src" (invocationUrl host) officeEditorFrame in
  result_bind (getParameterByName DISABLE_SAME_ORIGIN_KEY (location_href host))
    (fun disableAllowSameOrigin =>
       match disableAllowSameOrigin with
       | Some (_ :: _) =>
           Ok (setAttribute "sandbox" RESTRICTIVE_SANDBOX officeEditorFrame)
       | _ =>
           Ok (setAttribute "sandbox" PERMISSIVE_SANDBOX officeEditorFrame)
       end).

Definition drawIframe : M unit :=
  let* officeOnlineFrameHolder := query ("." ++ FRAME_HOLDER_CLASS) in
  let* officeEditorFrame := lift getOfficeEditorFrameElement in
  match officeOnlineFrameHolder with
  | Some HolderNode =>
      modify (set_frameHolder (fmap (fun children => children ++ [officeEditorFrame])));;
      logLoadTime IFRAME_LOAD_TIME_EVENT
  | _ => throw TypeError
  end.

Definition postTokenToIframe : M unit :=
  let* officeForm := query ".office-form" in
  match officeForm with
  | Some FormNode => modify (set_officeForm (fmap S))
  | _ => throw TypeError
  end.

(** Modelled from the spec: the dom service of the host application is
    not part of the module. [domService.on(win, type, handler)] subscribes
    the handler to events of that type on the window. *)
Definition domService_on (type : jsstring) (h : handler) : M unit :=
  bound domService;;
  modify (set_listeners (fun ls =>
    ls ++ [{| listener_type := type; listener_handler := h |}])).

(** Modelled from the spec: [domService.off(win, type, handler)]
    unsubscribes the listener: the registrations of that handler for that
    type are dropped, the others are kept. *)
Definition domService_off (type : jsstring) (h : handler) : M unit :=
  bound domService;;
  modify (set_listeners (filter (fun l =>
    l <> {| listener_type := type; listener_handler := h |}))).

Definition subscribeToEventsFromOfficeOnline : M unit :=
  domService_on "message" ReceiveEventFromOfficeOnline.

Definition destroy : M unit :=
  domService_off "message" ReceiveEventFromOfficeOnline.

Definition init : M unit :=
  modify (set_vars (fun v =>
    {| domService := true; logger := logger v; performance := performance v;
       startTs := startTs v; win := win v |}));;
  modify (set_vars (fun v =>
    {| domService := domService v; logger := true; performance := performance v;
       startTs := startTs v; win := win v |}));;
  modify (set_vars (fun v =>
    {| domService := domService v; logger := logger v; performance := performance v;
       startTs := startTs v; win := true |}));;
  modify (set_vars (fun v =>
    {| domService := domService v; logger := logger v; performance := true;
       startTs := startTs v; win := win v |}));;
  let* now := performance_now in
  modify (set_vars (fun v =>
    {| domService := domService v; logger := logger v;
       performance := performance v; startTs := Some now; win := win v |}));;
  drawIframe;;
  postTokenToIframe;;
  subscribeToEventsFromOfficeOnline.

Definition getCurrentTimestamp : M number :=
  let* k := gets DateReadings in
  modify (set_DateReadings S);;
  ret (Num (inject_Z (Date_clock host k))).

(** [officeFrame.contentWindow.postMessage(message, origin)]: a
    [TypeError] when no element was found ([null] has no property) or when
    the element found has no content window ([undefined] has no
    property); then [postMessage] checks the target origin before it
    queues the message. *)
Definition publishMessage (message : value) : M unit :=
  let message := JSON_stringify host message in
  let* officeFrame := query ".office-editor-frame" in
  let origin := getConfig host "origin" in
  match officeFrame with
  | Some (FrameNode i) =>
      let* contentWindow :=
        gets (fun s =>
          match frameHolder s ≫= (fun children => children !! i) with
          | Some el => hasContentWindow host el
          | None => false
          end) in
      if contentWindow then
        if targetOriginAccepted host origin then
          modify (set_posted (fun l =>
            l ++ [{| posted_frame := i; posted_message := message;
                     posted_origin := origin |}]))
        else throw DOMSyntaxError
      else throw TypeError
  | _ => throw TypeError
  end.

(** The object literal of [publishReadyMessage]. *)
Definition readyMessage (sendTime : number) : value :=
  VObject (<["MessageId" := VString POST_MESSAGE_READY_MESSAGE_ID]>
          (<["SendTime" := VNumber sendTime]>
          (<["Values" := VObject ∅]> ∅))).

Definition publishReadyMessage : M unit :=
  let* sendTime := getCurrentTimestamp in
  publishMessage (readyMessage sendTime).

Definition receiveEventFromOfficeOnline (event : MessageEvent) : M unit :=
  match originalEvent_data event with
  | None | Some [] => ret tt
  | Some text =>
      let* data := lift (JSON_parse host text) in
      (if hasMessageId data APP_LOADING_STATUS_MESSAGE_ID
       then logLoadTime EDITOR_LOAD_TIME_EVENT;; publishReadyMessage
       else ret tt);;
      if hasMessageId data FILE_RENAME_MESSAGE_ID
      then
        let* msgValue := lift (getProperty data "Values") in
        let fileExtension := getConfig host "fileExtension" in
        let titleWithNoFilename := getConfig host "titleWithNoFilename" in
        let* rawName := lift (getProperty msgValue "NewName") in
        let* name := lift (ToString (Number_toString host) rawName) in
        let* extension := lift (ToString (Number_toString host) fileExtension) in
        let newName := name ++ "." ++ extension in
        let newTitle :=
          translate host "%1 on %2" "office_online_window_title_with_file_name"
            [VString newName; titleWithNoFilename] in
        modify (set_parentTitle newTitle)
      else ret tt
  end.

(** Dispatch of a message event on the window: every listener
    registered for [message] at that moment is called in turn; an
    exception leaving a listener is reported and the next listener still
    runs. The result lists the uncaught exceptions. *)
Definition invoke (h : handler) (event : MessageEvent) : M unit :=
  match h with
  | ReceiveEventFromOfficeOnline => receiveEventFromOfficeOnline event
  | Foreign _ => ret tt
  end.

Fixpoint invokeAll (ls : list Listener) (event : MessageEvent) (s : State)
    : list error * State :=
  match ls with
  | [] => ([], s)
  | l :: r =>
      if str_eqb (listener_type l) "message" then
        match invoke (listener_handler l) event s with
        | (Ok _, s') => invokeAll r event s'
        | (Throw e, s') =>
            let '(es, s'') := invokeAll r event s' in (e :: es, s'')
        end
      else invokeAll r event s
  end.

Definition dispatchMessage (event : MessageEvent) (s : State) : list error * State :=
  invokeAll (listeners s) event s.

(** ** Sessions *)

Inductive action :=
| Init
| Destroy
| Deliver (event : MessageEvent).

Definition uncaught {A} (r : result A * State) : list error * State :=
  match r with
  | (Ok _, s) => ([], s)
  | (Throw e, s) => ([e], s)
  end.

Definition step (a : action) (s : State) : list error * State :=
  match a with
  | Init => uncaught (init s)
  | Destroy => uncaught (destroy s)
  | Deliver event => dispatchMessage event s
  end.

Fixpoint run (acts : list action) (s : State) : list error * State :=
  match acts with
  | [] => ([], s)
  | a :: r =>
      let '(es, s') := step a s in
      let '(es', s'') := run r s' in
      (es ++ es', s'')
  end.
End Module.

(** A page before the module is started. *)
Definition freshPage (holder : option (list Element)) (form : option nat)
    (others : list Listener) (title : jsstring) : State :=
  {| vars := {| domService := false; logger := false; performance := false;
                startTs := None; win := false |};
     heap := []; frameHolder := holder; officeForm := form;
     listeners := others; parentTitle := title;
     performanceReadings := 0; DateReadings := 0;
     telemetry := []; posted := [] |}.

(** ** Vocabulary for the statements *)

(** The elapsed time [logLoadTime] computes when called in state [s]. *)
Definition loadTimeOf (h : Host) (s : State) : number :=
  number_sub (Num (reading h (performanceReadings s)))
             (default NaN (startTs (vars s))).

(** The record it builds. *)
Definition loadParams (h : Host) (s : State) (eventName : jsstring) : Params :=
  {| event_name := eventName; load_time := loadTimeOf h s;
     service_id := getConfig h "serviceId";
     office_online_app_type := getConfig h "officeOnlineAppType" |}.

(** The same record under the name of a slow load. *)
Definition slowParams (p : Params) : Params :=
  {| event_name := event_name p ++ "_slow"; load_time := load_time p;
     service_id := service_id p;
     office_online_app_type := office_online_app_type p |}.

(** A telemetry call that showed the sink the record [p], held at [ref]. *)
Definition logCall (ref : nat) (p : Params) : LogCall :=
  {| log_category := "office_online"; log_type := "perf";
     log_ref := ref; log_seen := Some p |}.

(** The editor frame [domService.query] finds in state [s]. *)
Definition findFrame (s : State) : option nat :=
  match frameHolder s with
  | Some children => findByClass EDITOR_IFRAME_CLASS children
  | None => None
  end.

(** The ready message posted to frame [i] with the [k]-th reading of the
    wall clock. *)
Definition readyPosted (h : Host) (i k : nat) : Posted :=
  {| posted_frame := i;
     posted_message :=
       JSON_stringify h (readyMessage (Num (inject_Z (Date_clock h k))));
     posted_origin := getConfig h "origin" |}.

(** The element [domService.query] finds, when it has a content
    window. *)
Definition frameWindow (h : Host) (s : State) : option nat :=
  match frameHolder s with
  | Some children =>
      match findByClass EDITOR_IFRAME_CLASS children with
      | Some i =>
          match children !! i with
          | Some el => if hasContentWindow h el then Some i else None
          | None => None
          end
      | None => None
      end
  | None => None
  end.

(** The title computed from a rename message. *)
Definition renameTitle (h : Host) (data : value) : result jsstring :=
  result_bind (getProperty data "Values") (fun msgValue =>
  result_bind (getProperty msgValue "NewName") (fun rawName =>
  result_bind (ToString (Number_toString h) rawName) (fun name =>
  result_bind (ToString (Number_toString h) (getConfig h "fileExtension"))
    (fun extension =>
  Ok (translate h "%1 on %2" "office_online_window_title_with_file_name"
        [VString (name ++ "." ++ extension);
         getConfig h "titleWithNoFilename"]))))).

(** Two states that differ at most in the title of the parent document. *)
Definition sameButTitle (s s' : State) : Prop :=
  vars s' = vars s /\ heap s' = heap s /\ frameHolder s' = frameHolder s /\
  officeForm s' = officeForm s /\ listeners s' = listeners s /\
  performanceReadings s' = performanceReadings s /\
  DateReadings s' = DateReadings s /\ telemetry s' = telemetry s /\
  posted s' = posted s.

(** Two states that differ at most in the messages posted and in the
    number of readings taken from the wall clock. *)
Definition sameButPosted (s s' : State) : Prop :=
  vars s' = vars s /\ heap s' = heap s /\ frameHolder s' = frameHolder s /\
  officeForm s' = officeForm s /\ listeners s' = listeners s /\
  parentTitle s' = parentTitle s /\
  performanceReadings s' = performanceReadings s /\
  telemetry s' = telemetry s.

(** The registration made by [subscribeToEventsFromOfficeOnline]. *)
Definition subscription : Listener :=
  {| listener_type := "message"; listener_handler := ReceiveEventFromOfficeOnline |}.

(** The state once [init] has bound the module variables and taken the
    start timestamp. *)
Definition started (h : Host) (s : State) : State :=
  set_vars (fun _ =>
    {| domService := true; logger := true; performance := true;
       startTs := Some (Num (reading h (performanceReadings s)));
       win := true |})
    (set_performanceReadings S s).

(** A telemetry call for the event [name] (or its slow variant) whose
    record carries the [k]-th clock reading minus [t0]. *)
Definition measured (h : Host) (name : jsstring) (k : nat) (t0 : Q)
    (c : LogCall) : Prop :=
  exists p,
    log_seen c = Some p /\
    (event_name p = name \/ event_name p = name ++ "_slow") /\
    load_time p = Num (roundDouble (reading h k - t0)).

(** A posted message is a ready message. *)
Definition isReady (h : Host) (m : Posted) : Prop :=
  exists i k, m = readyPosted h i k.

(** The invariant of a session whose start timestamp is [t0] and whose
    frame was timed with the [k1]-th clock reading. *)
Definition sessionInv (h : Host) (k1 : nat) (t0 : Q) (s : State) : Prop :=
  startTs (vars s) = Some (Num t0) /\
  (k1 <= performanceReadings s)%nat /\
  Forall (fun c =>
            measured h IFRAME_LOAD_TIME_EVENT k1 t0 c \/
            exists k, (k1 <= k)%nat /\ measured h EDITOR_LOAD_TIME_EVENT k t0 c)
         (telemetry s).

(** The module variables are bound and the start timestamp is taken. *)
Definition initialised (s : State) : Prop :=
  domService (vars s) = true /\ logger (vars s) = true /\
  performance (vars s) = true /\ exists t0, startTs (vars s) = Some (Num t0).

(** No listener of the module is registered for [message]. *)
Definition unsubscribed (ls : list Listener) : Prop :=
  Forall (fun l => l <> subscription) ls.

(** ** The sandbox attribute as a set of tokens *)

Fixpoint tokensFrom (current s : jsstring) : list jsstring :=
  match s with
  | [] => match current with [] => [] | _ => [current] end
  | c :: r =>
      if c =? 32 then
        match current with
        | [] => tokensFrom [] r
        | _ => current :: tokensFrom [] r
        end
      else tokensFrom (current ++ [c]) r
  end.

(** The space-separated tokens of an attribute value. *)
Definition tokens (s : jsstring) : list jsstring := tokensFrom [] s.

Definition BASE_PERMISSIONS : list jsstring :=
  ["allow-scripts"; "allow-forms"; "allow-popups"; "allow-top-navigation";
   "allow-popups-to-escape-sandbox"; "allow-downloads"].

(** The sandbox attribute of the element built for the page of [h]. *)
Definition frameSandbox (h : Host) : result (option jsstring) :=
  result_bind (getOfficeEditorFrameElement h)
    (fun el => Ok (getAttribute "sandbox" el)).

(** The sandbox rule with presence alone as the criterion: the permissive
    value when the parameter occurs nowhere in the address, the
    restrictive one as soon as it occurs, whatever its value. *)
Definition presenceRule (h : Host) : Prop :=
  (absent DISABLE_SAME_ORIGIN_KEY (location_href h) ->
   frameSandbox h = Ok (Some PERMISSIVE_SANDBOX)) /\
  ((exists pre g, occursAt DISABLE_SAME_ORIGIN_KEY (location_href h) pre g) ->
   frameSandbox h = Ok (Some RESTRICTIVE_SANDBOX)).

(** ** A host for the examples *)

Definition js_of_string (s : String.string) : jsstring :=
  map (fun a => N.of_nat (Ascii.nat_of_ascii a)) (String.list_ascii_of_string s).

Definition appLoadedText : jsstring :=
  "{" ++ quoted "MessageId" ++ ":" ++ quoted "App_LoadingStatus" ++ "}".
Definition renameText : jsstring :=
  "{" ++ quoted "MessageId" ++ ":" ++ quoted "File_Rename" ++ "," ++
  quoted "Values" ++ ":{" ++ quoted "NewName" ++ ":" ++ quoted "Report" ++ "}}".
Definition renameNoValuesText : jsstring :=
  "{" ++ quoted "MessageId" ++ ":" ++ quoted "File_Rename" ++ "}".
Definition otherText : jsstring :=
  "{" ++ quoted "MessageId" ++ ":" ++ quoted "Clipboard_Copy" ++ "}".

Definition appLoaded : value :=
  VObject {[ "MessageId" := VString "App_LoadingStatus" ]}.
Definition rename : value :=
  VObject (<["MessageId" := VString "File_Rename"]>
          {[ "Values" := VObject {[ "NewName" := VString "Report" ]} ]}).
Definition renameNoValues : value :=
  VObject {[ "MessageId" := VString "File_Rename" ]}.
Definition other : value :=
  VObject {[ "MessageId" := VString "Clipboard_Copy" ]}.

(** A [JSON.parse] that knows the four texts above and rejects any other
    text. *)
Definition sampleParse (text : jsstring) : result value :=
  if str_eqb text appLoadedText then Ok appLoaded
  else if str_eqb text renameText then Ok rename
  else if str_eqb text renameNoValuesText then Ok renameNoValues
  else if str_eqb text otherText then Ok other
  else Throw SyntaxError.

Definition sampleNumberToString (q : Q) : jsstring :=
  js_of_string (pretty (Qnum q / Zpos (Qden q))%Z).

(** A [JSON.stringify] for objects of the shape of the ready message. *)
Definition sampleStringify (v : value) : jsstring :=
  match v with
  | VObject props =>
      match props !! "MessageId", props !! "SendTime" with
      | Some (VString id), Some (VNumber (Num t)) =>
          "{" ++ quoted "MessageId" ++ ":" ++ quoted id ++ "," ++
          quoted "SendTime" ++ ":" ++ sampleNumberToString t ++ "," ++
          quoted "Values" ++ ":{}}"
      | _, _ => "{}"
      end
  | _ => "null"
  end.

Definition sampleDisplay (v : value) : jsstring :=
  match ToString sampleNumberToString v with
  | Ok text => text
  | Throw _ => []
  end.

(** The untranslated form of the title. *)
Definition sampleTranslate (format key : jsstring) (args : list value) : jsstring :=
  match args with
  | [a; b] => sampleDisplay a ++ " on " ++ sampleDisplay b
  | _ => format
  end.

(** A check of the target origin that knows [*], [/] and the addresses
    that start with [https://]. *)
Definition sampleOriginAccepted (origin : value) : bool :=
  match origin with
  | VString s =>
      str_eqb s "*" || str_eqb s "/" || str_eqb (take 8 s) "https://"
  | _ => false
  end.

Definition sampleConfig : gmap jsstring value :=
  <["serviceId" := VString "svc"]>
  (<["officeOnlineAppType" := VString "Excel"]>
  (<["fileExtension" := VString "xlsx"]>
  (<["titleWithNoFilename" := VString "Box for Office Online"]>
  (<["origin" := VString "https://excel.officeapps.live.com"]> ∅)))).

(** The performance clock advances four seconds between readings. *)
Definition sampleHost (href : jsstring) : Host :=
  {| location_href := href;
     invocationUrl := "https://excel.officeapps.live.com/x/_layouts/xlviewerinternal.aspx";
     config := sampleConfig;
     JSON_parse := sampleParse;
     JSON_stringify := sampleStringify;
     translate := sampleTranslate;
     Number_toString := sampleNumberToString;
     performance_clock := fun k => inject_Z (4000 * Z.of_nat k);
     Date_clock := fun k => (1700000000000 + Z.of_nat k)%Z;
     holdsWindow := fun _ => false;
     targetOriginAccepted := sampleOriginAccepted |}.

Definition samplePage : State := freshPage (Some []) (Some 0%nat) [] "Box".

(** ** Vocabulary for the further properties *)

(** The record [logLoadTime] builds for the event [name] and the elapsed
    time [elapsed]. *)
Definition telemetryRecord (h : Host) (name : jsstring) (elapsed : number) : Params :=
  {| event_name := name; load_time := elapsed;
     service_id := getConfig h "serviceId";
     office_online_app_type := getConfig h "officeOnlineAppType" |}.

(** The shape of a telemetry log: a sequence of milestones, each one call
    for a frame or editor record timed under 10000, or two calls in a row,
    with the same reference, for a record timed at 10000 or more and for
    its slow variant. *)
Inductive paired (h : Host) : list LogCall -> Prop :=
| paired_nil : paired h []
| paired_one (ref : nat) (name : jsstring) (elapsed : number) (l : list LogCall) :
    name = IFRAME_LOAD_TIME_EVENT \/ name = EDITOR_LOAD_TIME_EVENT ->
    number_ge elapsed 10000 = false ->
    paired h l ->
    paired h (logCall ref (telemetryRecord h name elapsed) :: l)
| paired_two (ref : nat) (name : jsstring) (elapsed : number) (l : list LogCall) :
    name = IFRAME_LOAD_TIME_EVENT \/ name = EDITOR_LOAD_TIME_EVENT ->
    number_ge elapsed 10000 = true ->
    paired h l ->
    paired h (logCall ref (telemetryRecord h name elapsed)
              :: logCall ref (slowParams (telemetryRecord h name elapsed)) :: l).

(** How the observable parts of the state may differ after the module has
    run: objects, telemetry calls and posted messages are only added at
    the end, the telemetry added has the shape [paired], the messages added
    are ready messages stamped with successive readings of the wall clock
    taken in between, and the container only gains children. *)
Definition grows (h : Host) (s s' : State) : Prop :=
  (exists more, heap s' = heap s ++ more) /\
  (exists new, telemetry s' = telemetry s ++ new /\ paired h new) /\
  (exists stamps : list (nat * nat),
     posted s' = posted s ++ map (fun ik => readyPosted h (fst ik) (snd ik)) stamps /\
     StronglySorted lt (map snd stamps) /\
     Forall (fun ik => (DateReadings s <= snd ik < DateReadings s')%nat) stamps) /\
  (DateReadings s <= DateReadings s')%nat /\
  match frameHolder s with
  | Some children => exists more, frameHolder s' = Some (children ++ more)
  | None => frameHolder s' = None
  end.

Definition nullText : jsstring := "null".
Definition renameEmptyValuesText : jsstring :=
  "{" ++ quoted "MessageId" ++ ":" ++ quoted "File_Rename" ++ "," ++
  quoted "Values" ++ ":{}}".
Definition renameEmptyValues : value :=
  VObject (<["MessageId" := VString "File_Rename"]> {[ "Values" := VObject ∅ ]}).

(** A [JSON.parse] that knows two more texts than [sampleParse]. *)
Definition widerParse (text : jsstring) : result value :=
  if str_eqb text nullText then Ok VNull
  else if str_eqb text renameEmptyValuesText then Ok renameEmptyValues
  else sampleParse text.

Definition widerHost (href : jsstring) : Host :=
  {| location_href := href;
     invocationUrl := invocationUrl (sampleHost href);
     config := sampleConfig;
     JSON_parse := widerParse;
     JSON_stringify := sampleStringify;
     translate := sampleTranslate;
     Number_toString := sampleNumberToString;
     performance_clock := performance_clock (sampleHost href);
     Date_clock := Date_clock (sampleHost href);
     holdsWindow := fun _ => false;
     targetOriginAccepted := sampleOriginAccepted |}.


(** A page whose container already holds a [div] of the class the frame
    will get. *)
Definition shadowedPage : State :=
  freshPage (Some [set_className "office-editor-frame" (createElement "div")])
    (Some 0%nat) [] "Box".

(** A host whose configured origin is not an address. *)
Definition strayOriginHost (href : jsstring) : Host :=
  {| location_href := href;
     invocationUrl := invocationUrl (sampleHost href);
     config := <["origin" := VString "not a url"]> sampleConfig;
     JSON_parse := sampleParse;
     JSON_stringify := sampleStringify;
     translate := sampleTranslate;
     Number_toString := sampleNumberToString;
     performance_clock := performance_clock (sampleHost href);
     Date_clock := Date_clock (sampleHost href);
     holdsWindow := fun _ => false;
     targetOriginAccepted := sampleOriginAccepted |}.

(** A host whose clock shows 0.3 then 10000.3. *)
Definition tenSecondsHost (href : jsstring) : Host :=
  {| location_href := href;
     invocationUrl := invocationUrl (sampleHost href);
     config := sampleConfig;
     JSON_parse := sampleParse;
     JSON_stringify := sampleStringify;
     translate := sampleTranslate;
     Number_toString := sampleNumberToString;
     performance_clock := fun k => match k with O => 3 # 10 | _ => 100003 # 10 end;
     Date_clock := Date_clock (sampleHost href);
     holdsWindow := fun _ => false;
     targetOriginAccepted := sampleOriginAccepted |}.

(** Posting is blocked: [postMessage] does not accept the configured
    origin, or the first element of class [office-editor-frame] in the
    container has no content window. *)
Definition blocked (h : Host) (s : State) : Prop :=
  targetOriginAccepted h (getConfig h "origin") = false \/
  exists i, findFrame s = Some i /\ frameWindow h s = None.


(** A page with its container but without the authentication form. *)
Definition formlessPage : State := freshPage (Some []) None [] "Box".

(** A page without the container. *)
Definition bareHolderlessPage : State := freshPage None (Some 0%nat) [] "Box".

(** * Properties *)

Example decode_ascii : decodeURIComponent "a%20b" = Ok "a b".
Proof. reflexivity. Qed.
Example decode_euro : decodeURIComponent "%E2%82%AC" = Ok [8364].
Proof. reflexivity. Qed.
Example decode_astral : decodeURIComponent "%F0%9F%98%80" = Ok [55357; 56832].
Proof. reflexivity. Qed.
Example decode_lone_percent : decodeURIComponent "%" = Throw URIError.
Proof. reflexivity. Qed.
Example decode_overlong : decodeURIComponent "%C0%80" = Throw URIError.
Proof. reflexivity. Qed.
Example decode_surrogate : decodeURIComponent "%ED%A0%80" = Throw URIError.
Proof. reflexivity. Qed.
Example param_value :
  getParameterByName "k" "http://h/p?a=1&k=x+y#f" = Ok (Some "x y").
Proof. reflexivity. Qed.
Example param_absent : getParameterByName "k" "http://h/p?kk=1" = Ok None.
Proof. reflexivity. Qed.
Example param_bare : getParameterByName "k" "http://h/p?k&z=1" = Ok (Some "").
Proof. reflexivity. Qed.

Example key_plain : plainName DISABLE_SAME_ORIGIN_KEY = true.
Proof. reflexivity. Qed.



(** ** Rounding to the nearest double *)

Local Open Scope Q_scope.

Example double_one_third :
  roundDouble (1 # 3) = 6004799503160661 # 18014398509481984.
Proof. vm_compute. reflexivity. Qed.

(** The doubles nearest to 10000.3 and to 0.3 are less than 10000 apart,
    and their difference as the machine computes it is 10000. *)
Example difference_rounds_up :
  let a := 2748861532812083 # 274877906944 in
  let b := 5404319552844595 # 18014398509481984 in
  roundDouble a = a /\ roundDouble b = b /\
  a - b < 10000 /\ roundDouble (a - b) = 10000.
Proof. vm_compute. repeat split; reflexivity. Qed.

Lemma pow2_pos e : 0 < pow2 e.
Proof. apply Qpower_0_lt. reflexivity. Qed.

Lemma pow2_add a b : pow2 (a + b) == pow2 a * pow2 b.
Proof. apply Qpower_plus. discriminate. Qed.

Lemma pow2_le a b : (a <= b)%Z -> pow2 a <= pow2 b.
Proof. intros H. apply Qpower_le_compat_l; [exact H | discriminate]. Qed.

Lemma pow2_nat n : (0 <= n)%Z -> pow2 n == inject_Z (2 ^ n).
Proof. intros H. unfold pow2. rewrite Zpower_Qpower by exact H. reflexivity. Qed.

Lemma pow2_cancel e : pow2 e * pow2 (- e) == 1.
Proof. rewrite <- pow2_add, Z.add_opp_diag_r. reflexivity. Qed.

Lemma pow2_quotient a b :
  (0 <= a)%Z -> (0 <= b)%Z -> pow2 (a - b) == inject_Z (2 ^ a) / inject_Z (2 ^ b).
Proof.
  intros Ha Hb. replace (a - b)%Z with (a + - b)%Z by lia.
  rewrite pow2_add. unfold pow2 at 2. rewrite Qpower_opp. fold (pow2 b).
  rewrite !pow2_nat by assumption. reflexivity.
Qed.

Lemma log2_bounds (p : Z) (q : positive) :
  (0 < p)%Z ->
  let d := (Z.log2 p - Z.log2 (Zpos q))%Z in
  pow2 (d - 1) <= p # q /\ p # q < pow2 (d + 1).
Proof.
  intros Hp d. subst d.
  pose proof (Z.log2_spec p Hp) as [Hp1 Hp2].
  pose proof (Z.log2_spec (Zpos q) eq_refl) as [Hq1 Hq2].
  pose proof (Z.log2_nonneg p) as Ha. pose proof (Z.log2_nonneg (Zpos q)) as Hb.
  set (a := Z.log2 p) in *. set (b := Z.log2 (Zpos q)) in *.
  assert (0 < 2 ^ a)%Z by (apply Z.pow_pos_nonneg; lia).
  assert (0 < 2 ^ b)%Z by (apply Z.pow_pos_nonneg; lia).
  assert (0 < 2 ^ Z.succ b)%Z by (apply Z.pow_pos_nonneg; lia).
  split.
  - replace (a - b - 1)%Z with (a - Z.succ b)%Z by lia.
    rewrite pow2_quotient by lia.
    apply Qle_shift_div_r; [change 0 with (inject_Z 0); rewrite <- Zlt_Qlt; lia|].
    unfold Qle, Qmult, inject_Z. cbn [Qnum Qden].
    rewrite !Z.mul_1_r, Pos.mul_1_r. nia.
  - replace (a - b + 1)%Z with (Z.succ a - b)%Z by lia.
    rewrite pow2_quotient by lia.
    apply Qlt_shift_div_l; [change 0 with (inject_Z 0); rewrite <- Zlt_Qlt; lia|].
    unfold Qlt, Qmult, inject_Z. cbn [Qnum Qden].
    rewrite !Z.mul_1_r, Pos.mul_1_r. nia.
Qed.

Lemma floorLog2_spec x :
  0 < x -> pow2 (floorLog2 x) <= x /\ x < pow2 (floorLog2 x + 1).
Proof.
  intros Hx. unfold floorLog2. destruct x as [p q]. cbn [Qnum Qden].
  assert (Hp : (0 < p)%Z) by (unfold Qlt in Hx; simpl in Hx; lia).
  destruct (log2_bounds p q Hp) as [L U].
  set (d := (Z.log2 p - Z.log2 (Zpos q))%Z) in *.
  destruct (Qle_bool (pow2 d) (p # q)) eqn:E.
  - apply Qle_bool_iff in E. split; assumption.
  - replace (d - 1 + 1)%Z with d by lia. split; [exact L|].
    apply Qnot_le_lt. intros H. apply Qle_bool_iff in H. congruence.
Qed.

Lemma floorLog2_mono x y : 0 < x -> x <= y -> (floorLog2 x <= floorLog2 y)%Z.
Proof.
  intros Hx Hxy.
  destruct (floorLog2_spec x Hx) as [Lx _].
  destruct (floorLog2_spec y) as [_ Uy]; [lra|].
  destruct (Z_le_gt_dec (floorLog2 x) (floorLog2 y)) as [|Hgt]; [assumption|].
  exfalso. pose proof (pow2_le (floorLog2 y + 1) (floorLog2 x) ltac:(lia)). lra.
Qed.

Lemma roundHalfEven_bounds t :
  (Qfloor t <= roundHalfEven t <= Qfloor t + 1)%Z.
Proof.
  unfold roundHalfEven.
  destruct (Qcompare (t - inject_Z (Qfloor t)) (1 # 2));
    try destruct (Z.even (Qfloor t)); lia.
Qed.

Lemma roundHalfEven_lb t n : inject_Z n <= t -> (n <= roundHalfEven t)%Z.
Proof.
  intros H. apply Qfloor_resp_le in H. rewrite Qfloor_Z in H.
  pose proof (roundHalfEven_bounds t). lia.
Qed.

Lemma roundHalfEven_ub t n : t <= inject_Z n -> (roundHalfEven t <= n)%Z.
Proof.
  intros H. pose proof (Qfloor_resp_le _ _ H) as Hf. rewrite Qfloor_Z in Hf.
  destruct (Z.eq_dec (Qfloor t) n) as [E|N].
  - unfold roundHalfEven.
    assert (Hlt : t - inject_Z (Qfloor t) < 1 # 2).
    { pose proof (Qfloor_le t). rewrite E in *. lra. }
    destruct (Qcompare_spec (t - inject_Z (Qfloor t)) (1 # 2)) as [C|C|C];
      [| lia |]; exfalso; lra.
  - pose proof (roundHalfEven_bounds t). lia.
Qed.

Lemma roundHalfEven_mono t u : t <= u -> (roundHalfEven t <= roundHalfEven u)%Z.
Proof.
  intros H. pose proof (Qfloor_resp_le _ _ H) as Hf.
  destruct (Z.eq_dec (Qfloor t) (Qfloor u)) as [E|N].
  - unfold roundHalfEven. rewrite <- E.
    destruct (Qcompare_spec (t - inject_Z (Qfloor t)) (1 # 2)) as [Ct|Ct|Ct];
      destruct (Qcompare_spec (u - inject_Z (Qfloor t)) (1 # 2)) as [Cu|Cu|Cu];
      try destruct (Z.even (Qfloor t)); try lia; exfalso; lra.
  - pose proof (roundHalfEven_bounds t). pose proof (roundHalfEven_bounds u). lia.
Qed.

Lemma roundMagnitude_nonneg x : 0 <= x -> 0 <= roundMagnitude x.
Proof.
  intros Hx. unfold roundMagnitude.
  apply Qmult_le_0_compat; [|apply Qlt_le_weak, pow2_pos].
  change 0 with (inject_Z 0). rewrite <- Zle_Qle. apply roundHalfEven_lb.
  apply Qmult_le_0_compat; [exact Hx | apply Qlt_le_weak, pow2_pos].
Qed.

Lemma roundMagnitude_mono x y :
  0 < x -> x <= y -> roundMagnitude x <= roundMagnitude y.
Proof.
  intros Hx Hxy. assert (Hy : 0 < y) by lra.
  pose proof (floorLog2_mono x y Hx Hxy) as Hl.
  destruct (floorLog2_spec x Hx) as [_ Ux].
  destruct (floorLog2_spec y Hy) as [Ly _].
  unfold roundMagnitude.
  set (ex := Z.max (-1074) (floorLog2 x - 52)).
  set (ey := Z.max (-1074) (floorLog2 y - 52)).
  assert (Hle : (ex <= ey)%Z) by (subst ex ey; lia).
  destruct (Z.eq_dec ex ey) as [E|N].
  - rewrite <- E. apply Qmult_le_compat_r; [|apply Qlt_le_weak, pow2_pos].
    rewrite <- Zle_Qle. apply roundHalfEven_mono.
    apply Qmult_le_compat_r; [exact Hxy | apply Qlt_le_weak, pow2_pos].
  - apply Qle_trans with (pow2 (ex + 53)); [|apply Qle_trans with (pow2 (ey + 52))].
    + rewrite (Z.add_comm ex), pow2_add.
      apply Qmult_le_compat_r; [|apply Qlt_le_weak, pow2_pos].
      rewrite (pow2_nat 53) by lia. rewrite <- Zle_Qle. apply roundHalfEven_ub.
      rewrite <- (pow2_nat 53) by lia.
      assert (x <= pow2 (ex + 53)) as Hb.
      { pose proof (pow2_le (floorLog2 x + 1) (ex + 53) ltac:(subst ex; lia)). lra. }
      apply Qle_trans with (pow2 (ex + 53) * pow2 (- ex)).
      * apply Qmult_le_compat_r; [exact Hb | apply Qlt_le_weak, pow2_pos].
      * rewrite <- pow2_add. apply pow2_le. lia.
    + apply pow2_le. lia.
    + rewrite (Z.add_comm ey), pow2_add.
      apply Qmult_le_compat_r; [|apply Qlt_le_weak, pow2_pos].
      rewrite (pow2_nat 52) by lia. rewrite <- Zle_Qle. apply roundHalfEven_lb.
      rewrite <- (pow2_nat 52) by lia.
      assert (pow2 (ey + 52) <= y) as Hb.
      { pose proof (pow2_le (ey + 52) (floorLog2 y) ltac:(subst ex ey; lia)). lra. }
      apply Qle_trans with (pow2 (ey + 52) * pow2 (- ey)).
      * rewrite <- pow2_add. apply pow2_le. lia.
      * apply Qmult_le_compat_r; [exact Hb | apply Qlt_le_weak, pow2_pos].
Qed.

Lemma roundDouble_sign x :
  (0 <= x -> 0 <= roundDouble x) /\ (x <= 0 -> roundDouble x <= 0).
Proof.
  unfold roundDouble. destruct x as [[|p|p] q]; simpl.
  - split; intros _; apply Qle_refl.
  - split.
    + intros H. rewrite Qred_correct. apply roundMagnitude_nonneg. exact H.
    + intros H. exfalso. unfold Qle in H. simpl in H. lia.
  - split.
    + intros H. exfalso. unfold Qle in H. simpl in H. lia.
    + intros _. rewrite Qred_correct.
      assert (0 <= roundMagnitude (- (Z.neg p # q))).
      { apply roundMagnitude_nonneg. unfold Qle. simpl. lia. }
      lra.
Qed.

Lemma roundDouble_nonneg x : 0 <= x -> 0 <= roundDouble x.
Proof. apply roundDouble_sign. Qed.

Lemma roundDouble_mono x y : x <= y -> roundDouble x <= roundDouble y.
Proof.
  intros H.
  destruct (Qlt_le_dec 0 x) as [Hx|Hx].
  - assert (Hy : 0 < y) by lra.
    unfold roundDouble. destruct x as [[|p|p] q]; try (unfold Qlt in Hx; simpl in Hx; lia).
    destruct y as [[|p'|p'] q']; try (unfold Qlt in Hy; simpl in Hy; lia).
    simpl. rewrite !Qred_correct. apply roundMagnitude_mono; assumption.
  - destruct (Qlt_le_dec y 0) as [Hy|Hy].
    + unfold roundDouble.
      destruct y as [[|p'|p'] q']; try (unfold Qlt in Hy; simpl in Hy; lia).
      destruct x as [[|p|p] q];
        try (unfold Qle in H; unfold Qlt in Hy; simpl in H, Hy; lia).
      simpl Qnum. cbv iota. rewrite !Qred_correct.
      assert (roundMagnitude (- (Z.neg p' # q')) <= roundMagnitude (- (Z.neg p # q))).
      { apply roundMagnitude_mono; [unfold Qlt; simpl; lia | lra]. }
      lra.
    + apply Qle_trans with 0; [apply roundDouble_sign; exact Hx
                              | apply roundDouble_sign; exact Hy].
Qed.

Local Close Scope Q_scope.

(** ** [decodeURIComponent] *)

Lemma escapedOctet_length s b r :
  escapedOctet s = Some (b, r) -> length s = (3 + length r)%nat.
Proof.
  destruct s as [|c [|h [|l rest]]]; simpl; try discriminate;
    try (destruct c as [|p]; [discriminate|]; repeat (destruct p; try discriminate)).
  destruct (hexDigit h), (hexDigit l); try discriminate.
  intros [= _ <-]. reflexivity.
Qed.

Lemma continuation_length k : forall acc s v r,
  continuation k acc s = Some (v, r) -> (length r <= length s)%nat.
Proof.
  induction k as [|k IH]; simpl; intros acc s v r H.
  - injection H as _ <-. lia.
  - destruct (escapedOctet s) as [[b rest]|] eqn:E; [|discriminate].
    destruct (N.land b 192 =? 128); [|discriminate].
    apply IH in H. apply escapedOctet_length in E. lia.
Qed.

Lemma utf16_nonempty v : utf16 v <> [].
Proof. unfold utf16. destruct (v <? 65536); discriminate. Qed.

(** An iteration produces at least one code unit and consumes at least
    the character it started from. *)
Lemma decodeStep_progress c rest out rest' :
  decodeStep c rest = Some (out, rest') ->
  out <> [] /\ (length rest' <= length rest)%nat.
Proof.
  unfold decodeStep. destruct (negb (c =? 37)).
  - intros [= <- <-]. split; [discriminate | lia].
  - destruct (escapedOctet (c :: rest)) as [[b rest1]|] eqn:E; [|discriminate].
    apply escapedOctet_length in E. simpl in E.
    destruct (b <? 128).
    + intros [= <- <-]. split; [discriminate | lia].
    + destruct (leadingOctet b) as [[n payload]|]; [|discriminate].
      destruct (continuation (pred n) payload rest1) as [[v rest2]|] eqn:C;
        [|discriminate].
      apply continuation_length in C.
      destruct (validCodePoint n v); [|discriminate].
      intros [= <- <-]. split; [apply utf16_nonempty | lia].
Qed.

(** More fuel than the length changes nothing. *)
Lemma DecodeLoop_fuel fuel1 : forall fuel2 s,
  (length s <= fuel1)%nat -> (length s <= fuel2)%nat ->
  DecodeLoop fuel1 s = DecodeLoop fuel2 s.
Proof.
  induction fuel1 as [|fuel1 IH]; intros fuel2 [|c rest] H1 H2; simpl in H1, H2;
    try lia.
  - destruct fuel2; reflexivity.
  - destruct fuel2; reflexivity.
  - destruct fuel2 as [|fuel2]; [lia|]. simpl.
    destruct (decodeStep c rest) as [[out rest']|] eqn:E; [|reflexivity].
    apply decodeStep_progress in E as [_ E].
    rewrite (IH fuel2 rest') by lia. reflexivity.
Qed.

(** The loop of [Decode], unfolded once. *)
Lemma decodeURIComponent_cons c rest :
  decodeURIComponent (c :: rest) =
  match decodeStep c rest with
  | None => Throw URIError
  | Some (out, rest') =>
      result_bind (decodeURIComponent rest') (fun r => Ok (out ++ r))
  end.
Proof.
  unfold decodeURIComponent. simpl.
  destruct (decodeStep c rest) as [[out rest']|] eqn:E; [|reflexivity].
  apply decodeStep_progress in E as [_ E].
  rewrite (DecodeLoop_fuel (length rest) (length rest') rest') by lia.
  reflexivity.
Qed.

(** Decoding a non-empty string never gives the empty string. *)
Lemma decodeURIComponent_nonempty s d :
  s <> [] -> decodeURIComponent s = Ok d -> d <> [].
Proof.
  destruct s as [|c rest]; [congruence|]. intros _.
  rewrite decodeURIComponent_cons.
  destruct (decodeStep c rest) as [[out rest']|] eqn:E; [|discriminate].
  apply decodeStep_progress in E as [E _].
  destruct (decodeURIComponent rest'); simpl; [|discriminate].
  intros [= <-]. destruct out; [congruence | discriminate].
Qed.

(** A string without [%] decodes to itself. *)
Lemma decodeURIComponent_plain s :
  Forall (fun c => c <> 37) s -> decodeURIComponent s = Ok s.
Proof.
  induction 1 as [|c rest Hc _ IH]; [reflexivity|].
  rewrite decodeURIComponent_cons. unfold decodeStep.
  apply N.eqb_neq in Hc. rewrite Hc. simpl. rewrite IH. reflexivity.
Qed.

(** ** The search of [getParameterByName] *)

Lemma stripPrefix_Some p : forall s t, stripPrefix p s = Some t <-> s = p ++ t.
Proof.
  induction p as [|a p IH]; intros s t; simpl.
  - split; [intros [= ->] | intros ->]; reflexivity.
  - destruct s as [|b s]; [split; discriminate|].
    destruct (N.eqb_spec a b) as [->|Hne].
    + rewrite IH. split; [intros -> | intros [= ->]]; reflexivity.
    + split; [discriminate | intros [= H _]; congruence].
Qed.

Lemma valueRun_split s :
  exists rest, s = valueRun s ++ rest /\ atBoundary rest.
Proof.
  induction s as [|c s [rest [IH1 IH2]]]; simpl.
  - exists []. split; [reflexivity | exact I].
  - destruct (isDelimiter c) eqn:E.
    + exists (c :: s). split; [reflexivity | exact E].
    + exists rest. split; [simpl; congruence | exact IH2].
Qed.

Lemma valueRun_clean s : Forall (fun c => isDelimiter c = false) (valueRun s).
Proof.
  induction s as [|c s IH]; simpl; [constructor|].
  destruct (isDelimiter c) eqn:E; constructor; assumption.
Qed.

Lemma valueRun_unique v rest :
  Forall (fun c => isDelimiter c = false) v -> atBoundary rest ->
  valueRun (v ++ rest) = v.
Proof.
  induction 1 as [|c v Hc _ IH]; intros Hb; simpl.
  - destruct rest as [|c r]; [reflexivity|]. simpl in *. rewrite Hb. reflexivity.
  - rewrite Hc, IH by assumption. reflexivity.
Qed.

Lemma delimiter_not_equals c : isDelimiter c = true -> (c =? 61) = false.
Proof.
  unfold isDelimiter. intros H. apply orb_true_iff in H as [H|H];
    apply N.eqb_eq in H; subst; reflexivity.
Qed.

(** An occurrence after [pre] is a match of the pattern at that
    position. *)
Lemma occursAt_matchHere name url pre g :
  occursAt name url pre g <->
  exists suffix, url = pre ++ suffix /\ matchHere name suffix = Some g.
Proof.
  split.
  - intros [sep v rest Hsep -> Hv Hb | sep rest Hsep -> Hb];
      eexists; (split; [reflexivity|]); simpl; rewrite Hsep.
    + rewrite (proj2 (stripPrefix_Some name _ (61 :: v ++ rest)) eq_refl).
      simpl. rewrite valueRun_unique by assumption. reflexivity.
    + rewrite (proj2 (stripPrefix_Some name _ rest) eq_refl).
      destruct rest as [|c r]; [reflexivity|]. simpl in *.
      rewrite (delimiter_not_equals _ Hb), Hb. reflexivity.
  - intros [suffix [-> H]]. destruct suffix as [|sep r]; [discriminate|].
    simpl in H. destruct (isSeparator sep) eqn:Hsep; [|discriminate].
    destruct (stripPrefix name r) as [tail|] eqn:Hp; [|discriminate].
    apply stripPrefix_Some in Hp as ->.
    destruct tail as [|c t]; simpl in H.
    + injection H as <-. eapply occurs_bare; [exact Hsep | reflexivity | exact I].
    + destruct (N.eqb_spec c 61) as [->|Hne].
      * injection H as <-. destruct (valueRun_split t) as [rest [Ht Hb]].
        eapply occurs_valued with (rest := rest);
          [exact Hsep | congruence | apply valueRun_clean | exact Hb].
      * destruct (isDelimiter c) eqn:Hd; [|discriminate]. injection H as <-.
        eapply occurs_bare; [exact Hsep | reflexivity | exact Hd].
Qed.

(** After a given prefix the parameter occurs in one way at most. *)
Lemma occursAt_functional name url pre g g' :
  occursAt name url pre g -> occursAt name url pre g' -> g = g'.
Proof.
  rewrite !occursAt_matchHere. intros [s1 [-> H1]] [s2 [E H2]].
  apply app_inv_head in E as <-. congruence.
Qed.

Lemma occursAt_cons name c url pre g :
  occursAt name (c :: url) (c :: pre) g <-> occursAt name url pre g.
Proof.
  rewrite !occursAt_matchHere. split; intros [suffix [E H]]; exists suffix.
  - injection E as ->. auto.
  - subst. auto.
Qed.

Lemma regexExec_sound name : forall url,
  match regexExec name url with
  | Some g => exists pre, firstOccurrence name url pre g
  | None => absent name url
  end.
Proof.
  unfold firstOccurrence.
  induction url as [|c url IH]; cbn [regexExec].
  - change (matchHere name []) with (@None (option jsstring)).
    intros pre g H. apply occursAt_matchHere in H as [suffix [E H]].
    symmetry in E. apply app_eq_nil in E as [_ ->]. discriminate.
  - destruct (matchHere name (c :: url)) as [g|] eqn:Hm.
    + exists []. split.
      * apply occursAt_matchHere. exists (c :: url). auto.
      * intros; simpl; lia.
    + destruct (regexExec name url) as [g|].
      * destruct IH as [pre [Hocc Hmin]]. exists (c :: pre). split.
        -- apply occursAt_cons. exact Hocc.
        -- intros pre' g' H'. destruct pre' as [|c' pre'].
           ++ apply occursAt_matchHere in H' as [suffix [E H']].
              simpl in E. subst suffix. congruence.
           ++ pose proof H' as H''.
              apply occursAt_matchHere in H'' as [suffix [E _]].
              injection E as <- _. apply occursAt_cons in H'.
              apply Hmin in H'. simpl. lia.
      * intros pre g H. destruct pre as [|c' pre].
        -- apply occursAt_matchHere in H as [suffix [E H]].
           simpl in E. subst suffix. congruence.
        -- pose proof H as H'.
           apply occursAt_matchHere in H' as [suffix [E _]].
           injection E as <- _. apply occursAt_cons in H. exact (IH _ _ H).
Qed.

(** [regex.exec] finds nothing exactly when the parameter is absent. *)
Lemma regexExec_None name url :
  regexExec name url = None <-> absent name url.
Proof.
  pose proof (regexExec_sound name url) as H. split.
  - intros E. rewrite E in H. exact H.
  - intros Habs. destruct (regexExec name url) as [g|]; [|reflexivity].
    destruct H as [pre [H _]]. destruct (Habs _ _ H).
Qed.

(** Otherwise it returns the leftmost occurrence. *)
Lemma regexExec_Some name url g :
  regexExec name url = Some g <-> exists pre, firstOccurrence name url pre g.
Proof.
  pose proof (regexExec_sound name url) as H. split.
  - intros E. rewrite E in H. exact H.
  - intros [pre [Hocc Hmin]]. destruct (regexExec name url) as [g'|].
    + destruct H as [pre' [Hocc' Hmin']]. f_equal.
      pose proof (Hmin _ _ Hocc') as L1. pose proof (Hmin' _ _ Hocc) as L2.
      assert (pre = pre') as <-.
      { pose proof Hocc as A. pose proof Hocc' as B.
        apply occursAt_matchHere in A as [s1 [E1 _]].
        apply occursAt_matchHere in B as [s2 [E2 _]].
        rewrite E1 in E2. apply app_inj_1 in E2 as [E2 _]; [exact E2 | lia]. }
      eapply occursAt_functional; eassumption.
    + destruct (H _ _ Hocc).
Qed.

(** ** The frame element *)

Lemma getParameterByName_absent name url :
  absent name url -> getParameterByName name url = Ok None.
Proof.
  intros H. apply regexExec_None in H. unfold getParameterByName.
  rewrite H. reflexivity.
Qed.

Lemma getParameterByName_bare name url pre :
  firstOccurrence name url pre None -> getParameterByName name url = Ok (Some []).
Proof.
  intros H. unfold getParameterByName.
  rewrite (proj2 (regexExec_Some name url None)) by eauto. reflexivity.
Qed.

Lemma getParameterByName_empty name url pre :
  firstOccurrence name url pre (Some []) ->
  getParameterByName name url = Ok (Some []).
Proof.
  intros H. unfold getParameterByName.
  rewrite (proj2 (regexExec_Some name url (Some []))) by eauto. reflexivity.
Qed.

Lemma getParameterByName_valued name url pre v :
  firstOccurrence name url pre (Some v) -> v <> [] ->
  getParameterByName name url =
  result_bind (decodeURIComponent (replacePlus v)) (fun d => Ok (Some d)).
Proof.
  intros H Hv. unfold getParameterByName.
  rewrite (proj2 (regexExec_Some name url (Some v))) by eauto.
  destruct v; [congruence | reflexivity].
Qed.

Lemma replacePlus_nonempty v : v <> [] -> replacePlus v <> [].
Proof. destruct v; [congruence | discriminate]. Qed.

Lemma frameSandbox_flag h flag :
  getParameterByName DISABLE_SAME_ORIGIN_KEY (location_href h) = Ok flag ->
  frameSandbox h =
  Ok (Some (match flag with
            | Some (_ :: _) => RESTRICTIVE_SANDBOX
            | _ => PERMISSIVE_SANDBOX
            end)).
Proof.
  intros H. unfold frameSandbox, getOfficeEditorFrameElement. rewrite H.
  destruct flag as [[|c r]|]; reflexivity.
Qed.

Lemma frameSandbox_throws h e :
  getParameterByName DISABLE_SAME_ORIGIN_KEY (location_href h) = Throw e ->
  getOfficeEditorFrameElement h = Throw e.
Proof.
  intros H. unfold getOfficeEditorFrameElement. rewrite H. reflexivity.
Qed.

(** C1, as amended. The restrictive sandbox value is the base permission
    set and the permissive one is the base set plus [allow-same-origin].
    The frame gets the permissive value when [disableAllowSameOrigin]
    occurs nowhere in the page address, and also when its leftmost
    occurrence has no value or an empty one; it gets the restrictive value
    when the leftmost occurrence has a non-empty value that
    [decodeURIComponent] accepts (the text [false] included). *)
Theorem sandbox_policy (h : Host) :
  tokens RESTRICTIVE_SANDBOX = BASE_PERMISSIONS /\
  tokens PERMISSIVE_SANDBOX ≡ₚ "allow-same-origin" :: BASE_PERMISSIONS /\
  (absent DISABLE_SAME_ORIGIN_KEY (location_href h) ->
   frameSandbox h = Ok (Some PERMISSIVE_SANDBOX)) /\
  (forall pre,
     firstOccurrence DISABLE_SAME_ORIGIN_KEY (location_href h) pre None \/
     firstOccurrence DISABLE_SAME_ORIGIN_KEY (location_href h) pre (Some []) ->
     frameSandbox h = Ok (Some PERMISSIVE_SANDBOX)) /\
  (forall pre v d,
     firstOccurrence DISABLE_SAME_ORIGIN_KEY (location_href h) pre (Some v) ->
     v <> [] ->
     decodeURIComponent (replacePlus v) = Ok d ->
     frameSandbox h = Ok (Some RESTRICTIVE_SANDBOX)).
Proof.
  split; [reflexivity|]. split.
  { vm_compute. apply perm_swap. }
  split; [|split].
  - intros H. apply getParameterByName_absent in H.
    rewrite (frameSandbox_flag h _ H). reflexivity.
  - intros pre [H|H];
      [apply getParameterByName_bare in H | apply getParameterByName_empty in H];
      rewrite (frameSandbox_flag h _ H); reflexivity.
  - intros pre v d H Hv Hd.
    pose proof (getParameterByName_valued _ _ _ _ H Hv) as E.
    rewrite Hd in E. simpl in E. rewrite (frameSandbox_flag h _ E).
    pose proof (decodeURIComponent_nonempty _ _ (replacePlus_nonempty v Hv) Hd).
    destruct d; [congruence | reflexivity].
Qed.

Lemma sandbox_policy_witness :
  frameSandbox (sampleHost "https://app.box.com/office?disableAllowSameOrigin=false")
  = Ok (Some RESTRICTIVE_SANDBOX).
Proof.
  destruct (proj1 (regexExec_Some DISABLE_SAME_ORIGIN_KEY
                     "https://app.box.com/office?disableAllowSameOrigin=false"
                     (Some "false")) eq_refl) as [pre H].
  refine (proj2 (proj2 (proj2 (proj2 (sandbox_policy
            (sampleHost "https://app.box.com/office?disableAllowSameOrigin=false")))))
          pre "false" "false" H _ _).
  - discriminate.
  - reflexivity.
Defined.

(** C1 as first stated fails: with an empty value the parameter is
    present and the frame still gets the permissive sandbox, so presence
    alone does not decide. *)
Lemma sandbox_empty_value_counterexample :
  ~ presenceRule (sampleHost "https://app.box.com/office?disableAllowSameOrigin=").
Proof.
  intros [_ H].
  assert (frameSandbox (sampleHost "https://app.box.com/office?disableAllowSameOrigin=")
          = Ok (Some RESTRICTIVE_SANDBOX)) as E.
  { apply H. exists "https://app.box.com/office", (Some []).
    apply occurs_valued with (sep := 63) (rest := []);
      [reflexivity | reflexivity | constructor | exact I]. }
  vm_compute in E. discriminate E.
Qed.

Example sandbox_malformed_value :
  getOfficeEditorFrameElement
    (sampleHost "https://app.box.com/office?disableAllowSameOrigin=%")
  = Throw URIError.
Proof. reflexivity. Qed.

Example sandbox_fragment :
  frameSandbox (sampleHost "https://app.box.com/office#&disableAllowSameOrigin=1")
  = Ok (Some RESTRICTIVE_SANDBOX).
Proof. reflexivity. Qed.

(** C6. Every element [getOfficeEditorFrameElement] returns is an iframe
    named [office-editor], of class [office-editor-frame], with
    [allowfullscreen] set to [true], [allow] set to [microphone] and [src]
    set to the editor address of the page ([invocationUrl]); and it does
    return one whenever reading the flag from the page address does not
    throw. *)
Theorem frame_attributes (h : Host) :
  (forall el,
     getOfficeEditorFrameElement h = Ok el ->
     tagName el = "iframe" /\
     getAttribute "name" el = Some "office-editor" /\
     getAttribute "class" el = Some "office-editor-frame" /\
     getAttribute "allowfullscreen" el = Some "true" /\
     getAttribute "allow" el = Some "microphone" /\
     getAttribute "src" el = Some (invocationUrl h)) /\
  (forall flag,
     getParameterByName DISABLE_SAME_ORIGIN_KEY (location_href h) = Ok flag ->
     exists el, getOfficeEditorFrameElement h = Ok el).
Proof.
  unfold getOfficeEditorFrameElement. split.
  - intros el.
    destruct (getParameterByName DISABLE_SAME_ORIGIN_KEY (location_href h))
      as [[[|c r]|]|e]; simpl; intros [= <-]; repeat split; vm_compute; reflexivity.
  - intros flag ->. simpl. destruct flag as [[|c r]|]; eexists; reflexivity.
Qed.

Lemma frame_attributes_witness :
  exists el,
    getOfficeEditorFrameElement (sampleHost "https://app.box.com/office?x=1") = Ok el /\
    getAttribute "name" el = Some "office-editor" /\
    getAttribute "src" el =
      Some "https://excel.officeapps.live.com/x/_layouts/xlviewerinternal.aspx".
Proof.
  destruct (proj2 (frame_attributes (sampleHost "https://app.box.com/office?x=1"))
              None eq_refl) as [el E].
  exists el. split; [exact E|].
  destruct (proj1 (frame_attributes (sampleHost "https://app.box.com/office?x=1"))
              el E) as (_ & Hname & _ & _ & _ & Hsrc).
  split; [exact Hname | exact Hsrc].
Defined.

(** ** Running the functions of the module *)

Lemma bind_unit (m : M unit) s : bind m (fun _ => ret tt) s = m s.
Proof. unfold bind, ret. destruct (m s) as [[[]|e] s']; reflexivity. Qed.

Lemma performance_now_run h s :
  performance_now h s =
  if performance (vars s)
  then (Ok (Num (reading h (performanceReadings s))),
        set_performanceReadings S s)
  else (Throw TypeError, s).
Proof.
  unfold performance_now, bind, bound, gets, modify, ret.
  destruct (performance (vars s)); reflexivity.
Qed.

Lemma lookup_snoc {A} (l : list A) (x : A) : (l ++ [x]) !! length l = Some x.
Proof. rewrite lookup_app_r, Nat.sub_diag by lia. reflexivity. Qed.

Lemma alter_snoc {A} (f : A -> A) (l : list A) (x : A) :
  alter f (length l) (l ++ [x]) = l ++ [f x].
Proof. induction l as [|a l IH]; simpl; [reflexivity | f_equal; exact IH]. Qed.

(** What a call of [logLoadTime] does, case by case. *)
Lemma logLoadTime_run h eventName s :
  logLoadTime h eventName s =
  if performance (vars s) then
    let p := loadParams h s eventName in
    let ref := length (heap s) in
    let s1 := set_heap (fun hp => hp ++ [p]) (set_performanceReadings S s) in
    if logger (vars s) then
      let s2 := set_telemetry (fun t => t ++ [logCall ref p]) s1 in
      if number_ge (load_time p) 10000 then
        (Ok tt,
         set_telemetry (fun t => t ++ [logCall ref (slowParams p)])
           (set_heap (fun _ => heap s ++ [slowParams p]) s2))
      else (Ok tt, s2)
    else (Throw TypeError, s1)
  else (Throw TypeError, s).
Proof.
  destruct s as [[d l p st w] hp fh frm ls pt pr dr tel po].
  unfold logLoadTime, performance_now, sendLog, bind, bound, gets, modify, ret,
    loadParams, loadTimeOf, logCall, slowParams,
    set_telemetry, set_heap, set_performanceReadings. simpl.
  destruct p; [|reflexivity]. simpl. destruct l; [|reflexivity]. simpl.
  rewrite lookup_snoc.
  destruct (number_ge _ 10000); [|reflexivity]. simpl.
  rewrite alter_snoc, lookup_snoc. reflexivity.
Qed.

(** C3. A call of [logLoadTime] in an initialised module computes
    [elapsed] as the reading of the clock minus the start timestamp, a
    subtraction of doubles, and makes one telemetry call showing the
    record of that milestone; when [elapsed] is at least 10000 it makes a
    second call, and nothing else, showing the same record except that
    [_slow] is appended to its event name; below 10000 there is no second
    call. *)
Theorem logLoadTime_emits (h : Host) (s : State) (eventName : jsstring) (t0 : Q) :
  performance (vars s) = true ->
  logger (vars s) = true ->
  startTs (vars s) = Some (Num t0) ->
  let elapsed := roundDouble (reading h (performanceReadings s) - t0) in
  let first :=
    {| event_name := eventName; load_time := Num elapsed;
       service_id := getConfig h "serviceId";
       office_online_app_type := getConfig h "officeOnlineAppType" |} in
  let second :=
    {| event_name := eventName ++ "_slow"; load_time := Num elapsed;
       service_id := getConfig h "serviceId";
       office_online_app_type := getConfig h "officeOnlineAppType" |} in
  let ref := length (heap s) in
  exists s',
    logLoadTime h eventName s = (Ok tt, s') /\
    ((10000 <= elapsed)%Q ->
     telemetry s' = telemetry s ++ [logCall ref first; logCall ref second]) /\
    ((elapsed < 10000)%Q ->
     telemetry s' = telemetry s ++ [logCall ref first]).
Proof.
  intros Hp Hl Hs elapsed first second ref.
  rewrite logLoadTime_run, Hp, Hl.
  unfold loadParams, loadTimeOf. rewrite Hs. simpl.
  fold elapsed. fold first. fold ref.
  destruct (Qle_bool 10000 elapsed) eqn:E; eexists; (split; [reflexivity|]).
  - split.
    + intros _. simpl. rewrite <- app_assoc. reflexivity.
    + intros Hlt. apply Qle_bool_iff in E. exfalso. lra.
  - split.
    + intros Hle. apply Qle_bool_iff in Hle. congruence.
    + intros _. reflexivity.
Qed.

(** The two calls of a slow load hand the sink one and the same object,
    which ends up holding the [_slow] name: a sink that keeps the
    reference and reads it later sees that name twice. *)
Lemma logLoadTime_aliasing h s eventName :
  performance (vars s) = true ->
  logger (vars s) = true ->
  number_ge (loadTimeOf h s) 10000 = true ->
  let s' := snd (logLoadTime h eventName s) in
  heap s' !! length (heap s) = Some (slowParams (loadParams h s eventName)) /\
  exists c1 c2,
    telemetry s' = telemetry s ++ [c1; c2] /\
    log_ref c1 = length (heap s) /\ log_ref c2 = length (heap s).
Proof.
  intros Hp Hl Hg. rewrite logLoadTime_run, Hp, Hl. simpl. rewrite Hg. simpl.
  split; [apply lookup_snoc|].
  do 2 eexists. rewrite <- app_assoc. simpl. split; [reflexivity|]. split; reflexivity.
Qed.

Lemma logLoadTime_emits_witness :
  let h := sampleHost "https://app.box.com/office" in
  let s := snd (run h [Init; Deliver {| originalEvent_data := Some appLoadedText |}]
                  samplePage) in
  exists s',
    logLoadTime h "EDITOR_LOAD_TIME" s = (Ok tt, s') /\
    length (telemetry s') = (2 + length (telemetry s))%nat.
Proof.
  intros h s.
  destruct (logLoadTime_emits h s "EDITOR_LOAD_TIME" 0 eq_refl eq_refl eq_refl)
    as [s' [E [Hslow _]]].
  exists s'. split; [exact E|].
  rewrite Hslow.
  - rewrite length_app. cbn [length]. lia.
  - apply Qle_bool_iff. vm_compute. reflexivity.
Defined.

(** The readings 0.3 and 10000.3 are doubles less than 10000 apart, and
    the load time computed from them is 10000: the slow record is sent. *)
Example logLoadTime_at_threshold :
  let h := tenSecondsHost "https://app.box.com/office" in
  (reading h 1 - reading h 0 < 10000)%Q /\
  map (fun c => (event_name <$> log_seen c, load_time <$> log_seen c))
      (telemetry (snd (init h samplePage))) =
  [(Some "IFRAME_LOAD_TIME", Some (Num 10000));
   (Some "IFRAME_LOAD_TIME_slow", Some (Num 10000))].
Proof. vm_compute. split; reflexivity. Qed.

Lemma query_frame_run s :
  query ".office-editor-frame" s =
  if domService (vars s) then (Ok (FrameNode <$> findFrame s), s)
  else (Throw TypeError, s).
Proof.
  unfold query, bind, bound, gets, ret, findFrame.
  destruct (domService (vars s)); [|reflexivity].
  change (str_eqb ".office-editor-frame" ("." ++ FRAME_HOLDER_CLASS)) with false.
  change (str_eqb ".office-editor-frame" ".office-form") with false.
  change (str_eqb ".office-editor-frame" ("." ++ EDITOR_IFRAME_CLASS)) with true.
  cbv iota. unfold id. destruct (frameHolder s); reflexivity.
Qed.

Lemma frameWindow_findFrame h s i : frameWindow h s = Some i -> findFrame s = Some i.
Proof.
  unfold frameWindow, findFrame. destruct (frameHolder s) as [children|]; [|discriminate].
  destruct (findByClass EDITOR_IFRAME_CLASS children) as [j|]; [|discriminate].
  destruct (children !! j) as [el|]; [|discriminate].
  destruct (hasContentWindow h el); [|discriminate]. intros [= <-]. reflexivity.
Qed.

Lemma publishMessage_run h message s :
  publishMessage h message s =
  if domService (vars s) then
    match frameWindow h s with
    | Some i =>
        if targetOriginAccepted h (getConfig h "origin") then
          (Ok tt,
           set_posted (fun l =>
             l ++ [{| posted_frame := i;
                      posted_message := JSON_stringify h message;
                      posted_origin := getConfig h "origin" |}]) s)
        else (Throw DOMSyntaxError, s)
    | None => (Throw TypeError, s)
    end
  else (Throw TypeError, s).
Proof.
  unfold publishMessage, bind. rewrite query_frame_run.
  destruct (domService (vars s)); [|reflexivity].
  unfold findFrame, frameWindow, gets, throw, modify.
  destruct (frameHolder s) as [children|] eqn:Hf; [|reflexivity].
  destruct (findByClass EDITOR_IFRAME_CLASS children) as [i|]; [|reflexivity].
  simpl. rewrite Hf. simpl. destruct (children !! i) as [el|]; [|reflexivity].
  destruct (hasContentWindow h el); [|reflexivity].
  destruct (targetOriginAccepted h (getConfig h "origin")); reflexivity.
Qed.

Lemma publishReadyMessage_run h s :
  publishReadyMessage h s =
  if domService (vars s) then
    match frameWindow h s with
    | Some i =>
        if targetOriginAccepted h (getConfig h "origin") then
          (Ok tt,
           set_posted (fun l => l ++ [readyPosted h i (DateReadings s)])
             (set_DateReadings S s))
        else (Throw DOMSyntaxError, set_DateReadings S s)
    | None => (Throw TypeError, set_DateReadings S s)
    end
  else (Throw TypeError, set_DateReadings S s).
Proof.
  unfold publishReadyMessage, getCurrentTimestamp, bind, gets, modify, ret.
  rewrite publishMessage_run. reflexivity.
Qed.

(** An element of the class that has no content window, such as a [div],
    makes [publishReadyMessage] throw; so does a target origin that
    [postMessage] does not accept. *)
Lemma publishReadyMessage_without_window h s :
  frameWindow h s = None ->
  publishReadyMessage h s = (Throw TypeError, set_DateReadings S s).
Proof.
  intros Hw. rewrite publishReadyMessage_run, Hw.
  destruct (domService (vars s)); reflexivity.
Qed.

Lemma publishReadyMessage_stray_origin h s i :
  domService (vars s) = true -> frameWindow h s = Some i ->
  targetOriginAccepted h (getConfig h "origin") = false ->
  publishReadyMessage h s = (Throw DOMSyntaxError, set_DateReadings S s).
Proof.
  intros Hd Hw Hacc. rewrite publishReadyMessage_run, Hd, Hw, Hacc. reflexivity.
Qed.

Lemma hasMessageId_exclusive data a b :
  hasMessageId data a = true -> a <> b -> hasMessageId data b = false.
Proof.
  unfold hasMessageId. destruct (truthy data); [|discriminate]. simpl.
  destruct (getProperty data "MessageId") as [v|]; [|discriminate].
  destruct v; try discriminate. unfold strictEqualsString, str_eqb.
  intros E Hne. apply bool_decide_eq_true in E. subst.
  apply bool_decide_eq_false. exact Hne.
Qed.

(** What the message handler does on a non-empty payload. *)
Lemma receiveEventFromOfficeOnline_run h c text s :
  receiveEventFromOfficeOnline h {| originalEvent_data := Some (c :: text) |} s =
  match JSON_parse h (c :: text) with
  | Throw e => (Throw e, s)
  | Ok data =>
      if hasMessageId data APP_LOADING_STATUS_MESSAGE_ID then
        bind (logLoadTime h EDITOR_LOAD_TIME_EVENT)
             (fun _ => publishReadyMessage h) s
      else if hasMessageId data FILE_RENAME_MESSAGE_ID then
        match renameTitle h data with
        | Ok title => (Ok tt, set_parentTitle title s)
        | Throw e => (Throw e, s)
        end
      else (Ok tt, s)
  end.
Proof.
  unfold receiveEventFromOfficeOnline. simpl. unfold bind at 1, lift.
  destruct (JSON_parse h (c :: text)) as [data|e]; [|reflexivity].
  destruct (hasMessageId data APP_LOADING_STATUS_MESSAGE_ID) eqn:Happ.
  - rewrite (hasMessageId_exclusive _ _ FILE_RENAME_MESSAGE_ID Happ) by discriminate.
    apply bind_unit.
  - unfold bind at 1, ret.
    destruct (hasMessageId data FILE_RENAME_MESSAGE_ID); [|reflexivity].
    unfold renameTitle, bind, lift, modify.
    destruct (getProperty data "Values") as [msgValue|]; [|reflexivity]. simpl.
    destruct (getProperty msgValue "NewName") as [rawName|]; [|reflexivity]. simpl.
    destruct (ToString (Number_toString h) rawName); [|reflexivity]. simpl.
    destruct (ToString (Number_toString h) (getConfig h "fileExtension"));
      reflexivity.
Qed.

Lemma hasMessageId_object props id :
  hasMessageId (VObject props) id =
  match props !! "MessageId" with
  | Some (VString t) => str_eqb t id
  | _ => false
  end.
Proof.
  unfold hasMessageId. cbn [truthy getProperty andb].
  destruct (props !! "MessageId") as [[]|]; reflexivity.
Qed.

(** What [logLoadTime] leaves alone. *)
Lemma logLoadTime_frame h eventName s :
  let s' := snd (logLoadTime h eventName s) in
  vars s' = vars s /\ frameHolder s' = frameHolder s /\
  officeForm s' = officeForm s /\ listeners s' = listeners s /\
  parentTitle s' = parentTitle s /\ DateReadings s' = DateReadings s /\
  posted s' = posted s.
Proof.
  rewrite logLoadTime_run.
  destruct (performance (vars s)), (logger (vars s)); simpl;
    try destruct (number_ge _ _); simpl; repeat split; reflexivity.
Qed.

(** What [publishReadyMessage] leaves alone, and what it posts. *)
Lemma publishReadyMessage_frame h s :
  let s' := snd (publishReadyMessage h s) in
  vars s' = vars s /\ listeners s' = listeners s /\
  parentTitle s' = parentTitle s /\
  performanceReadings s' = performanceReadings s /\
  telemetry s' = telemetry s /\
  (posted s' = posted s \/
   exists i, posted s' = posted s ++ [readyPosted h i (DateReadings s)]).
Proof.
  rewrite publishReadyMessage_run.
  destruct (domService (vars s));
    [destruct (frameWindow h s) as [i|];
       [destruct (targetOriginAccepted h (getConfig h "origin"))|]|];
    simpl; repeat split; eauto.
Qed.

(** C2. When the payload parses to an object: with [MessageId]
    [App_LoadingStatus] the handler does what [logLoadTime] of the editor
    event followed by [publishReadyMessage] does, and the title stays as it
    was; in an initialised module whose frame has a content window and
    whose configured origin [postMessage] accepts, that is one ready
    message posted and the editor load time reported. With [File_Rename]
    the title of the parent document becomes the computed title and
    nothing else changes (and nothing at all changes when the title cannot
    be computed). With any other [MessageId], or none, the handler returns
    normally and the state is unchanged. *)
Theorem dispatch_by_MessageId (h : Host) (s : State) (c : N) (text : jsstring)
    (props : gmap jsstring value) :
  JSON_parse h (c :: text) = Ok (VObject props) ->
  let out :=
    receiveEventFromOfficeOnline h {| originalEvent_data := Some (c :: text) |} s in
  (props !! "MessageId" = Some (VString "App_LoadingStatus") ->
   out = bind (logLoadTime h "EDITOR_LOAD_TIME") (fun _ => publishReadyMessage h) s /\
   parentTitle (snd out) = parentTitle s /\
   forall i,
     domService (vars s) = true -> logger (vars s) = true ->
     performance (vars s) = true -> frameWindow h s = Some i ->
     targetOriginAccepted h (getConfig h "origin") = true ->
     let p := loadParams h s "EDITOR_LOAD_TIME" in
     let ref := length (heap s) in
     fst out = Ok tt /\
     posted (snd out) = posted s ++ [readyPosted h i (DateReadings s)] /\
     telemetry (snd out) =
       telemetry s ++
       (if number_ge (load_time p) 10000
        then [logCall ref p; logCall ref (slowParams p)]
        else [logCall ref p])) /\
  (props !! "MessageId" = Some (VString "File_Rename") ->
   match renameTitle h (VObject props) with
   | Ok title =>
       fst out = Ok tt /\ parentTitle (snd out) = title /\ sameButTitle s (snd out)
   | Throw e => out = (Throw e, s)
   end) /\
  (props !! "MessageId" <> Some (VString "App_LoadingStatus") ->
   props !! "MessageId" <> Some (VString "File_Rename") ->
   out = (Ok tt, s)).
Proof.
  intros Hparse out. subst out.
  rewrite receiveEventFromOfficeOnline_run, Hparse, !hasMessageId_object.
  split; [|split].
  - intros ->. split; [reflexivity|].
    change (str_eqb "App_LoadingStatus" APP_LOADING_STATUS_MESSAGE_ID) with true.
    cbv iota. unfold bind. split.
    + pose proof (logLoadTime_frame h EDITOR_LOAD_TIME_EVENT s) as F.
      destruct (logLoadTime h EDITOR_LOAD_TIME_EVENT s) as [[[]|e] s1]; simpl in F.
      * pose proof (publishReadyMessage_frame h s1) as G. simpl in G.
        destruct G as (_ & _ & G & _). destruct F as (_ & _ & _ & _ & F & _).
        congruence.
      * destruct F as (_ & _ & _ & _ & F & _). exact F.
    + intros i Hd Hl Hp Hf Hacc.
      rewrite logLoadTime_run, Hp, Hl.
      change (loadParams h s EDITOR_LOAD_TIME_EVENT)
        with (loadParams h s "EDITOR_LOAD_TIME").
      cbv zeta.
      destruct (number_ge (load_time (loadParams h s "EDITOR_LOAD_TIME")) 10000);
        rewrite publishReadyMessage_run; unfold frameWindow in *; simpl;
        rewrite Hd, Hf, Hacc; simpl; rewrite <- ?app_assoc; repeat split; reflexivity.
  - intros ->.
    change (str_eqb "File_Rename" APP_LOADING_STATUS_MESSAGE_ID) with false.
    change (str_eqb "File_Rename" FILE_RENAME_MESSAGE_ID) with true.
    cbv iota. destruct (renameTitle h (VObject props)); [|reflexivity].
    repeat split.
  - intros Happ Hren.
    destruct (props !! "MessageId") as [[| | | |t| |]|]; try reflexivity.
    unfold str_eqb. rewrite !bool_decide_eq_false_2; [reflexivity | |];
      intros ->; [apply Hren | apply Happ]; reflexivity.
Qed.

Lemma dispatch_by_MessageId_witness :
  let h := sampleHost "https://app.box.com/office" in
  let s := snd (run h [Init] samplePage) in
  receiveEventFromOfficeOnline h {| originalEvent_data := Some otherText |} s
  = (Ok tt, s).
Proof.
  intros h s.
  refine (proj2 (proj2 (dispatch_by_MessageId h s 123 (skipn 1 otherText)
                          {[ "MessageId" := VString "Clipboard_Copy" ]} eq_refl)) _ _);
    discriminate.
Defined.

(** C4. An event without payload, or with the empty string as payload,
    makes the handler return normally with the state unchanged. With any
    other payload the handler hands it to [JSON.parse]; when parsing
    throws, the exception leaves the handler with the state unchanged, and
    the dispatch of the event reports it as uncaught. *)
Theorem payload_policy (h : Host) (s : State) :
  receiveEventFromOfficeOnline h {| originalEvent_data := None |} s = (Ok tt, s) /\
  receiveEventFromOfficeOnline h {| originalEvent_data := Some [] |} s = (Ok tt, s) /\
  (forall c text e,
     JSON_parse h (c :: text) = Throw e ->
     receiveEventFromOfficeOnline h {| originalEvent_data := Some (c :: text) |} s
     = (Throw e, s)) /\
  (forall c text e,
     JSON_parse h (c :: text) = Throw e ->
     listeners s = [subscription] ->
     step h (Deliver {| originalEvent_data := Some (c :: text) |}) s = ([e], s)).
Proof.
  split; [reflexivity|]. split; [reflexivity|]. split.
  - intros c text e H. rewrite receiveEventFromOfficeOnline_run, H. reflexivity.
  - intros c text e H Hl. unfold step, dispatchMessage. rewrite Hl.
    unfold invokeAll, subscription, invoke.
    cbn [listener_type listener_handler].
    change (str_eqb "message" "message") with true. cbv iota.
    rewrite receiveEventFromOfficeOnline_run, H. reflexivity.
Qed.

Lemma payload_policy_witness :
  let h := sampleHost "https://app.box.com/office" in
  let s := snd (run h [Init] samplePage) in
  step h (Deliver {| originalEvent_data := Some "not json" |}) s = ([SyntaxError], s).
Proof.
  intros h s.
  exact (proj2 (proj2 (proj2 (payload_policy h s)))
           110 "ot json" SyntaxError eq_refl eq_refl).
Defined.

(** C7. A rename message whose [Values.NewName] is the string [newName],
    with the string [ext] configured as [fileExtension], makes the handler
    return normally; afterwards the title of the parent document is the
    result of the localisation function applied to the template, its key,
    the display name [newName.ext] and the configured
    [titleWithNoFilename]; nothing else has changed. *)
Theorem rename_sets_title (h : Host) (s : State) (c : N) (text : jsstring)
    (props values : gmap jsstring value) (newName ext : jsstring) :
  JSON_parse h (c :: text) = Ok (VObject props) ->
  props !! "MessageId" = Some (VString "File_Rename") ->
  props !! "Values" = Some (VObject values) ->
  values !! "NewName" = Some (VString newName) ->
  config h !! "fileExtension" = Some (VString ext) ->
  exists s',
    receiveEventFromOfficeOnline h {| originalEvent_data := Some (c :: text) |} s
    = (Ok tt, s') /\
    parentTitle s' =
      translate h "%1 on %2" "office_online_window_title_with_file_name"
        [VString (newName ++ "." ++ ext); getConfig h "titleWithNoFilename"] /\
    sameButTitle s s'.
Proof.
  intros Hparse Hid Hvalues Hname Hext.
  rewrite receiveEventFromOfficeOnline_run, Hparse, !hasMessageId_object, Hid.
  change (str_eqb "File_Rename" APP_LOADING_STATUS_MESSAGE_ID) with false.
  change (str_eqb "File_Rename" FILE_RENAME_MESSAGE_ID) with true.
  cbv iota. unfold renameTitle, getProperty, getConfig.
  rewrite Hvalues. simpl. rewrite Hname, Hext. simpl.
  eexists. split; [reflexivity|]. repeat split.
Qed.

Lemma rename_sets_title_witness :
  let h := sampleHost "https://app.box.com/office" in
  let s := snd (run h [Init] samplePage) in
  exists s',
    receiveEventFromOfficeOnline h {| originalEvent_data := Some renameText |} s
    = (Ok tt, s') /\
    parentTitle s = "Box" /\
    parentTitle s' = "Report.xlsx on Box for Office Online".
Proof.
  intros h s.
  destruct (rename_sets_title h s 123 (skipn 1 renameText)
              (<["MessageId" := VString "File_Rename"]>
                 {[ "Values" := VObject {[ "NewName" := VString "Report" ]} ]})
              {[ "NewName" := VString "Report" ]} "Report" "xlsx"
              eq_refl eq_refl eq_refl eq_refl eq_refl) as (s' & E & T & _).
  exists s'. split; [exact E|]. split; [reflexivity | exact T].
Defined.

(** C10. A payload that parses to an object with [MessageId]
    [File_Rename] and no [Values] (or [null] for it) makes the handler
    throw a [TypeError], the state left as it was: [NewName] is read from
    [Values] without a guard. *)
Theorem rename_without_values_throws (h : Host) (s : State) (c : N)
    (text : jsstring) (props : gmap jsstring value) :
  JSON_parse h (c :: text) = Ok (VObject props) ->
  props !! "MessageId" = Some (VString "File_Rename") ->
  props !! "Values" = None \/ props !! "Values" = Some VNull ->
  receiveEventFromOfficeOnline h {| originalEvent_data := Some (c :: text) |} s =
  (Throw TypeError, s).
Proof.
  intros Hparse Hid Hvalues.
  rewrite receiveEventFromOfficeOnline_run, Hparse, !hasMessageId_object, Hid.
  change (str_eqb "File_Rename" APP_LOADING_STATUS_MESSAGE_ID) with false.
  change (str_eqb "File_Rename" FILE_RENAME_MESSAGE_ID) with true.
  cbv iota. unfold renameTitle, getProperty.
  destruct Hvalues as [-> | ->]; reflexivity.
Qed.

Lemma rename_without_values_throws_witness :
  let h := sampleHost "https://app.box.com/office" in
  let s := snd (run h [Init] samplePage) in
  receiveEventFromOfficeOnline h {| originalEvent_data := Some renameNoValuesText |} s =
  (Throw TypeError, s).
Proof.
  intros h s.
  exact (rename_without_values_throws h s 123 (skipn 1 renameNoValuesText)
           {[ "MessageId" := VString "File_Rename" ]}
           eq_refl eq_refl (or_introl eq_refl)).
Defined.

(** A new name that is an object with a property [toString] of its own
    cannot be turned into a string: the handler throws and the title is
    not written. *)
Lemma rename_with_own_toString h s c text props values name x :
  JSON_parse h (c :: text) = Ok (VObject props) ->
  props !! "MessageId" = Some (VString "File_Rename") ->
  props !! "Values" = Some (VObject values) ->
  values !! "NewName" = Some (VObject name) ->
  name !! "toString" = Some x ->
  receiveEventFromOfficeOnline h {| originalEvent_data := Some (c :: text) |} s =
  (Throw TypeError, s).
Proof.
  intros Hparse Hid Hvalues Hname Hx.
  rewrite receiveEventFromOfficeOnline_run, Hparse, !hasMessageId_object, Hid.
  change (str_eqb "File_Rename" APP_LOADING_STATUS_MESSAGE_ID) with false.
  change (str_eqb "File_Rename" FILE_RENAME_MESSAGE_ID) with true.
  cbv iota. unfold renameTitle, getProperty.
  rewrite Hvalues. simpl. rewrite Hname. simpl. rewrite Hx. reflexivity.
Qed.

(** ** Start-up and teardown *)

Lemma drawIframe_run h s :
  drawIframe h s =
  if domService (vars s) then
    match getOfficeEditorFrameElement h with
    | Throw e => (Throw e, s)
    | Ok el =>
        match frameHolder s with
        | Some _ =>
            logLoadTime h IFRAME_LOAD_TIME_EVENT
              (set_frameHolder (fmap (fun children => children ++ [el])) s)
        | None => (Throw TypeError, s)
        end
    end
  else (Throw TypeError, s).
Proof.
  unfold drawIframe, query, bind, bound, gets, ret, lift, throw, modify.
  destruct (domService (vars s)); [|reflexivity].
  change (str_eqb ("." ++ FRAME_HOLDER_CLASS) ("." ++ FRAME_HOLDER_CLASS)) with true.
  cbv iota. unfold id.
  destruct (getOfficeEditorFrameElement h) as [el|e], (frameHolder s); reflexivity.
Qed.

Lemma init_run h s :
  init h s =
  bind (drawIframe h)
       (fun _ => bind postTokenToIframe
                   (fun _ => subscribeToEventsFromOfficeOnline))
       (started h s).
Proof. destruct s as [[d l p st w] hp fh frm ls pt pr dr tel po]. reflexivity. Qed.

Lemma postTokenToIframe_run s :
  postTokenToIframe s =
  if domService (vars s) then
    match officeForm s with
    | Some _ => (Ok tt, set_officeForm (fmap S) s)
    | None => (Throw TypeError, s)
    end
  else (Throw TypeError, s).
Proof.
  unfold postTokenToIframe, query, bind, bound, gets, ret, throw, modify.
  destruct (domService (vars s)); [|reflexivity].
  change (str_eqb ".office-form" ("." ++ FRAME_HOLDER_CLASS)) with false.
  change (str_eqb ".office-form" ".office-form") with true.
  cbv iota. unfold id. destruct (officeForm s); reflexivity.
Qed.

Lemma subscribe_run s :
  subscribeToEventsFromOfficeOnline s =
  if domService (vars s)
  then (Ok tt, set_listeners (fun ls => ls ++ [subscription]) s)
  else (Throw TypeError, s).
Proof.
  unfold subscribeToEventsFromOfficeOnline, domService_on, bind, bound, modify.
  destruct (domService (vars s)); reflexivity.
Qed.

Lemma destroy_run s :
  destroy s =
  if domService (vars s)
  then (Ok tt, set_listeners (filter (fun l => l <> subscription)) s)
  else (Throw TypeError, s).
Proof.
  unfold destroy, domService_off, bind, bound, modify.
  destruct (domService (vars s)); reflexivity.
Qed.

(** What the end of [init] (form submission and subscription) leaves
    alone. *)
Lemma init_tail_frame s :
  let s' := snd (bind postTokenToIframe
                   (fun _ => subscribeToEventsFromOfficeOnline) s) in
  vars s' = vars s /\ performanceReadings s' = performanceReadings s /\
  telemetry s' = telemetry s /\ posted s' = posted s.
Proof.
  unfold bind. rewrite postTokenToIframe_run.
  destruct (domService (vars s)) eqn:Hd; [destruct (officeForm s)|]; simpl;
    try rewrite subscribe_run; simpl; try rewrite Hd; simpl; repeat split; reflexivity.
Qed.

Lemma logLoadTime_measured h eventName s t0 :
  startTs (vars s) = Some (Num t0) ->
  let s' := snd (logLoadTime h eventName s) in
  (performanceReadings s <= performanceReadings s')%nat /\
  exists new,
    telemetry s' = telemetry s ++ new /\
    Forall (measured h eventName (performanceReadings s) t0) new.
Proof.
  intros Hs. rewrite logLoadTime_run.
  assert (Hm : measured h eventName (performanceReadings s) t0
                 (logCall (length (heap s)) (loadParams h s eventName))).
  { eexists. split; [reflexivity|]. split; [left; reflexivity|].
    unfold loadParams, loadTimeOf. rewrite Hs. reflexivity. }
  assert (Hm' : measured h eventName (performanceReadings s) t0
                  (logCall (length (heap s)) (slowParams (loadParams h s eventName)))).
  { eexists. split; [reflexivity|]. split; [right; reflexivity|].
    unfold loadParams, loadTimeOf. rewrite Hs. reflexivity. }
  destruct (performance (vars s)); [destruct (logger (vars s))|]; simpl.
  - destruct (number_ge _ _); simpl; (split; [lia|]).
    + eexists. rewrite <- app_assoc. split; [reflexivity|]. repeat constructor; assumption.
    + eexists. split; [reflexivity|]. repeat constructor; assumption.
  - split; [lia|]. exists []. rewrite app_nil_r. split; [reflexivity | constructor].
  - split; [lia|]. exists []. rewrite app_nil_r. split; [reflexivity | constructor].
Qed.

(** ** Sessions *)

(** The effect of the handler on the messages posted. *)
Lemma receive_posted h event s :
  exists new,
    posted (snd (receiveEventFromOfficeOnline h event s)) = posted s ++ new /\
    Forall (isReady h) new.
Proof.
  assert (Hnone : exists new, posted s = posted s ++ new /\ Forall (isReady h) new).
  { exists []. rewrite app_nil_r. split; [reflexivity | constructor]. }
  destruct event as [[[|c text]|]]; try exact Hnone.
  rewrite receiveEventFromOfficeOnline_run.
  destruct (JSON_parse h (c :: text)) as [data|e]; [|exact Hnone].
  destruct (hasMessageId data APP_LOADING_STATUS_MESSAGE_ID).
  - unfold bind.
    pose proof (logLoadTime_frame h EDITOR_LOAD_TIME_EVENT s) as F.
    destruct (logLoadTime h EDITOR_LOAD_TIME_EVENT s) as [[[]|e] s1]; simpl in F;
      destruct F as (_ & _ & _ & _ & _ & _ & F).
    + pose proof (publishReadyMessage_frame h s1) as G. simpl in G.
      destruct G as (_ & _ & _ & _ & _ & [G | [i G]]); rewrite G, F.
      * exact Hnone.
      * eexists. split; [reflexivity|]. repeat constructor. eexists _, _. reflexivity.
    + simpl. rewrite F. exact Hnone.
  - destruct (hasMessageId data FILE_RENAME_MESSAGE_ID); [|exact Hnone].
    destruct (renameTitle h data); exact Hnone.
Qed.

(** Its effect on the telemetry, the module variables and the clock. *)
Lemma receive_measured h event s t0 :
  startTs (vars s) = Some (Num t0) ->
  let s' := snd (receiveEventFromOfficeOnline h event s) in
  vars s' = vars s /\
  (performanceReadings s <= performanceReadings s')%nat /\
  exists new,
    telemetry s' = telemetry s ++ new /\
    Forall (measured h EDITOR_LOAD_TIME_EVENT (performanceReadings s) t0) new.
Proof.
  intros Hs.
  assert (Hnone : vars s = vars s /\
                  (performanceReadings s <= performanceReadings s)%nat /\
                  exists new, telemetry s = telemetry s ++ new /\
                    Forall (measured h EDITOR_LOAD_TIME_EVENT (performanceReadings s) t0) new).
  { split; [reflexivity|]. split; [lia|]. exists []. rewrite app_nil_r.
    split; [reflexivity | constructor]. }
  destruct event as [[[|c text]|]]; try exact Hnone.
  cbv zeta. rewrite receiveEventFromOfficeOnline_run.
  destruct (JSON_parse h (c :: text)) as [data|e]; [|exact Hnone].
  destruct (hasMessageId data APP_LOADING_STATUS_MESSAGE_ID).
  - unfold bind.
    pose proof (logLoadTime_frame h EDITOR_LOAD_TIME_EVENT s) as F.
    pose proof (logLoadTime_measured h EDITOR_LOAD_TIME_EVENT s t0 Hs) as T.
    destruct (logLoadTime h EDITOR_LOAD_TIME_EVENT s) as [[[]|e] s1];
      simpl in F, T; destruct F as (F & _); destruct T as (T1 & T2).
    + pose proof (publishReadyMessage_frame h s1) as G. simpl in G.
      destruct G as (G1 & _ & _ & G2 & G3 & _). rewrite G1, G2, G3. auto.
    + simpl. auto.
  - destruct (hasMessageId data FILE_RENAME_MESSAGE_ID); [|exact Hnone].
    destruct (renameTitle h data); exact Hnone.
Qed.

Lemma invokeAll_posted h event ls : forall s,
  exists new,
    posted (snd (invokeAll h ls event s)) = posted s ++ new /\
    Forall (isReady h) new.
Proof.
  induction ls as [|l ls IH]; intros s; simpl.
  - exists []. rewrite app_nil_r. split; [reflexivity | constructor].
  - destruct (str_eqb (listener_type l) "message"); [|apply IH].
    assert (Hone : exists new,
               posted (snd (invoke h (listener_handler l) event s)) = posted s ++ new /\
               Forall (isReady h) new).
    { destruct (listener_handler l); simpl; [apply receive_posted|].
      exists []. rewrite app_nil_r. split; [reflexivity | constructor]. }
    destruct (invoke h (listener_handler l) event s) as [[[]|e] s1];
      simpl in Hone; destruct Hone as [new1 [E1 F1]];
      destruct (IH s1) as [new2 [E2 F2]];
      [|destruct (invokeAll h ls event s1) as [es s2]; simpl in *];
      exists (new1 ++ new2); rewrite E2, E1, app_assoc;
      (split; [reflexivity | apply Forall_app; auto]).
Qed.

Lemma invokeAll_sessionInv h k1 t0 event ls : forall s,
  sessionInv h k1 t0 s -> sessionInv h k1 t0 (snd (invokeAll h ls event s)).
Proof.
  induction ls as [|l ls IH]; intros s Hinv; simpl; [exact Hinv|].
  destruct (str_eqb (listener_type l) "message"); [|apply IH; exact Hinv].
  assert (Hone : sessionInv h k1 t0 (snd (invoke h (listener_handler l) event s))).
  { destruct (listener_handler l); simpl; [|exact Hinv].
    destruct Hinv as (Hs & Hk & Ht).
    destruct (receive_measured h event s t0 Hs) as (V & R & new & E & F).
    split; [rewrite V; exact Hs|]. split; [lia|].
    rewrite E. apply Forall_app. split; [exact Ht|].
    eapply Forall_impl; [exact F|]. intros c Hc. right. eauto. }
  destruct (invoke h (listener_handler l) event s) as [[[]|e] s1]; simpl in Hone.
  - apply IH. exact Hone.
  - specialize (IH s1 Hone). destruct (invokeAll h ls event s1). exact IH.
Qed.

Lemma init_posted h s : posted (snd (init h s)) = posted s.
Proof.
  rewrite init_run. unfold bind at 1. rewrite drawIframe_run.
  change (domService (vars (started h s))) with true. cbv iota.
  destruct (getOfficeEditorFrameElement h) as [el|e]; [|reflexivity].
  destruct (frameHolder (started h s)) eqn:Hf; [|reflexivity].
  set (s1 := set_frameHolder _ (started h s)).
  pose proof (logLoadTime_frame h IFRAME_LOAD_TIME_EVENT s1) as F.
  destruct (logLoadTime h IFRAME_LOAD_TIME_EVENT s1) as [[[]|e] s2]; simpl in F;
    destruct F as (_ & _ & _ & _ & _ & _ & F).
  - destruct (init_tail_frame s2) as (_ & _ & _ & G). rewrite G, F. reflexivity.
  - simpl. rewrite F. reflexivity.
Qed.

(** [init] takes the start timestamp from the first clock reading and
    times the frame with the second. *)
Lemma init_sessionInv h s :
  telemetry s = [] ->
  sessionInv h (S (performanceReadings s))
    (reading h (performanceReadings s)) (snd (init h s)).
Proof.
  intros Ht. set (t0 := reading h (performanceReadings s)).
  assert (H0 : sessionInv h (S (performanceReadings s)) t0 (started h s)).
  { split; [reflexivity|]. split; [simpl; lia|]. simpl. rewrite Ht. constructor. }
  rewrite init_run. unfold bind at 1. rewrite drawIframe_run.
  change (domService (vars (started h s))) with true. cbv iota.
  destruct (getOfficeEditorFrameElement h) as [el|e]; [|exact H0].
  destruct (frameHolder (started h s)) eqn:Hf; [|exact H0].
  set (s1 := set_frameHolder _ (started h s)).
  assert (H1 : sessionInv h (S (performanceReadings s)) t0
                 (snd (logLoadTime h IFRAME_LOAD_TIME_EVENT s1))).
  { pose proof (logLoadTime_frame h IFRAME_LOAD_TIME_EVENT s1) as F.
    destruct (logLoadTime_measured h IFRAME_LOAD_TIME_EVENT s1 t0 eq_refl)
      as (R & new & E & M).
    destruct F as (F & _). split; [rewrite F; reflexivity|].
    split; [simpl in R |- *; lia|].
    rewrite E. simpl. rewrite Ht. simpl.
    eapply Forall_impl; [exact M|]. intros c Hc. left. exact Hc. }
  destruct (logLoadTime h IFRAME_LOAD_TIME_EVENT s1) as [[[]|e] s2];
    simpl in H1; [|exact H1].
  destruct (init_tail_frame s2) as (V & R & T & _).
  destruct H1 as (A & B & C). split; [rewrite V; exact A|].
  split; [rewrite R; exact B | rewrite T; exact C].
Qed.

Lemma step_sessionInv h k1 t0 a s :
  a <> Init -> sessionInv h k1 t0 s -> sessionInv h k1 t0 (snd (step h a s)).
Proof.
  intros Ha Hinv. destruct a as [| |event]; [congruence| |].
  - simpl. rewrite destroy_run. destruct (domService (vars s)); exact Hinv.
  - apply invokeAll_sessionInv. exact Hinv.
Qed.

Lemma run_cons h a acts s :
  snd (run h (a :: acts) s) = snd (run h acts (snd (step h a s))).
Proof.
  simpl. destruct (step h a s) as [es s1]. simpl.
  destruct (run h acts s1). reflexivity.
Qed.

Lemma run_sessionInv h k1 t0 acts : forall s,
  Forall (fun a => a <> Init) acts ->
  sessionInv h k1 t0 s -> sessionInv h k1 t0 (snd (run h acts s)).
Proof.
  induction acts as [|a acts IH]; intros s Hacts Hinv; [exact Hinv|].
  rewrite run_cons. inversion Hacts; subst.
  apply IH; [assumption|]. apply step_sessionInv; assumption.
Qed.

Lemma step_posted h a s :
  exists new,
    posted (snd (step h a s)) = posted s ++ new /\ Forall (isReady h) new.
Proof.
  destruct a as [| |event]; simpl.
  - exists []. rewrite app_nil_r. split; [|constructor].
    pose proof (init_posted h s) as E.
    destruct (init h s) as [[[]|e] s1]; exact E.
  - exists []. rewrite app_nil_r. split; [|constructor].
    rewrite destroy_run. destruct (domService (vars s)); reflexivity.
  - apply invokeAll_posted.
Qed.

Lemma run_posted h acts : forall s,
  Forall (isReady h) (posted s) ->
  Forall (isReady h) (posted (snd (run h acts s))).
Proof.
  induction acts as [|a acts IH]; intros s Hs; [exact Hs|].
  rewrite run_cons. apply IH.
  destruct (step_posted h a s) as [new [E F]]. rewrite E.
  apply Forall_app. auto.
Qed.

Lemma invokeAll_unsubscribed h event ls : forall s,
  unsubscribed ls -> invokeAll h ls event s = ([], s).
Proof.
  induction ls as [|l ls IH]; intros s Hls; [reflexivity|].
  inversion Hls as [|? ? Hl Hrest]; subst. simpl.
  destruct (str_eqb (listener_type l) "message") eqn:Ht; [|apply IH; exact Hrest].
  destruct l as [type [|id]]; simpl in *.
  - apply bool_decide_eq_true in Ht. subst. destruct Hl. reflexivity.
  - apply IH. exact Hrest.
Qed.

Lemma deliveries_unsubscribed h events : forall s,
  unsubscribed (listeners s) -> run h (map Deliver events) s = ([], s).
Proof.
  induction events as [|event events IH]; intros s Hs; [reflexivity|].
  simpl. unfold dispatchMessage. rewrite invokeAll_unsubscribed by exact Hs.
  rewrite IH by exact Hs. reflexivity.
Qed.

Lemma receive_vars h event s :
  vars (snd (receiveEventFromOfficeOnline h event s)) = vars s.
Proof.
  destruct event as [[[|c text]|]]; try reflexivity.
  rewrite receiveEventFromOfficeOnline_run.
  destruct (JSON_parse h (c :: text)) as [data|e]; [|reflexivity].
  destruct (hasMessageId data APP_LOADING_STATUS_MESSAGE_ID).
  - unfold bind.
    pose proof (logLoadTime_frame h EDITOR_LOAD_TIME_EVENT s) as F.
    destruct (logLoadTime h EDITOR_LOAD_TIME_EVENT s) as [[[]|e] s1];
      simpl in F; destruct F as (F & _); [|exact F].
    pose proof (publishReadyMessage_frame h s1) as G. simpl in G.
    destruct G as (G & _). congruence.
  - destruct (hasMessageId data FILE_RENAME_MESSAGE_ID); [|reflexivity].
    destruct (renameTitle h data); reflexivity.
Qed.

Lemma invokeAll_vars h event ls : forall s,
  vars (snd (invokeAll h ls event s)) = vars s.
Proof.
  induction ls as [|l ls IH]; intros s; simpl; [reflexivity|].
  destruct (str_eqb (listener_type l) "message"); [|apply IH].
  assert (Hone : vars (snd (invoke h (listener_handler l) event s)) = vars s).
  { destruct (listener_handler l); simpl; [apply receive_vars | reflexivity]. }
  destruct (invoke h (listener_handler l) event s) as [[[]|e] s1]; simpl in Hone.
  - rewrite IH. exact Hone.
  - specialize (IH s1). destruct (invokeAll h ls event s1). simpl in *. congruence.
Qed.

(** Once [init] has been called the module stays initialised, whatever
    comes next and whether or not [init] ran to its end. *)
Lemma init_initialised h s : initialised (snd (init h s)).
Proof.
  assert (H0 : initialised (started h s)).
  { repeat split. eexists. reflexivity. }
  rewrite init_run. unfold bind at 1. rewrite drawIframe_run.
  change (domService (vars (started h s))) with true. cbv iota.
  destruct (getOfficeEditorFrameElement h) as [el|e]; [|exact H0].
  destruct (frameHolder (started h s)) eqn:Hf; [|exact H0].
  set (s1 := set_frameHolder _ (started h s)).
  pose proof (logLoadTime_frame h IFRAME_LOAD_TIME_EVENT s1) as F.
  destruct (logLoadTime h IFRAME_LOAD_TIME_EVENT s1) as [[[]|e] s2];
    simpl in F; destruct F as (F & _).
  - destruct (init_tail_frame s2) as (V & _).
    unfold initialised. rewrite V, F. exact H0.
  - unfold initialised. simpl. rewrite F. exact H0.
Qed.

Lemma step_initialised h a s :
  initialised s -> initialised (snd (step h a s)).
Proof.
  intros Hs. destruct a as [| |event]; simpl.
  - pose proof (init_initialised h s) as H.
    destruct (init h s) as [[[]|e] s1]; exact H.
  - rewrite destroy_run. destruct (domService (vars s)); exact Hs.
  - unfold dispatchMessage, initialised. rewrite invokeAll_vars. exact Hs.
Qed.

Lemma run_initialised h acts : forall s,
  initialised s -> initialised (snd (run h acts s)).
Proof.
  induction acts as [|a acts IH]; intros s Hs; [exact Hs|].
  rewrite run_cons. apply IH, step_initialised, Hs.
Qed.

Lemma session_initialised h acts page :
  initialised (snd (run h (Init :: acts) page)).
Proof.
  rewrite run_cons. apply run_initialised. simpl.
  pose proof (init_initialised h page) as H.
  destruct (init h page) as [[[]|e] s1]; exact H.
Qed.

Example loaded_with_div_in_the_way :
  let h := sampleHost "https://app.box.com/office" in
  let out := run h [Init; Deliver {| originalEvent_data := Some appLoadedText |}]
               shadowedPage in
  fst out = [TypeError] /\ posted (snd out) = [].
Proof. vm_compute. split; reflexivity. Qed.

Example loaded_with_stray_origin :
  let h := strayOriginHost "https://app.box.com/office" in
  let out := run h [Init; Deliver {| originalEvent_data := Some appLoadedText |}]
               samplePage in
  fst out = [DOMSyntaxError] /\ posted (snd out) = [].
Proof. vm_compute. split; reflexivity. Qed.

(** C5. The object [publishReadyMessage] serialises has [MessageId]
    [Host_PostmessageReady], an empty object as [Values], the timestamp as
    [SendTime], and no other property. In an initialised module whose
    frame is in the page with its content window, the configured origin
    being one [postMessage] accepts, [publishReadyMessage] returns normally
    after posting to that frame, for that origin, the serialisation of
    that object with the current reading of the wall clock, and it does
    nothing else. Whatever the module is made to do from a page where
    nothing was posted yet, every message posted is such a ready
    message. *)
Theorem ready_message_only (h : Host) :
  (forall t, exists props,
     readyMessage t = VObject props /\
     props !! "MessageId" = Some (VString "Host_PostmessageReady") /\
     props !! "Values" = Some (VObject ∅) /\
     props !! "SendTime" = Some (VNumber t) /\
     forall key, is_Some (props !! key) ->
       key = "MessageId" \/ key = "SendTime" \/ key = "Values") /\
  (forall s i,
     domService (vars s) = true ->
     frameWindow h s = Some i ->
     targetOriginAccepted h (getConfig h "origin") = true ->
     exists s',
       publishReadyMessage h s = (Ok tt, s') /\
       posted s' =
         posted s ++
         [{| posted_frame := i;
             posted_message :=
               JSON_stringify h
                 (readyMessage (Num (inject_Z (Date_clock h (DateReadings s)))));
             posted_origin := getConfig h "origin" |}] /\
       DateReadings s' = S (DateReadings s) /\
       sameButPosted s s') /\
  (forall acts page m,
     posted page = [] ->
     m ∈ posted (snd (run h acts page)) ->
     exists i k,
       m = {| posted_frame := i;
              posted_message :=
                JSON_stringify h (readyMessage (Num (inject_Z (Date_clock h k))));
              posted_origin := getConfig h "origin" |}).
Proof.
  split; [|split].
  - intros t. eexists. split; [reflexivity|].
    split; [reflexivity|]. split; [reflexivity|]. split; [reflexivity|].
    intros key [v Hv].
    destruct (decide (key = "MessageId")) as [|H1]; [auto|].
    destruct (decide (key = "SendTime")) as [|H2]; [auto|].
    destruct (decide (key = "Values")) as [|H3]; [auto|].
    rewrite !lookup_insert_ne, lookup_empty in Hv by congruence. discriminate.
  - intros s i Hd Hf Hacc. rewrite publishReadyMessage_run, Hd, Hf, Hacc.
    eexists. split; [reflexivity|]. repeat split.
  - intros acts page m Hpage Hm.
    assert (Forall (isReady h) (posted (snd (run h acts page)))) as Hall.
    { apply run_posted. rewrite Hpage. constructor. }
    rewrite Forall_forall in Hall. exact (Hall m Hm).
Qed.

Lemma ready_message_only_witness :
  let h := sampleHost "https://app.box.com/office" in
  let s := snd (run h [Init] samplePage) in
  exists s',
    publishReadyMessage h s = (Ok tt, s') /\
    posted s' =
    [{| posted_frame := 0;
        posted_message :=
          "{" ++ quoted "MessageId" ++ ":" ++ quoted "Host_PostmessageReady" ++ "," ++
          quoted "SendTime" ++ ":1700000000000," ++ quoted "Values" ++ ":{}}";
        posted_origin := VString "https://excel.officeapps.live.com" |}].
Proof.
  intros h s.
  destruct (proj1 (proj2 (ready_message_only h)) s 0%nat eq_refl eq_refl eq_refl)
    as (s' & E & P & _).
  exists s'. split; [exact E | exact P].
Defined.

(** ** How the state grows *)

Lemma paired_app h l1 l2 : paired h l1 -> paired h l2 -> paired h (l1 ++ l2).
Proof.
  induction 1 as [|ref name elapsed l Hn Hg _ IH|ref name elapsed l Hn Hg _ IH];
    intros H2; simpl; [exact H2 | |].
  - apply paired_one; auto.
  - apply paired_two; auto.
Qed.

Lemma grows_same h s s' :
  heap s' = heap s -> telemetry s' = telemetry s -> posted s' = posted s ->
  DateReadings s' = DateReadings s -> frameHolder s' = frameHolder s ->
  grows h s s'.
Proof.
  intros Hh Ht Hp Hd Hf. unfold grows. rewrite Hh, Ht, Hp, Hd, Hf.
  split; [exists []; rewrite app_nil_r; reflexivity|].
  split; [exists []; rewrite app_nil_r; split; [reflexivity | constructor]|].
  split; [exists []; simpl; rewrite app_nil_r; repeat split; constructor|].
  split; [lia|].
  destruct (frameHolder s) as [children|]; [|reflexivity].
  exists []. rewrite app_nil_r. reflexivity.
Qed.

Lemma grows_refl h s : grows h s s.
Proof. apply grows_same; reflexivity. Qed.

Lemma grows_trans h s1 s2 s3 : grows h s1 s2 -> grows h s2 s3 -> grows h s1 s3.
Proof.
  intros (Hh1 & Ht1 & Hp1 & Hd1 & Hf1) (Hh2 & Ht2 & Hp2 & Hd2 & Hf2).
  destruct Hh1 as [m1 Hh1], Hh2 as [m2 Hh2].
  destruct Ht1 as (n1 & Ht1 & P1), Ht2 as (n2 & Ht2 & P2).
  destruct Hp1 as (k1 & Hp1 & S1 & B1), Hp2 as (k2 & Hp2 & S2 & B2).
  split; [exists (m1 ++ m2); rewrite Hh2, Hh1, app_assoc; reflexivity|].
  split; [exists (n1 ++ n2); rewrite Ht2, Ht1, app_assoc;
          split; [reflexivity | apply paired_app; assumption]|].
  split.
  { exists (k1 ++ k2). rewrite Hp2, Hp1, map_app, app_assoc.
    split; [reflexivity|]. split.
    - rewrite map_app. apply StronglySorted_app. split; [|split; assumption].
      intros x1 x2 Hx1 Hx2.
      apply list_elem_of_fmap in Hx1 as (a & -> & Ha).
      apply list_elem_of_fmap in Hx2 as (b & -> & Hb).
      rewrite Forall_forall in B1, B2.
      specialize (B1 _ Ha). specialize (B2 _ Hb). simpl in *. lia.
    - apply Forall_app. split; (eapply Forall_impl; [eassumption|]);
        intros ik Hik; simpl in *; lia. }
  split; [lia|].
  destruct (frameHolder s1) as [children|].
  - destruct Hf1 as [a Hf1]. rewrite Hf1 in Hf2. destruct Hf2 as [b Hf2].
    exists (a ++ b). rewrite Hf2, app_assoc. reflexivity.
  - rewrite Hf1 in Hf2. exact Hf2.
Qed.

(** Closes the clauses of [grows] that add nothing. *)
Ltac nothing_added :=
  repeat match goal with
  | |- _ /\ _ => split
  | |- exists more, ?l = ?l ++ more => exists []; rewrite app_nil_r; reflexivity
  | |- exists new, ?l = ?l ++ new /\ paired _ new =>
      exists []; rewrite app_nil_r; split; [reflexivity | constructor]
  | |- exists stamps, ?l = ?l ++ map _ stamps /\ _ =>
      exists []; simpl; rewrite app_nil_r; repeat split; constructor
  | |- (_ <= _)%nat => simpl; lia
  | |- match ?f with Some _ => _ | None => _ end =>
      destruct f; [exists []; rewrite app_nil_r|]; reflexivity
  end.

Lemma logLoadTime_grows h name s :
  name = IFRAME_LOAD_TIME_EVENT \/ name = EDITOR_LOAD_TIME_EVENT ->
  grows h s (snd (logLoadTime h name s)).
Proof.
  intros Hname. rewrite logLoadTime_run.
  destruct (performance (vars s)); [|apply grows_refl].
  destruct (logger (vars s)); cbv zeta.
  - destruct (number_ge (load_time (loadParams h s name)) 10000) eqn:Hg;
      unfold grows; simpl.
    + split; [eexists; reflexivity|].
      split; [|nothing_added].
      eexists. rewrite <- app_assoc. split; [reflexivity|].
      apply (paired_two h _ name (loadTimeOf h s)); [exact Hname | exact Hg | constructor].
    + split; [eexists; reflexivity|].
      split; [|nothing_added].
      eexists. split; [reflexivity|].
      apply (paired_one h _ name (loadTimeOf h s)); [exact Hname | exact Hg | constructor].
  - unfold grows; simpl. split; [eexists; reflexivity|]. nothing_added.
Qed.

Lemma publishReadyMessage_grows h s :
  grows h s (snd (publishReadyMessage h s)).
Proof.
  rewrite publishReadyMessage_run.
  assert (Hquiet : grows h s (set_DateReadings S s)).
  { unfold grows; simpl. nothing_added. }
  destruct (domService (vars s)); [|exact Hquiet].
  destruct (frameWindow h s) as [i|]; [|exact Hquiet].
  destruct (targetOriginAccepted h (getConfig h "origin")); [|exact Hquiet].
  unfold grows; simpl.
  split; [nothing_added|]. split; [nothing_added|].
  split; [|nothing_added].
  exists [(i, DateReadings s)]. simpl. split; [reflexivity|].
  split; repeat constructor; simpl; lia.
Qed.

Lemma receive_grows h event s :
  grows h s (snd (receiveEventFromOfficeOnline h event s)).
Proof.
  destruct event as [[[|c text]|]]; try apply grows_refl.
  rewrite receiveEventFromOfficeOnline_run.
  destruct (JSON_parse h (c :: text)) as [data|e]; [|apply grows_refl].
  destruct (hasMessageId data APP_LOADING_STATUS_MESSAGE_ID).
  - unfold bind.
    pose proof (logLoadTime_grows h EDITOR_LOAD_TIME_EVENT s (or_intror eq_refl)) as G.
    destruct (logLoadTime h EDITOR_LOAD_TIME_EVENT s) as [[[]|e] s1]; simpl in G;
      [|exact G].
    eapply grows_trans; [exact G | apply publishReadyMessage_grows].
  - destruct (hasMessageId data FILE_RENAME_MESSAGE_ID); [|apply grows_refl].
    destruct (renameTitle h data); [|apply grows_refl].
    apply grows_same; reflexivity.
Qed.

Lemma invokeAll_grows h event ls : forall s,
  grows h s (snd (invokeAll h ls event s)).
Proof.
  induction ls as [|l ls IH]; intros s; simpl; [apply grows_refl|].
  destruct (str_eqb (listener_type l) "message"); [|apply IH].
  assert (Hone : grows h s (snd (invoke h (listener_handler l) event s))).
  { destruct (listener_handler l); simpl; [apply receive_grows | apply grows_refl]. }
  destruct (invoke h (listener_handler l) event s) as [[[]|e] s1]; simpl in Hone.
  - eapply grows_trans; [exact Hone | apply IH].
  - specialize (IH s1). destruct (invokeAll h ls event s1).
    eapply grows_trans; [exact Hone | exact IH].
Qed.

Lemma init_tail_grows h s :
  grows h s (snd (bind postTokenToIframe
                    (fun _ => subscribeToEventsFromOfficeOnline) s)).
Proof.
  unfold bind. rewrite postTokenToIframe_run.
  destruct (domService (vars s)) eqn:Hd; [|apply grows_refl].
  destruct (officeForm s); [|apply grows_refl].
  rewrite subscribe_run. simpl. rewrite Hd. apply grows_same; reflexivity.
Qed.

Lemma init_grows h s : grows h s (snd (init h s)).
Proof.
  assert (H0 : grows h s (started h s)) by (apply grows_same; reflexivity).
  rewrite init_run. unfold bind at 1. rewrite drawIframe_run.
  change (domService (vars (started h s))) with true. cbv iota.
  destruct (getOfficeEditorFrameElement h) as [el|e]; [|exact H0].
  destruct (frameHolder (started h s)) as [children|] eqn:Hf; [|exact H0].
  set (s1 := set_frameHolder _ (started h s)).
  assert (H1 : grows h (started h s) s1).
  { subst s1. simpl in Hf. unfold grows; simpl. rewrite Hf. simpl.
    nothing_added. exists [el]. reflexivity. }
  pose proof (logLoadTime_grows h IFRAME_LOAD_TIME_EVENT s1 (or_introl eq_refl)) as H2.
  destruct (logLoadTime h IFRAME_LOAD_TIME_EVENT s1) as [[[]|e] s2]; simpl in H2.
  - eapply grows_trans; [exact H0|]. eapply grows_trans; [exact H1|].
    eapply grows_trans; [exact H2 | apply init_tail_grows].
  - eapply grows_trans; [exact H0|]. eapply grows_trans; [exact H1 | exact H2].
Qed.

Lemma step_grows h a s : grows h s (snd (step h a s)).
Proof.
  destruct a as [| |event]; simpl.
  - pose proof (init_grows h s) as H. destruct (init h s) as [[[]|e] s1]; exact H.
  - rewrite destroy_run. destruct (domService (vars s)); simpl;
      [apply grows_same; reflexivity | apply grows_refl].
  - apply invokeAll_grows.
Qed.

Lemma run_grows h acts : forall s, grows h s (snd (run h acts s)).
Proof.
  induction acts as [|a acts IH]; intros s; [apply grows_refl|].
  rewrite run_cons. eapply grows_trans; [apply step_grows | apply IH].
Qed.

Lemma logLoadTime_first h name s :
  performance (vars s) = true -> logger (vars s) = true ->
  exists s' rest,
    logLoadTime h name s = (Ok tt, s') /\
    telemetry s' = telemetry s ++ logCall (length (heap s)) (loadParams h s name) :: rest.
Proof.
  intros Hp Hl. rewrite logLoadTime_run, Hp, Hl. cbv zeta.
  destruct (number_ge _ 10000); eexists _, _; (split; [reflexivity|]); simpl;
    rewrite <- ?app_assoc; reflexivity.
Qed.

(** A successful [init] has reported the frame load time, computed from
    the second clock reading and the first. *)
Lemma init_ok_telemetry h page :
  fst (init h page) = Ok tt ->
  exists rest,
    telemetry (snd (init h page)) =
    telemetry page ++
    logCall (length (heap page))
      {| event_name := IFRAME_LOAD_TIME_EVENT;
         load_time :=
           Num (roundDouble
                  (reading h (S (performanceReadings page)) -
                   reading h (performanceReadings page)));
         service_id := getConfig h "serviceId";
         office_online_app_type := getConfig h "officeOnlineAppType" |} :: rest.
Proof.
  rewrite init_run. unfold bind at 1 3. rewrite drawIframe_run.
  change (domService (vars (started h page))) with true. cbv iota.
  destruct (getOfficeEditorFrameElement h) as [el|e]; [|discriminate].
  destruct (frameHolder (started h page)) as [children|]; [|discriminate].
  set (s1 := set_frameHolder _ (started h page)).
  destruct (logLoadTime_first h IFRAME_LOAD_TIME_EVENT s1 eq_refl eq_refl)
    as (s2 & rest & E & T).
  rewrite E. intros _. destruct (init_tail_frame s2) as (_ & _ & G & _).
  rewrite G, T. exists rest. reflexivity.
Qed.

(** C8. In a session, that is one [init] followed by deliveries and
    teardowns, with a clock that never goes back: the start timestamp is
    the first clock reading of the session and stays so; every load time
    reported is a later reading minus that timestamp, a subtraction of
    doubles; and the time reported under [EDITOR_LOAD_TIME] is at least the
    time reported under [IFRAME_LOAD_TIME]. These times are reported: the
    frame load time when [init] returns normally, with the second reading
    of the session, and the editor load time each time the handler gets a
    loaded message, with the reading taken then. *)
Theorem load_times_ordered (h : Host) (page : State) (acts : list action) :
  (forall i j, (i <= j)%nat -> (performance_clock h i <= performance_clock h j)%Q) ->
  telemetry page = [] ->
  Forall (fun a => a <> Init) acts ->
  let final := snd (run h (Init :: acts) page) in
  let r := performanceReadings page in
  let t0 := reading h r in
  let elapsed := fun k => Num (roundDouble (reading h k - t0)) in
  startTs (vars final) = Some (Num t0) /\
  (forall c p,
     c ∈ telemetry final -> log_seen c = Some p ->
     exists k, (r < k)%nat /\ load_time p = elapsed k) /\
  (forall c1 c2 p1 p2,
     c1 ∈ telemetry final -> c2 ∈ telemetry final ->
     log_seen c1 = Some p1 -> log_seen c2 = Some p2 ->
     event_name p1 = "IFRAME_LOAD_TIME" ->
     event_name p2 = "EDITOR_LOAD_TIME" ->
     exists e1 e2,
       load_time p1 = Num e1 /\ load_time p2 = Num e2 /\ (e1 <= e2)%Q) /\
  (fst (init h page) = Ok tt ->
   exists c p,
     c ∈ telemetry final /\ log_seen c = Some p /\
     event_name p = "IFRAME_LOAD_TIME" /\ load_time p = elapsed (S r)) /\
  (forall c text props,
     JSON_parse h (c :: text) = Ok (VObject props) ->
     props !! "MessageId" = Some (VString "App_LoadingStatus") ->
     let after :=
       snd (receiveEventFromOfficeOnline h
              {| originalEvent_data := Some (c :: text) |} final) in
     exists rest,
       telemetry after =
       telemetry final ++
       logCall (length (heap final))
         {| event_name := "EDITOR_LOAD_TIME";
            load_time := elapsed (performanceReadings final);
            service_id := getConfig h "serviceId";
            office_online_app_type := getConfig h "officeOnlineAppType" |} :: rest).
Proof.
  intros Hmono Hpage Hacts final r t0 elapsed.
  assert (Hinv : sessionInv h (S r) t0 final).
  { subst final. rewrite run_cons. apply run_sessionInv; [exact Hacts|].
    pose proof (init_sessionInv h page Hpage) as H.
    simpl. destruct (init h page) as [[[]|e] s1]; exact H. }
  destruct Hinv as (Hs & _ & Ht). rewrite Forall_forall in Ht.
  split; [exact Hs|]. split; [|split; [|split]].
  - intros c p Hc Hp.
    destruct (Ht c Hc) as [(p' & Hp' & _ & Hl) | (k & Hk & p' & Hp' & _ & Hl)];
      rewrite Hp in Hp'; injection Hp' as <-; eexists; (split; [|exact Hl]); lia.
  - intros c1 c2 p1 p2 Hc1 Hc2 Hp1 Hp2 Hn1 Hn2.
    destruct (Ht c1 Hc1) as [(q1 & Hq1 & _ & Hl1) | (k1 & _ & q1 & Hq1 & Hm1 & _)];
      rewrite Hp1 in Hq1; injection Hq1 as <-.
    2:{ rewrite Hn1 in Hm1. destruct Hm1 as [Hm1|Hm1]; discriminate Hm1. }
    destruct (Ht c2 Hc2) as [(q2 & Hq2 & Hm2 & _) | (k2 & Hk2 & q2 & Hq2 & _ & Hl2)];
      rewrite Hp2 in Hq2; injection Hq2 as <-.
    { rewrite Hn2 in Hm2. destruct Hm2 as [Hm2|Hm2]; discriminate Hm2. }
    eexists _, _. split; [exact Hl1|]. split; [exact Hl2|].
    apply roundDouble_mono.
    pose proof (roundDouble_mono _ _ (Hmono _ _ Hk2)). unfold reading, t0. lra.
  - intros Hinit. destruct (init_ok_telemetry h page Hinit) as [rest T].
    rewrite Hpage in T. simpl in T.
    destruct (run_grows h acts (snd (init h page))) as (_ & (new & G & _) & _).
    assert (telemetry final = telemetry (snd (run h acts (snd (init h page))))) as Hfinal.
    { subst final. rewrite run_cons. simpl.
      destruct (init h page) as [[[]|e] s1]; reflexivity. }
    rewrite <- Hfinal, T in G.
    eexists _, _. split; [rewrite G; apply elem_of_app; left; left|].
    split; [reflexivity|]. split; reflexivity.
  - intros c text props Hparse Hid after. subst after.
    destruct (session_initialised h acts page) as (_ & Hl & Hp & _).
    fold final in Hl, Hp.
    rewrite receiveEventFromOfficeOnline_run, Hparse, hasMessageId_object, Hid.
    change (str_eqb "App_LoadingStatus" APP_LOADING_STATUS_MESSAGE_ID) with true.
    cbv iota. unfold bind.
    destruct (logLoadTime_first h EDITOR_LOAD_TIME_EVENT final Hp Hl)
      as (s1 & rest & E & T).
    rewrite E. destruct (publishReadyMessage_frame h s1) as (_ & _ & _ & _ & G & _).
    rewrite G, T. exists rest. unfold loadParams, loadTimeOf. rewrite Hs. reflexivity.
Qed.

Lemma sample_clock_monotone href i j :
  (i <= j)%nat ->
  (performance_clock (sampleHost href) i <= performance_clock (sampleHost href) j)%Q.
Proof. intros H. simpl. rewrite <- Zle_Qle. lia. Qed.

Lemma load_times_ordered_witness :
  let h := sampleHost "https://app.box.com/office" in
  let iframe := loadParams h (started h samplePage) "IFRAME_LOAD_TIME" in
  let editor := loadParams h (snd (run h [Init] samplePage)) "EDITOR_LOAD_TIME" in
  exists e1 e2,
    load_time iframe = Num e1 /\ load_time editor = Num e2 /\ (e1 <= e2)%Q.
Proof.
  intros h iframe editor.
  refine (proj1 (proj2 (proj2 (load_times_ordered h samplePage
            [Deliver {| originalEvent_data := Some appLoadedText |}]
            (sample_clock_monotone _) eq_refl _)))
          (logCall 0 iframe) (logCall 1 editor) iframe editor _ _
          eq_refl eq_refl eq_refl eq_refl).
  - repeat constructor. discriminate.
  - apply list_elem_of_In. vm_compute. left. reflexivity.
  - apply list_elem_of_In. vm_compute. right. left. reflexivity.
Defined.

(** C9. In an initialised module [destroy] returns normally, and
    afterwards the registration of the message handler is gone while the
    other registrations are kept; delivering any sequence of message events
    then raises no error and leaves the whole state as it was: no timing,
    no message posted, no title written. *)
Theorem teardown_unsubscribes (h : Host) (s : State) :
  domService (vars s) = true ->
  exists s',
    destroy s = (Ok tt, s') /\
    (subscription ∉ listeners s') /\
    (forall l, l ∈ listeners s' <-> l ∈ listeners s /\ l <> subscription) /\
    forall events, run h (map Deliver events) s' = ([], s').
Proof.
  intros Hd. rewrite destroy_run, Hd. eexists. split; [reflexivity|].
  assert (Hin : forall l,
            l ∈ listeners (set_listeners (filter (fun l => l <> subscription)) s) <->
            l ∈ listeners s /\ l <> subscription).
  { intros l. simpl. rewrite list_elem_of_filter. tauto. }
  split; [|split].
  - intros H. apply Hin in H as [_ H]. congruence.
  - exact Hin.
  - intros events. apply deliveries_unsubscribed.
    unfold unsubscribed. rewrite Forall_forall. intros l Hl.
    apply Hin in Hl as [_ Hl]. exact Hl.
Qed.

Lemma teardown_unsubscribes_witness :
  let h := sampleHost "https://app.box.com/office" in
  let s := snd (run h [Init] samplePage) in
  (subscription ∈ listeners s) /\
  exists s',
    destroy s = (Ok tt, s') /\
    run h [Deliver {| originalEvent_data := Some appLoadedText |}] s' = ([], s').
Proof.
  intros h s. split; [apply list_elem_of_In; vm_compute; left; reflexivity|].
  destruct (teardown_unsubscribes h s eq_refl) as [s' [E [_ [_ H]]]].
  exists s'. split; [exact E|].
  exact (H [{| originalEvent_data := Some appLoadedText |}]).
Defined.

(** * Further properties of the module *)

(** ** Reading a parameter from an address *)

Lemma DecodeLoop_error fuel : forall s e,
  DecodeLoop fuel s = Throw e -> e = URIError.
Proof.
  induction fuel as [|fuel IH]; intros [|c rest] e; simpl; try discriminate.
  - intros [= <-]. reflexivity.
  - destruct (decodeStep c rest) as [[out rest']|]; [|intros [= <-]; reflexivity].
    destruct (DecodeLoop fuel rest') eqn:E; simpl; [discriminate|].
    intros [= <-]. eapply IH. exact E.
Qed.

Lemma replacePlus_no_percent v :
  Forall (fun c => c <> 37) v -> Forall (fun c => c <> 37) (replacePlus v).
Proof.
  unfold replacePlus. induction 1 as [|c v Hc _ IH]; simpl; constructor; [|exact IH].
  destruct (c =? 43); [discriminate | exact Hc].
Qed.

Lemma replacePlus_id v : Forall (fun c => c <> 43) v -> replacePlus v = v.
Proof.
  unfold replacePlus. induction 1 as [|c v Hc _ IH]; simpl; [reflexivity|].
  apply N.eqb_neq in Hc. rewrite Hc, IH. reflexivity.
Qed.

(** X1. For a name that the pattern matches literally (no character
    special in a regular expression other than brackets),
    [getParameterByName] returns [null] exactly when the name occurs
    nowhere in the address as a parameter, that is after [?] or [&] and
    before [=], [&], [#] or the end. *)
Theorem getParameterByName_null_iff_absent (name url : jsstring) :
  plainName name = true ->
  getParameterByName name url = Ok None <-> absent name url.
Proof.
  intros _. split; [|apply getParameterByName_absent].
  unfold getParameterByName. intros H.
  destruct (regexExec name url) as [[[|c v]|]|] eqn:E; try discriminate.
  - destruct (decodeURIComponent (replacePlus (c :: v))); discriminate.
  - apply regexExec_None. exact E.
Qed.

Lemma getParameterByName_null_iff_absent_witness :
  absent "q" "https://app.box.com/find?query=1&aq=2#q=3".
Proof.
  exact (proj1 (getParameterByName_null_iff_absent "q"
                  "https://app.box.com/find?query=1&aq=2#q=3" eq_refl) eq_refl).
Defined.

Lemma getParameterByName_no_percent name url pre v :
  firstOccurrence name url pre (Some v) ->
  Forall (fun c => c <> 37) v ->
  getParameterByName name url = Ok (Some (replacePlus v)).
Proof.
  intros Hocc Hv. destruct v as [|c v].
  - exact (getParameterByName_empty _ _ _ Hocc).
  - rewrite (getParameterByName_valued _ _ _ _ Hocc) by discriminate.
    rewrite decodeURIComponent_plain by (apply replacePlus_no_percent; exact Hv).
    reflexivity.
Qed.

(** X2. For a name that the pattern matches literally: when the value of
    the leftmost occurrence has no percent sign, [getParameterByName] does
    not throw and returns that value with every plus sign turned into a
    space. *)
Theorem getParameterByName_plain_value (name url pre v : jsstring) :
  plainName name = true ->
  firstOccurrence name url pre (Some v) ->
  Forall (fun c => c <> 37) v ->
  getParameterByName name url = Ok (Some (replacePlus v)).
Proof. intros _. apply getParameterByName_no_percent. Qed.

Lemma getParameterByName_plain_value_witness :
  getParameterByName "q" "https://app.box.com/find?a=1&q=annual+report#top"
  = Ok (Some "annual report").
Proof.
  destruct (proj1 (regexExec_Some "q" "https://app.box.com/find?a=1&q=annual+report#top"
                     (Some "annual+report")) eq_refl) as [pre H].
  refine (getParameterByName_plain_value "q" _ pre "annual+report" eq_refl H _).
  repeat constructor; discriminate.
Defined.

(** X3. Reading back the first parameter, for a name that the pattern
    matches literally: in an address made of a part without [?] and [&],
    then [?name=value], then nothing or something that starts with [&] or
    [#], a value without [&], [#], [%] and [+] is returned as it stands. *)
Theorem getParameterByName_first_parameter (base name v rest : jsstring) :
  plainName name = true ->
  Forall (fun c => isSeparator c = false) base ->
  Forall (fun c => isDelimiter c = false /\ c <> 37 /\ c <> 43) v ->
  atBoundary rest ->
  getParameterByName name (base ++ 63 :: name ++ 61 :: v ++ rest) = Ok (Some v).
Proof.
  intros _ Hbase Hv Hrest.
  assert (Hocc : firstOccurrence name (base ++ 63 :: name ++ 61 :: v ++ rest)
                   base (Some v)).
  { split.
    - apply occurs_valued with (sep := 63) (rest := rest);
        [reflexivity | reflexivity | | exact Hrest].
      eapply Forall_impl; [exact Hv|]. intros c Hc. apply Hc.
    - intros pre' g' H'.
      destruct (le_lt_dec (length base) (length pre')) as [|Hlt]; [assumption|].
      exfalso.
      assert (exists sep, isSeparator sep = true /\
                (base ++ 63 :: name ++ 61 :: v ++ rest) !! length pre' = Some sep)
        as (sep & Hsep & Hat).
      { destruct H' as [sep v' rest' Hsep E _ _ | sep rest' Hsep E _];
          exists sep; (split; [exact Hsep|]); rewrite E;
          apply list_lookup_middle; reflexivity. }
      rewrite lookup_app_l in Hat by exact Hlt.
      rewrite Forall_lookup in Hbase. rewrite (Hbase _ _ Hat) in Hsep. discriminate. }
  rewrite (getParameterByName_no_percent name _ base v Hocc).
  - rewrite replacePlus_id; [reflexivity|].
    eapply Forall_impl; [exact Hv|]. intros c Hc. apply Hc.
  - eapply Forall_impl; [exact Hv|]. intros c Hc. apply Hc.
Qed.

Lemma getParameterByName_first_parameter_witness :
  getParameterByName "disableAllowSameOrigin"
    ("https://app.box.com/office" ++ 63 :: "disableAllowSameOrigin" ++ 61 :: "1" ++ "#doc")
  = Ok (Some "1").
Proof.
  apply (getParameterByName_first_parameter "https://app.box.com/office"
           "disableAllowSameOrigin" "1" "#doc").
  - reflexivity.
  - repeat constructor.
  - repeat constructor; discriminate.
  - reflexivity.
Defined.

(** X4. For a name that the pattern matches literally,
    [getParameterByName] throws nothing but a [URIError], and only when the
    value of the leftmost occurrence has a percent sign in it. *)
Theorem getParameterByName_throws (name url : jsstring) (e : error) :
  plainName name = true ->
  getParameterByName name url = Throw e ->
  e = URIError /\
  exists pre v, firstOccurrence name url pre (Some v) /\ 37 ∈ v.
Proof.
  unfold getParameterByName. intros _ H.
  destruct (regexExec name url) as [[[|c v]|]|] eqn:E; try discriminate.
  destruct (decodeURIComponent (replacePlus (c :: v))) as [d|e'] eqn:D;
    simpl in H; [discriminate|]. injection H as ->.
  split; [exact (DecodeLoop_error _ _ _ D)|].
  apply regexExec_Some in E as [pre Hocc]. exists pre, (c :: v).
  split; [exact Hocc|].
  destruct (decide (37 ∈ c :: v)) as [Hin|Hnot]; [exact Hin|]. exfalso.
  assert (Forall (fun x => x <> 37) (c :: v)) as Hall.
  { apply Forall_forall. intros x Hx ->. exact (Hnot Hx). }
  rewrite decodeURIComponent_plain in D by (apply replacePlus_no_percent; exact Hall).
  discriminate.
Qed.

Lemma getParameterByName_throws_witness :
  exists pre v,
    firstOccurrence "q" "https://app.box.com/find?q=100%" pre (Some v) /\ 37 ∈ v.
Proof.
  exact (proj2 (getParameterByName_throws "q" "https://app.box.com/find?q=100%"
                  URIError eq_refl eq_refl)).
Defined.

(** X5. For a name that the pattern matches literally,
    [getParameterByName] returns the empty string exactly when the
    leftmost occurrence of the name has no value or an empty one: no
    non-empty value decodes to the empty string. *)
Theorem getParameterByName_empty_iff (name url : jsstring) :
  plainName name = true ->
  getParameterByName name url = Ok (Some []) <->
  exists pre,
    firstOccurrence name url pre None \/ firstOccurrence name url pre (Some []).
Proof.
  intros _. split.
  - unfold getParameterByName. intros H.
    destruct (regexExec name url) as [[[|c v]|]|] eqn:E; try discriminate.
    + apply regexExec_Some in E as [pre Hocc]. eauto.
    + destruct (decodeURIComponent (replacePlus (c :: v))) as [d|e] eqn:D;
        simpl in H; [|discriminate]. injection H as ->.
      apply decodeURIComponent_nonempty in D; [congruence | discriminate].
    + apply regexExec_Some in E as [pre Hocc]. eauto.
  - intros [pre [H|H]];
      [exact (getParameterByName_bare _ _ _ H) | exact (getParameterByName_empty _ _ _ H)].
Qed.

Lemma getParameterByName_empty_iff_witness :
  exists pre,
    firstOccurrence "q" "https://app.box.com/find?a=1&q&q=2" pre None \/
    firstOccurrence "q" "https://app.box.com/find?a=1&q&q=2" pre (Some []).
Proof.
  exact (proj1 (getParameterByName_empty_iff "q" "https://app.box.com/find?a=1&q&q=2"
                  eq_refl) eq_refl).
Defined.

Lemma escapedOctet_exact s b r :
  escapedOctet s = Some (b, r) -> exists h l, s = 37 :: h :: l :: r.
Proof.
  destruct s as [|c [|h [|l rest]]]; simpl; try discriminate;
    try (destruct c as [|p]; [discriminate|]; repeat (destruct p; try discriminate)).
  destruct (hexDigit h), (hexDigit l); try discriminate.
  intros [= _ <-]. eauto.
Qed.

Lemma continuation_consumes k : forall acc s v r,
  continuation k acc s = Some (v, r) -> length s = (3 * k + length r)%nat.
Proof.
  induction k as [|k IH]; simpl; intros acc s v r H.
  - injection H as _ <-. lia.
  - destruct (escapedOctet s) as [[b rest]|] eqn:E; [|discriminate].
    destruct (N.land b 192 =? 128); [|discriminate].
    apply IH in H. apply escapedOctet_length in E. lia.
Qed.

Lemma utf16_length v : (length (utf16 v) <= 2)%nat.
Proof. unfold utf16. destruct (v <? 65536); simpl; lia. Qed.

Lemma decodeStep_shrinks c rest out rest' :
  decodeStep c rest = Some (out, rest') ->
  (length out + length rest' <= S (length rest))%nat.
Proof.
  unfold decodeStep. destruct (negb (c =? 37)).
  - intros [= <- <-]. simpl. lia.
  - destruct (escapedOctet (c :: rest)) as [[b rest1]|] eqn:E; [|discriminate].
    apply escapedOctet_length in E. simpl in E.
    destruct (b <? 128).
    + intros [= <- <-]. simpl. lia.
    + destruct (leadingOctet b) as [[n payload]|]; [|discriminate].
      destruct (continuation (pred n) payload rest1) as [[v rest2]|] eqn:C;
        [|discriminate].
      apply continuation_consumes in C.
      destruct (validCodePoint n v); [|discriminate].
      intros [= <- <-]. pose proof (utf16_length v). lia.
Qed.

Lemma DecodeLoop_length fuel : forall s d,
  DecodeLoop fuel s = Ok d -> (length d <= length s)%nat.
Proof.
  induction fuel as [|fuel IH]; intros [|c rest] d; simpl; try discriminate.
  - intros [= <-]. simpl. lia.
  - intros [= <-]. simpl. lia.
  - destruct (decodeStep c rest) as [[out rest']|] eqn:E; [|discriminate].
    destruct (DecodeLoop fuel rest') as [r|] eqn:D; simpl; [|discriminate].
    intros [= <-]. apply IH in D. apply decodeStep_shrinks in E.
    rewrite length_app. lia.
Qed.

(** X6. For a name that the pattern matches literally, the string
    [getParameterByName] returns is never longer than the raw value it was
    decoded from, hence never longer than the address. *)
Theorem getParameterByName_length (name url d : jsstring) :
  plainName name = true ->
  getParameterByName name url = Ok (Some d) ->
  (length d <= length url)%nat.
Proof.
  unfold getParameterByName. intros _ H.
  destruct (regexExec name url) as [[[|c v]|]|] eqn:E; try discriminate;
    try (injection H as <-; simpl; lia).
  destruct (decodeURIComponent (replacePlus (c :: v))) as [r|] eqn:D;
    simpl in H; [|discriminate]. injection H as ->.
  apply DecodeLoop_length in D. unfold replacePlus in D. rewrite length_map in D.
  apply regexExec_Some in E as [pre [Hocc _]].
  inversion Hocc as [sep v' rest Hsep Eurl _ _ | ]; subst.
  rewrite length_app. simpl. rewrite !length_app. simpl in *. rewrite length_app. lia.
Qed.

Lemma getParameterByName_length_witness :
  (length ("caf" ++ [233%N]) <= length "https://app.box.com/find?q=caf%C3%A9")%nat.
Proof.
  exact (getParameterByName_length "q" "https://app.box.com/find?q=caf%C3%A9"
           ("caf" ++ [233%N]) eq_refl eq_refl).
Defined.

(** ** Start-up *)

(** X7. On a page that has the container and the form, and whose address
    lets the flag be read, [init] returns normally: the built frame is the
    new last child of the container, the form has been submitted once more,
    the message handler is registered after the listeners that were there,
    the frame load time (second clock reading minus the first, a
    subtraction of doubles) has been reported, and nothing has been posted
    nor the title touched. *)
Theorem init_succeeds (h : Host) (page : State) (children : list Element)
    (n : nat) (el : Element) :
  frameHolder page = Some children ->
  officeForm page = Some n ->
  getOfficeEditorFrameElement h = Ok el ->
  let r := performanceReadings page in
  let elapsed :=
    Num (roundDouble (reading h (S r) - reading h r)) in
  let record := telemetryRecord h "IFRAME_LOAD_TIME" elapsed in
  let ref := length (heap page) in
  exists s',
    init h page = (Ok tt, s') /\
    frameHolder s' = Some (children ++ [el]) /\
    officeForm s' = Some (S n) /\
    listeners s' = listeners page ++ [subscription] /\
    telemetry s' =
      telemetry page ++
      (if number_ge elapsed 10000
       then [logCall ref record; logCall ref (slowParams record)]
       else [logCall ref record]) /\
    startTs (vars s') = Some (Num (reading h r)) /\
    posted s' = posted page /\
    parentTitle s' = parentTitle page.
Proof.
  destruct page as [[d l p st w] hp fh frm ls pt pr dr tel po]. simpl.
  intros -> -> Hel. rewrite init_run. unfold bind at 1.
  rewrite drawIframe_run, Hel. unfold started. simpl.
  rewrite logLoadTime_run. simpl. unfold loadParams, loadTimeOf. simpl.
  destruct (Qle_bool 10000
              (roundDouble (reading h (S pr) - reading h pr)));
    unfold bind; rewrite postTokenToIframe_run; simpl; rewrite subscribe_run; simpl;
    eexists; (split; [reflexivity|]); simpl; rewrite <- ?app_assoc;
    repeat split; reflexivity.
Qed.

Lemma init_succeeds_witness :
  let h := sampleHost "https://app.box.com/office" in
  exists s' el,
    init h samplePage = (Ok tt, s') /\
    frameHolder s' = Some [el] /\
    officeForm s' = Some 1%nat /\
    listeners s' = [subscription].
Proof.
  intros h.
  destruct (getOfficeEditorFrameElement h) as [el|e] eqn:E; [|discriminate E].
  destruct (init_succeeds h samplePage [] 0%nat el eq_refl eq_refl E)
    as (s' & Hinit & Hf & Hform & Hl & _).
  exists s', el. repeat split; assumption.
Defined.

(** X8. On a page without the container, [init] throws a [TypeError]
    (the address letting the flag be read): no frame exists, the form is
    not submitted, the message handler is not registered and no load time
    is reported; the module variables are bound all the same. *)
Theorem init_without_container (h : Host) (page : State) (el : Element) :
  frameHolder page = None ->
  getOfficeEditorFrameElement h = Ok el ->
  exists s',
    init h page = (Throw TypeError, s') /\
    frameHolder s' = None /\
    officeForm s' = officeForm page /\
    listeners s' = listeners page /\
    telemetry s' = telemetry page /\
    initialised s'.
Proof.
  destruct page as [[d l p st w] hp fh frm ls pt pr dr tel po]. simpl.
  intros -> Hel. rewrite init_run. unfold bind at 1.
  rewrite drawIframe_run, Hel. unfold started. simpl.
  eexists. split; [reflexivity|]. simpl. repeat split. eexists. reflexivity.
Qed.

Lemma init_without_container_witness :
  exists s',
    init (sampleHost "https://app.box.com/office") bareHolderlessPage
    = (Throw TypeError, s') /\
    officeForm s' = Some 0%nat /\ listeners s' = [] /\ telemetry s' = [].
Proof.
  destruct (getOfficeEditorFrameElement (sampleHost "https://app.box.com/office"))
    as [el|e] eqn:E; [|discriminate E].
  destruct (init_without_container (sampleHost "https://app.box.com/office")
              bareHolderlessPage el eq_refl E)
    as (s' & Hinit & _ & Hform & Hl & Ht & _).
  exists s'. repeat split; assumption.
Defined.

(** X9. On a page that has the container but not the form, [init] throws
    a [TypeError] after the frame has been put into the container and its
    load time reported; the message handler is not registered, so that, if
    it was not registered before, message events delivered afterwards
    raise nothing and change nothing. *)
Theorem init_without_form (h : Host) (page : State) (children : list Element)
    (el : Element) :
  frameHolder page = Some children ->
  officeForm page = None ->
  getOfficeEditorFrameElement h = Ok el ->
  exists s',
    init h page = (Throw TypeError, s') /\
    frameHolder s' = Some (children ++ [el]) /\
    (length (telemetry page) < length (telemetry s'))%nat /\
    listeners s' = listeners page /\
    (unsubscribed (listeners page) ->
     forall events, run h (map Deliver events) s' = ([], s')).
Proof.
  destruct page as [[d l p st w] hp fh frm ls pt pr dr tel po]. simpl.
  intros -> -> Hel. rewrite init_run. unfold bind at 1.
  rewrite drawIframe_run, Hel. unfold started. simpl.
  rewrite logLoadTime_run. simpl.
  destruct (Qle_bool 10000 _);
    unfold bind; rewrite postTokenToIframe_run; simpl;
    eexists; (split; [reflexivity|]); simpl;
    (split; [reflexivity|]); (split; [rewrite !length_app; simpl; lia|]);
    (split; [reflexivity|]); intros Hu events;
    apply deliveries_unsubscribed; exact Hu.
Qed.

Lemma init_without_form_witness :
  let h := sampleHost "https://app.box.com/office" in
  exists s',
    init h formlessPage = (Throw TypeError, s') /\
    run h [Deliver {| originalEvent_data := Some appLoadedText |}] s' = ([], s').
Proof.
  intros h.
  destruct (getOfficeEditorFrameElement h) as [el|e] eqn:E; [|discriminate E].
  destruct (init_without_form h formlessPage [] el eq_refl eq_refl E)
    as (s' & Hinit & _ & _ & _ & Hrun).
  exists s'. split; [exact Hinit|].
  refine (Hrun _ [{| originalEvent_data := Some appLoadedText |}]). constructor.
Defined.

(** X10. When reading the flag from the address throws, [init] throws the
    same exception, with or without the container in the page: no frame
    is inserted, the form is not submitted, the message handler is not
    registered and no load time is reported. *)
Theorem init_with_malformed_flag (h : Host) (page : State) (e : error) :
  getParameterByName DISABLE_SAME_ORIGIN_KEY (location_href h) = Throw e ->
  exists s',
    init h page = (Throw e, s') /\
    frameHolder s' = frameHolder page /\
    officeForm s' = officeForm page /\
    listeners s' = listeners page /\
    telemetry s' = telemetry page.
Proof.
  intros Hflag. pose proof (frameSandbox_throws h e Hflag) as Hel.
  destruct page as [[d l p st w] hp fh frm ls pt pr dr tel po].
  rewrite init_run. unfold bind at 1.
  rewrite drawIframe_run, Hel. unfold started. simpl.
  eexists. split; [reflexivity|]. repeat split.
Qed.

Lemma init_with_malformed_flag_witness :
  exists s',
    init (sampleHost "https://app.box.com/office?disableAllowSameOrigin=%E0%A4")
      bareHolderlessPage = (Throw URIError, s') /\
    frameHolder s' = None /\ telemetry s' = [].
Proof.
  destruct (init_with_malformed_flag
              (sampleHost "https://app.box.com/office?disableAllowSameOrigin=%E0%A4")
              bareHolderlessPage URIError eq_refl)
    as (s' & Hinit & Hf & _ & _ & Ht).
  exists s'. repeat split; assumption.
Defined.

(** ** The shape of the telemetry *)

Lemma paired_calls h l :
  paired h l ->
  Forall (fun c =>
            log_category c = "office_online" /\ log_type c = "perf" /\
            exists p,
              log_seen c = Some p /\
              service_id p = getConfig h "serviceId" /\
              office_online_app_type p = getConfig h "officeOnlineAppType" /\
              (event_name p = "IFRAME_LOAD_TIME" \/
               event_name p = "EDITOR_LOAD_TIME" \/
               (number_ge (load_time p) 10000 = true /\
                (event_name p = "IFRAME_LOAD_TIME_slow" \/
                 event_name p = "EDITOR_LOAD_TIME_slow")))) l.
Proof.
  induction 1 as [|ref name elapsed l Hn Hg _ IH|ref name elapsed l Hn Hg _ IH].
  - constructor.
  - constructor; [|exact IH]. repeat split. eexists. repeat split.
    destruct Hn as [-> | ->]; auto.
  - constructor; [|constructor; [|exact IH]]; repeat split; eexists; repeat split.
    + destruct Hn as [-> | ->]; auto.
    + right. right. split; [exact Hg|]. destruct Hn as [-> | ->]; auto.
Qed.

(** X11. Whatever the module is made to do (start-ups, teardowns,
    deliveries of any events), a telemetry log that had the shape
    [paired] keeps it: calls come one per milestone, or two in a row for
    the same object when the time is 10000 or more, the second under the
    slow name. In particular every call is of category [office_online] and
    type [perf], carries the configured service id and application type,
    and bears a slow name only with a time of 10000 or more. *)
Theorem telemetry_shape (h : Host) (acts : list action) (s : State) :
  paired h (telemetry s) ->
  paired h (telemetry (snd (run h acts s))) /\
  Forall (fun c =>
            log_category c = "office_online" /\ log_type c = "perf" /\
            exists p,
              log_seen c = Some p /\
              service_id p = getConfig h "serviceId" /\
              office_online_app_type p = getConfig h "officeOnlineAppType" /\
              (event_name p = "IFRAME_LOAD_TIME" \/
               event_name p = "EDITOR_LOAD_TIME" \/
               (number_ge (load_time p) 10000 = true /\
                (event_name p = "IFRAME_LOAD_TIME_slow" \/
                 event_name p = "EDITOR_LOAD_TIME_slow"))))
         (telemetry (snd (run h acts s))).
Proof.
  intros Hs.
  assert (paired h (telemetry (snd (run h acts s)))) as H.
  { destruct (run_grows h acts s) as (_ & (new & E & Hnew) & _).
    rewrite E. apply paired_app; assumption. }
  split; [exact H | apply paired_calls; exact H].
Qed.

Lemma telemetry_shape_witness :
  let h := sampleHost "https://app.box.com/office" in
  let ev := Deliver {| originalEvent_data := Some appLoadedText |} in
  paired h (telemetry (snd (run h [Init; ev; ev] samplePage))).
Proof.
  intros h ev.
  exact (proj1 (telemetry_shape h [Init; ev; ev] samplePage (paired_nil h))).
Defined.

(** X12. The module only ever adds at the end: after any sequence of
    start-ups, teardowns and deliveries, the objects handed to the sink,
    the telemetry calls and the posted messages that were there are still
    there, unchanged and in place. In particular an object shown to the
    sink is never modified after the call of [logLoadTime] that made it. *)
Theorem append_only (h : Host) (acts : list action) (s : State) :
  heap s `prefix_of` heap (snd (run h acts s)) /\
  telemetry s `prefix_of` telemetry (snd (run h acts s)) /\
  posted s `prefix_of` posted (snd (run h acts s)).
Proof.
  destruct (run_grows h acts s)
    as ((more & Hh) & (new & Ht & _) & (stamps & Hp & _) & _).
  split; [exists more; exact Hh|]. split; [exists new; exact Ht|].
  eexists; exact Hp.
Qed.

(** X13. The ready messages posted during any sequence of start-ups,
    teardowns and deliveries carry, in the order they were posted,
    readings of the wall clock taken during that sequence, each later than
    the one before: no two share a reading and none is posted out of
    order. *)
Theorem send_times_in_order (h : Host) (acts : list action) (s : State) :
  exists stamps : list (nat * nat),
    posted (snd (run h acts s)) =
      posted s ++ map (fun ik => readyPosted h (fst ik) (snd ik)) stamps /\
    StronglySorted lt (map snd stamps) /\
    Forall (fun ik =>
              (DateReadings s <= snd ik < DateReadings (snd (run h acts s)))%nat)
           stamps.
Proof.
  destruct (run_grows h acts s) as (_ & _ & H & _). exact H.
Qed.

Lemma publishReadyMessage_dom h s :
  frameHolder (snd (publishReadyMessage h s)) = frameHolder s /\
  officeForm (snd (publishReadyMessage h s)) = officeForm s.
Proof.
  rewrite publishReadyMessage_run.
  destruct (domService (vars s));
    [destruct (frameWindow h s);
       [destruct (targetOriginAccepted h (getConfig h "origin"))|]|];
    split; reflexivity.
Qed.

Lemma receive_dom h event s :
  frameHolder (snd (receiveEventFromOfficeOnline h event s)) = frameHolder s /\
  officeForm (snd (receiveEventFromOfficeOnline h event s)) = officeForm s.
Proof.
  destruct event as [[[|c text]|]]; try (split; reflexivity).
  rewrite receiveEventFromOfficeOnline_run.
  destruct (JSON_parse h (c :: text)) as [data|e]; [|split; reflexivity].
  destruct (hasMessageId data APP_LOADING_STATUS_MESSAGE_ID).
  - unfold bind.
    pose proof (logLoadTime_frame h EDITOR_LOAD_TIME_EVENT s) as F.
    destruct (logLoadTime h EDITOR_LOAD_TIME_EVENT s) as [[[]|e] s1]; simpl in F;
      destruct F as (_ & F1 & F2 & _); [|split; assumption].
    destruct (publishReadyMessage_dom h s1) as [G1 G2]. split; congruence.
  - destruct (hasMessageId data FILE_RENAME_MESSAGE_ID); [|split; reflexivity].
    destruct (renameTitle h data); split; reflexivity.
Qed.

Lemma invokeAll_dom h event ls : forall s,
  frameHolder (snd (invokeAll h ls event s)) = frameHolder s /\
  officeForm (snd (invokeAll h ls event s)) = officeForm s.
Proof.
  induction ls as [|l ls IH]; intros s; simpl; [split; reflexivity|].
  destruct (str_eqb (listener_type l) "message"); [|apply IH].
  assert (Hone : frameHolder (snd (invoke h (listener_handler l) event s)) = frameHolder s /\
                 officeForm (snd (invoke h (listener_handler l) event s)) = officeForm s).
  { destruct (listener_handler l); simpl; [apply receive_dom | split; reflexivity]. }
  destruct (invoke h (listener_handler l) event s) as [[[]|e] s1]; simpl in Hone;
    destruct Hone as [H1 H2]; destruct (IH s1) as [I1 I2].
  - split; congruence.
  - destruct (invokeAll h ls event s1). simpl in *. split; congruence.
Qed.

(** X14. Only [init] touches the page: a sequence of deliveries and
    teardowns leaves the container with exactly the children it had and
    the form with the submissions it had. And whatever the sequence, the
    children that were in the container stay, in place, and a page without
    container does not get one. *)
Theorem page_kept (h : Host) (acts : list action) (s : State) :
  (Forall (fun a => a <> Init) acts ->
   frameHolder (snd (run h acts s)) = frameHolder s /\
   officeForm (snd (run h acts s)) = officeForm s) /\
  match frameHolder s with
  | Some children =>
      exists more, frameHolder (snd (run h acts s)) = Some (children ++ more)
  | None => frameHolder (snd (run h acts s)) = None
  end.
Proof.
  split; [|destruct (run_grows h acts s) as (_ & _ & _ & _ & H); exact H].
  revert s. induction acts as [|a acts IH]; intros s Hacts; [split; reflexivity|].
  inversion Hacts as [|? ? Ha Hrest]; subst. rewrite run_cons.
  destruct (IH (snd (step h a s)) Hrest) as [I1 I2]. rewrite I1, I2.
  destruct a as [| |event]; [congruence| |].
  - simpl. rewrite destroy_run. destruct (domService (vars s)); split; reflexivity.
  - apply invokeAll_dom.
Qed.

Lemma page_kept_witness :
  let h := sampleHost "https://app.box.com/office" in
  let s := snd (run h [Init] samplePage) in
  let acts := [Deliver {| originalEvent_data := Some appLoadedText |}; Destroy] in
  frameHolder (snd (run h acts s)) = frameHolder s /\
  officeForm (snd (run h acts s)) = officeForm s.
Proof.
  intros h s acts.
  destruct (page_kept h acts s) as [H _]. apply H.
  repeat constructor; discriminate.
Defined.

(** ** The message handler *)

Lemma hasMessageId_other data id :
  (forall props, data <> VObject props) -> hasMessageId data id = false.
Proof.
  intros H. unfold hasMessageId.
  destruct data as [| |b|n|t|items|props]; simpl; try reflexivity;
    try apply andb_false_r.
  destruct (H props eq_refl).
Qed.

(** X15. A payload that parses to anything but an object ([null], a
    boolean, a number, a string, an array) is ignored: the handler returns
    normally and the state is unchanged. *)
Theorem non_object_payload_ignored (h : Host) (s : State) (c : N)
    (text : jsstring) (data : value) :
  JSON_parse h (c :: text) = Ok data ->
  (forall props, data <> VObject props) ->
  receiveEventFromOfficeOnline h {| originalEvent_data := Some (c :: text) |} s
  = (Ok tt, s).
Proof.
  intros Hparse Hdata.
  rewrite receiveEventFromOfficeOnline_run, Hparse.
  rewrite !hasMessageId_other by exact Hdata. reflexivity.
Qed.

Lemma non_object_payload_ignored_witness :
  let h := widerHost "https://app.box.com/office" in
  let s := snd (run h [Init] samplePage) in
  receiveEventFromOfficeOnline h {| originalEvent_data := Some nullText |} s
  = (Ok tt, s).
Proof.
  intros h s.
  refine (non_object_payload_ignored h s 110 "ull" VNull eq_refl _).
  discriminate.
Defined.

(** X16. A rename message whose [Values] is neither missing nor [null]
    but has no [NewName] (an object without that key, or a boolean, a
    number, a string, an array) raises nothing, the configured extension
    being a value that turns into the string [ext]: the title of the
    parent document becomes the title computed with the text [undefined]
    in the place of the name, and nothing else changes. *)
Theorem rename_without_name (h : Host) (s : State) (c : N) (text : jsstring)
    (props : gmap jsstring value) (v : value) (ext : jsstring) :
  JSON_parse h (c :: text) = Ok (VObject props) ->
  props !! "MessageId" = Some (VString "File_Rename") ->
  props !! "Values" = Some v ->
  v <> VUndefined -> v <> VNull ->
  (forall values, v = VObject values -> values !! "NewName" = None) ->
  ToString (Number_toString h) (getConfig h "fileExtension") = Ok ext ->
  exists s',
    receiveEventFromOfficeOnline h {| originalEvent_data := Some (c :: text) |} s
    = (Ok tt, s') /\
    parentTitle s' =
      translate h "%1 on %2" "office_online_window_title_with_file_name"
        [VString ("undefined." ++ ext); getConfig h "titleWithNoFilename"] /\
    sameButTitle s s'.
Proof.
  intros Hparse Hid Hvalues Hu Hn Hname Hext.
  rewrite receiveEventFromOfficeOnline_run, Hparse, !hasMessageId_object, Hid.
  change (str_eqb "File_Rename" APP_LOADING_STATUS_MESSAGE_ID) with false.
  change (str_eqb "File_Rename" FILE_RENAME_MESSAGE_ID) with true.
  cbv iota. unfold renameTitle. cbn [getProperty result_bind]. rewrite Hvalues.
  cbn [default from_option id].
  assert (getProperty v "NewName" = Ok VUndefined) as ->.
  { destruct v as [| |b|n|t|items|values]; try reflexivity; try congruence.
    cbn [getProperty]. rewrite (Hname values eq_refl). reflexivity. }
  cbn [result_bind ToString]. rewrite Hext. cbn [result_bind].
  eexists. split; [reflexivity|]. repeat split.
Qed.

Lemma rename_without_name_witness :
  let h := widerHost "https://app.box.com/office" in
  exists s',
    receiveEventFromOfficeOnline h
      {| originalEvent_data := Some renameEmptyValuesText |} samplePage
    = (Ok tt, s') /\
    parentTitle s' = "undefined.xlsx on Box for Office Online".
Proof.
  intros h.
  destruct (rename_without_name h samplePage 123 (skipn 1 renameEmptyValuesText)
              (<["MessageId" := VString "File_Rename"]> {[ "Values" := VObject ∅ ]})
              (VObject ∅) "xlsx" eq_refl eq_refl eq_refl)
    as (s' & E & T & _).
  - discriminate.
  - discriminate.
  - intros values [= <-]. reflexivity.
  - reflexivity.
  - exists s'. split; [exact E | exact T].
Defined.

Lemma set_parentTitle_twice t s :
  set_parentTitle t (set_parentTitle t s) = set_parentTitle t s.
Proof. destruct s. reflexivity. Qed.

(** X17. Delivering a rename message twice is the same as delivering it
    once: the second handling returns what the first returned and leaves
    the state the first left. *)
Theorem rename_idempotent (h : Host) (s : State) (c : N) (text : jsstring)
    (props : gmap jsstring value) :
  JSON_parse h (c :: text) = Ok (VObject props) ->
  props !! "MessageId" = Some (VString "File_Rename") ->
  let event := {| originalEvent_data := Some (c :: text) |} in
  receiveEventFromOfficeOnline h event
    (snd (receiveEventFromOfficeOnline h event s))
  = receiveEventFromOfficeOnline h event s.
Proof.
  intros Hparse Hid event. subst event.
  rewrite !receiveEventFromOfficeOnline_run, Hparse, !hasMessageId_object, Hid.
  change (str_eqb "File_Rename" APP_LOADING_STATUS_MESSAGE_ID) with false.
  change (str_eqb "File_Rename" FILE_RENAME_MESSAGE_ID) with true.
  cbv iota. destruct (renameTitle h (VObject props)); simpl; [|reflexivity].
  rewrite set_parentTitle_twice. reflexivity.
Qed.

Lemma rename_idempotent_witness :
  let h := sampleHost "https://app.box.com/office" in
  let event := {| originalEvent_data := Some renameText |} in
  receiveEventFromOfficeOnline h event
    (snd (receiveEventFromOfficeOnline h event samplePage))
  = receiveEventFromOfficeOnline h event samplePage.
Proof.
  intros h event.
  exact (rename_idempotent h samplePage 123 (skipn 1 renameText)
           (<["MessageId" := VString "File_Rename"]>
              {[ "Values" := VObject {[ "NewName" := VString "Report" ]} ]})
           eq_refl eq_refl).
Defined.



Lemma findByClass_app_l cls els more i :
  findByClass cls els = Some i -> findByClass cls (els ++ more) = Some i.
Proof.
  revert i. induction els as [|el els IH]; intros i; simpl; [discriminate|].
  destruct (hasClass cls el); [auto|].
  destruct (findByClass cls els) as [j|]; [|discriminate].
  intros [= <-]. rewrite (IH j eq_refl). reflexivity.
Qed.

Lemma findByClass_Some cls els i :
  findByClass cls els = Some i ->
  exists el, els !! i = Some el /\ hasClass cls el = true.
Proof.
  revert i. induction els as [|x els IH]; intros i; simpl; [discriminate|].
  destruct (hasClass cls x) eqn:Hx.
  - intros [= <-]. eauto.
  - destruct (findByClass cls els) as [j|]; [|discriminate].
    intros [= <-]. exact (IH j eq_refl).
Qed.





(** The handling of a loaded message in an initialised module whose frame
    has a content window, with a target origin that [postMessage]
    accepts. *)
Lemma receive_app_ok h s i c text props :
  initialised s -> frameWindow h s = Some i ->
  targetOriginAccepted h (getConfig h "origin") = true ->
  JSON_parse h (c :: text) = Ok (VObject props) ->
  props !! "MessageId" = Some (VString "App_LoadingStatus") ->
  exists s',
    receiveEventFromOfficeOnline h {| originalEvent_data := Some (c :: text) |} s
    = (Ok tt, s') /\
    posted s' = posted s ++ [readyPosted h i (DateReadings s)] /\
    DateReadings s' = S (DateReadings s) /\
    (length (telemetry s) < length (telemetry s'))%nat /\
    vars s' = vars s /\ frameHolder s' = frameHolder s /\
    listeners s' = listeners s.
Proof.
  intros (Hd & Hl & Hp & _) Hf Hacc Hparse Hid.
  rewrite receiveEventFromOfficeOnline_run, Hparse, hasMessageId_object, Hid.
  change (str_eqb "App_LoadingStatus" APP_LOADING_STATUS_MESSAGE_ID) with true.
  cbv iota. unfold bind. rewrite logLoadTime_run, Hp, Hl. cbv zeta.
  destruct (number_ge _ 10000);
    rewrite publishReadyMessage_run; unfold frameWindow in *; simpl;
    rewrite Hd, Hf, Hacc; simpl; eexists; (split; [reflexivity|]); simpl;
    rewrite ?length_app; simpl; repeat split; lia.
Qed.



(** X19. Loaded messages are not deduplicated: in an initialised module
    whose frame has a content window, with a configured origin that
    [postMessage] accepts and the handler registered once, delivering the
    message [n] times raises nothing, posts [n] ready messages stamped with
    the next [n] readings of the wall clock, and reports at least [n] more
    load times. *)
Theorem loaded_each_time (h : Host) (c : N) (text : jsstring)
    (props : gmap jsstring value) (i n : nat) (s : State) :
  JSON_parse h (c :: text) = Ok (VObject props) ->
  props !! "MessageId" = Some (VString "App_LoadingStatus") ->
  targetOriginAccepted h (getConfig h "origin") = true ->
  initialised s -> frameWindow h s = Some i -> listeners s = [subscription] ->
  let event := Deliver {| originalEvent_data := Some (c :: text) |} in
  let out := run h (repeat event n) s in
  fst out = [] /\
  posted (snd out) =
    posted s ++ map (fun j => readyPosted h i (DateReadings s + j)) (seq 0 n) /\
  (length (telemetry s) + n <= length (telemetry (snd out)))%nat.
Proof.
  intros Hparse Hid Hacc. revert s.
  induction n as [|n IH]; intros s Hinit Hf Hl event out; subst event out.
  - simpl. rewrite app_nil_r. repeat split; lia.
  - destruct (receive_app_ok h s i c text props Hinit Hf Hacc Hparse Hid)
      as (s1 & E & Hposted & Hdate & Htel & Hvars & Hholder & Hlis).
    assert (initialised s1) as Hinit1 by (unfold initialised; rewrite Hvars; exact Hinit).
    assert (frameWindow h s1 = Some i) as Hf1
      by (unfold frameWindow; rewrite Hholder; exact Hf).
    specialize (IH s1 Hinit1 Hf1 (eq_trans Hlis Hl)). cbv zeta in IH.
    cbn [repeat run step]. unfold dispatchMessage. rewrite Hl.
    cbn [invokeAll subscription listener_type listener_handler invoke].
    change (str_eqb "message" "message") with true. cbv iota. rewrite E.
    destruct (run h (repeat (Deliver {| originalEvent_data := Some (c :: text) |}) n) s1)
      as [es s2]. simpl in IH |- *. destruct IH as (-> & IHp & IHt).
    split; [reflexivity|]. split.
    + rewrite IHp, Hposted, Hdate, <- app_assoc. simpl. rewrite Nat.add_0_r.
      do 2 f_equal. rewrite <- seq_shift, map_map.
      apply map_ext. intros j. f_equal. lia.
    + lia.
Qed.

Lemma loaded_each_time_witness :
  let h := sampleHost "https://app.box.com/office" in
  let s := snd (run h [Init] samplePage) in
  let event := Deliver {| originalEvent_data := Some appLoadedText |} in
  posted (snd (run h (repeat event 3) s)) =
  [readyPosted h 0 0; readyPosted h 0 1; readyPosted h 0 2].
Proof.
  intros h s event.
  exact (proj1 (proj2 (loaded_each_time h 123 (skipn 1 appLoadedText)
                         {[ "MessageId" := VString "App_LoadingStatus" ]}
                         0%nat 3%nat s eq_refl eq_refl eq_refl
                         (session_initialised h [] samplePage) eq_refl eq_refl))).
Defined.

(** ** The frame element *)



(** ** When no message can be posted *)

Lemma findFrame_grows h s s' i :
  grows h s s' -> findFrame s = Some i -> findFrame s' = Some i.
Proof.
  intros (_ & _ & _ & _ & G). unfold findFrame.
  destruct (frameHolder s) as [children|]; [|discriminate].
  destruct G as [more ->]. apply findByClass_app_l.
Qed.

Lemma blocked_holder h s s' :
  frameHolder s' = frameHolder s -> blocked h s -> blocked h s'.
Proof.
  intros E [H | (i & Hf & Hw)]; [left; exact H | right].
  exists i. unfold findFrame, frameWindow in *. rewrite E. auto.
Qed.

Lemma blocked_grows h s s' : grows h s s' -> blocked h s -> blocked h s'.
Proof.
  intros G [H | (i & Hf & Hw)]; [left; exact H | right].
  exists i. split; [exact (findFrame_grows h s s' i G Hf)|].
  destruct G as (_ & _ & _ & _ & G). unfold findFrame, frameWindow in *.
  destruct (frameHolder s) as [children|]; [|discriminate].
  destruct G as [more ->]. rewrite (findByClass_app_l _ _ more _ Hf), Hf in *.
  destruct (findByClass_Some _ _ _ Hf) as (el & Hel & _).
  rewrite (lookup_app_l_Some _ _ _ _ Hel). rewrite Hel in Hw. exact Hw.
Qed.

Lemma publishReadyMessage_blocked h s :
  blocked h s ->
  posted (snd (publishReadyMessage h s)) = posted s /\
  (domService (vars s) = true ->
   fst (publishReadyMessage h s) = Throw TypeError \/
   fst (publishReadyMessage h s) = Throw DOMSyntaxError).
Proof.
  intros Hb. rewrite publishReadyMessage_run.
  destruct (domService (vars s)); [|split; [reflexivity | discriminate]].
  destruct Hb as [H | (i & _ & Hw)].
  - rewrite H. destruct (frameWindow h s); split; auto.
  - rewrite Hw. split; auto.
Qed.

Lemma receive_blocked h event s :
  blocked h s -> posted (snd (receiveEventFromOfficeOnline h event s)) = posted s.
Proof.
  intros Hb. destruct event as [[[|c text]|]]; try reflexivity.
  rewrite receiveEventFromOfficeOnline_run.
  destruct (JSON_parse h (c :: text)) as [data|e]; [|reflexivity].
  destruct (hasMessageId data APP_LOADING_STATUS_MESSAGE_ID).
  - unfold bind.
    pose proof (logLoadTime_frame h EDITOR_LOAD_TIME_EVENT s) as F.
    destruct (logLoadTime h EDITOR_LOAD_TIME_EVENT s) as [[[]|e] s1]; simpl in F;
      destruct F as (_ & Fh & _ & _ & _ & _ & Fp); [|exact Fp].
    destruct (publishReadyMessage_blocked h s1 (blocked_holder h s s1 Fh Hb)) as [P _].
    congruence.
  - destruct (hasMessageId data FILE_RENAME_MESSAGE_ID); [|reflexivity].
    destruct (renameTitle h data); reflexivity.
Qed.

Lemma invokeAll_blocked h event ls : forall s,
  blocked h s -> posted (snd (invokeAll h ls event s)) = posted s.
Proof.
  induction ls as [|l ls IH]; intros s Hb; simpl; [reflexivity|].
  destruct (str_eqb (listener_type l) "message"); [|apply IH; exact Hb].
  assert (Hone : posted (snd (invoke h (listener_handler l) event s)) = posted s /\
                 blocked h (snd (invoke h (listener_handler l) event s))).
  { destruct (listener_handler l); simpl; [|auto].
    split; [apply receive_blocked; exact Hb|].
    eapply blocked_grows; [apply receive_grows | exact Hb]. }
  destruct (invoke h (listener_handler l) event s) as [[[]|e] s1]; simpl in Hone;
    destruct Hone as [P B].
  - rewrite IH by exact B. exact P.
  - specialize (IH s1 B). destruct (invokeAll h ls event s1). simpl in *. congruence.
Qed.

Lemma run_blocked h acts : forall s,
  blocked h s ->
  posted (snd (run h acts s)) = posted s /\ blocked h (snd (run h acts s)).
Proof.
  induction acts as [|a acts IH]; intros s Hb; [split; [reflexivity | exact Hb]|].
  rewrite run_cons.
  assert (posted (snd (step h a s)) = posted s) as P.
  { destruct a as [| |event]; simpl.
    - pose proof (init_posted h s) as E. destruct (init h s) as [[[]|e] s1]; exact E.
    - rewrite destroy_run. destruct (domService (vars s)); reflexivity.
    - apply invokeAll_blocked. exact Hb. }
  destruct (IH (snd (step h a s))) as [Q B];
    [eapply blocked_grows; [apply step_grows | exact Hb]|].
  split; [congruence | exact B].
Qed.

(** X24. While posting is blocked, that is [postMessage] does not accept
    the configured origin, or the first element of class
    [office-editor-frame] in the container has no content window, nothing
    is posted and posting stays blocked, whatever is started, torn down or
    delivered: the frames that [init] appends come after that first
    element. A loaded message handled by the initialised module then
    throws, a [TypeError] or the [SyntaxError] of [postMessage]. *)
Theorem nothing_posted_when_blocked (h : Host) (page : State) (acts : list action) :
  blocked h page ->
  let final := snd (run h acts page) in
  posted final = posted page /\
  blocked h final /\
  forall c text props,
    initialised final ->
    JSON_parse h (c :: text) = Ok (VObject props) ->
    props !! "MessageId" = Some (VString "App_LoadingStatus") ->
    let out :=
      receiveEventFromOfficeOnline h {| originalEvent_data := Some (c :: text) |}
        final in
    (fst out = Throw TypeError \/ fst out = Throw DOMSyntaxError) /\
    posted (snd out) = posted final.
Proof.
  intros Hb final. destruct (run_blocked h acts page Hb) as [P B].
  split; [exact P|]. split; [exact B|].
  intros c text props (Hd & Hl & Hp & _) Hparse Hid out. subst out.
  split; [|apply receive_blocked; exact B].
  rewrite receiveEventFromOfficeOnline_run, Hparse, hasMessageId_object, Hid.
  change (str_eqb "App_LoadingStatus" APP_LOADING_STATUS_MESSAGE_ID) with true.
  cbv iota. unfold bind.
  destruct (logLoadTime_first h EDITOR_LOAD_TIME_EVENT final Hp Hl)
    as (s1 & rest & E & _).
  pose proof (logLoadTime_frame h EDITOR_LOAD_TIME_EVENT final) as F.
  rewrite E in F |- *. simpl in F. destruct F as (Fv & Fh & _).
  destruct (publishReadyMessage_blocked h s1 (blocked_holder h _ s1 Fh B)) as [_ T].
  destruct (publishReadyMessage h s1) as [r s2]. simpl in T.
  apply T. rewrite Fv. exact Hd.
Qed.

Lemma nothing_posted_when_blocked_witness :
  let h := sampleHost "https://app.box.com/office" in
  let ev := Deliver {| originalEvent_data := Some appLoadedText |} in
  posted (snd (run h [Init; ev; Init; ev] shadowedPage)) = [].
Proof.
  intros h ev.
  destruct (nothing_posted_when_blocked h shadowedPage [Init; ev; Init; ev]) as [P _].
  - right. exists 0%nat. split; reflexivity.
  - exact P.
Defined.

(** ** Subscription and timing over a session *)

Lemma filter_snoc_subscription (ls : list Listener) :
  unsubscribed ls ->
  filter (fun l => l <> subscription) (ls ++ [subscription]) = ls.
Proof.
  intros H. rewrite filter_app.
  assert (filter (fun l => l <> subscription) [subscription] = []) as ->.
  { rewrite filter_cons_False by (intros Hne; apply Hne; reflexivity). reflexivity. }
  rewrite app_nil_r. induction H as [|l ls Hl _ IH]; [reflexivity|].
  rewrite filter_cons_True by exact Hl. rewrite IH. reflexivity.
Qed.

Lemma init_ok_listeners h page :
  fst (init h page) = Ok tt ->
  domService (vars (snd (init h page))) = true /\
  listeners (snd (init h page)) = listeners page ++ [subscription].
Proof.
  rewrite init_run. unfold bind at 1 3 5. rewrite drawIframe_run.
  change (domService (vars (started h page))) with true. cbv iota.
  destruct (getOfficeEditorFrameElement h) as [el|e]; [|discriminate].
  destruct (frameHolder (started h page)); [|discriminate].
  set (s1 := set_frameHolder _ (started h page)).
  pose proof (logLoadTime_frame h IFRAME_LOAD_TIME_EVENT s1) as F.
  destruct (logLoadTime h IFRAME_LOAD_TIME_EVENT s1) as [[[]|e] s2]; simpl in F;
    [|discriminate].
  destruct F as (Fv & _ & _ & Fl & _).
  unfold bind. rewrite postTokenToIframe_run.
  assert (domService (vars s2) = true) as Hd by (rewrite Fv; reflexivity).
  rewrite Hd. destruct (officeForm s2); [|discriminate].
  rewrite subscribe_run. simpl. rewrite Hd. intros _. simpl.
  rewrite Fl. subst s1. split; [exact Hd | reflexivity].
Qed.

(** X22. Start-up then teardown gives the listeners back: when the message
    handler was not registered before [init] and [init] returns normally,
    [destroy] returns normally and the registered listeners are again
    those of before [init]; the frame stays in the page and what was
    reported stays reported. *)
Theorem init_then_destroy (h : Host) (page : State) :
  unsubscribed (listeners page) ->
  fst (init h page) = Ok tt ->
  exists s',
    destroy (snd (init h page)) = (Ok tt, s') /\
    listeners s' = listeners page /\
    frameHolder s' = frameHolder (snd (init h page)) /\
    telemetry s' = telemetry (snd (init h page)).
Proof.
  intros Hu Hinit. destruct (init_ok_listeners h page Hinit) as [Hd Hl].
  rewrite destroy_run, Hd. eexists. split; [reflexivity|]. simpl.
  rewrite Hl, filter_snoc_subscription by exact Hu. repeat split.
Qed.

Lemma init_then_destroy_witness :
  let h := sampleHost "https://app.box.com/office" in
  exists s', destroy (snd (init h samplePage)) = (Ok tt, s') /\ listeners s' = [].
Proof.
  intros h.
  destruct (init_then_destroy h samplePage) as (s' & E & Hl & _).
  - constructor.
  - reflexivity.
  - exists s'. split; [exact E | exact Hl].
Defined.

(** X23. In a session (one [init], then deliveries and teardowns) with a
    clock that never goes back, every load time reported is a number, not
    [NaN], and is not negative. *)
Theorem load_times_not_negative (h : Host) (page : State) (acts : list action) :
  (forall i j, (i <= j)%nat -> (performance_clock h i <= performance_clock h j)%Q) ->
  telemetry page = [] ->
  Forall (fun a => a <> Init) acts ->
  forall c p,
    c ∈ telemetry (snd (run h (Init :: acts) page)) ->
    log_seen c = Some p ->
    exists e, load_time p = Num e /\ (0 <= e)%Q.
Proof.
  intros Hmono Hpage Hacts c p Hc Hp.
  assert (Hinv : sessionInv h (S (performanceReadings page))
                   (reading h (performanceReadings page))
                   (snd (run h (Init :: acts) page))).
  { rewrite run_cons. apply run_sessionInv; [exact Hacts|].
    pose proof (init_sessionInv h page Hpage) as H.
    simpl. destruct (init h page) as [[[]|e] s1]; exact H. }
  destruct Hinv as (_ & _ & Ht). rewrite Forall_forall in Ht.
  destruct (Ht c Hc) as [(p' & Hp' & _ & Hl) | (k & Hk & p' & Hp' & _ & Hl)];
    rewrite Hp in Hp'; injection Hp' as <-; eexists; (split; [exact Hl|]).
  - apply roundDouble_nonneg.
    pose proof (roundDouble_mono _ _
                  (Hmono (performanceReadings page) (S (performanceReadings page))
                     ltac:(lia))). unfold reading. lra.
  - apply roundDouble_nonneg.
    pose proof (roundDouble_mono _ _
                  (Hmono (performanceReadings page) k ltac:(lia))).
    unfold reading. lra.
Qed.

Lemma load_times_not_negative_witness :
  let h := sampleHost "https://app.box.com/office" in
  exists e,
    load_time (loadParams h (started h samplePage) "IFRAME_LOAD_TIME") = Num e /\
    (0 <= e)%Q.
Proof.
  intros h.
  refine (load_times_not_negative h samplePage
            [Deliver {| originalEvent_data := Some appLoadedText |}]
            (sample_clock_monotone _) eq_refl _
            (logCall 0 (loadParams h (started h samplePage) "IFRAME_LOAD_TIME")) _
            _ eq_refl).
  - repeat constructor. discriminate.
  - apply list_elem_of_In. vm_compute. left. reflexivity.
Defined.
